(** * Blog automation pipeline: generator post-processing, publisher fan-out
      and the scheduler's job bodies.

    Shallow embedding of
      modules/blog_automation/blog_generator.py   (BlogGenerator)
      modules/blog_automation/content_publisher.py (PublisherManager,
                                                    NextJSAPIPublisher)
      modules/blog_automation/blog_scheduler.py   (BlogScheduler)

    Conventions.
    - A Python [str] is a [string]; its characters are taken to be ASCII
      (code points below 128), so that [str.isspace], [str.lower] and the
      regular-expression classes used by the source are the ASCII ones.
    - A Python [int] is a [Z].
    - A Python [dict] with string keys whose order is never observed is a
      [gmap string _]; the publisher registry, whose key order is observed
      by [list(self.publishers.keys())], is an association list.
    - Code that can raise runs in the monad [M]: a state transformer over
      [World] whose result is either [Returned v] or [Raised e], [e] being
      [str(e)] of a Python [Exception].  State changes made before a raise
      persist, as in Python.
    - Everything the process does not control (the chat-completion service,
      the database driver, the random generator, the publishers' remote
      ends, the [schedule] package's time parser) is an oracle in [Env]. *)

From Stdlib Require Import ZArith Ascii String List Lia Bool.
From Stdlib Require PrimFloat Uint63.
From stdpp Require Import base gmap strings list fin_maps pretty.

Local Open Scope Z_scope.

(** ** Python string primitives *)

Module PyStr.

Abbreviation chars := String.list_ascii_of_string.
Abbreviation str := String.string_of_list_ascii.

(** [c.isspace()] on ASCII: TAB, LF, VT, FF, CR, FS, GS, RS, US, SPACE. *)
Definition is_space (c : ascii) : bool :=
  let n := nat_of_ascii c in
  ((9 <=? n)%nat && (n <=? 13)%nat) || ((28 <=? n)%nat && (n <=? 32)%nat).

Definition is_upper (c : ascii) : bool :=
  let n := nat_of_ascii c in (65 <=? n)%nat && (n <=? 90)%nat.
Definition is_lower (c : ascii) : bool :=
  let n := nat_of_ascii c in (97 <=? n)%nat && (n <=? 122)%nat.
Definition is_digit (c : ascii) : bool :=
  let n := nat_of_ascii c in (48 <=? n)%nat && (n <=? 57)%nat.
Definition is_alnum (c : ascii) : bool := is_upper c || is_lower c || is_digit c.
(** the class [\w] *)
Definition is_word (c : ascii) : bool := is_alnum c || Ascii.eqb c "_".

Definition lower_char (c : ascii) : ascii :=
  if is_upper c then ascii_of_nat (nat_of_ascii c + 32) else c.

(** [s.lower()] *)
Definition lower (s : string) : string := str (map lower_char (chars s)).

(** [s.lstrip()] / [s.strip()] on character lists *)
Fixpoint lstrip_by (p : ascii -> bool) (l : list ascii) : list ascii :=
  match l with
  | c :: l' => if p c then lstrip_by p l' else l
  | [] => []
  end.
Definition strip_by (p : ascii -> bool) (l : list ascii) : list ascii :=
  rev (lstrip_by p (rev (lstrip_by p l))).

(** [s.strip()] *)
Definition strip (s : string) : string := str (strip_by is_space (chars s)).
(** [s.strip('-')] and the like *)
Definition strip_char (c : ascii) (s : string) : string :=
  str (strip_by (Ascii.eqb c) (chars s)).

(** [s.split()]: the maximal runs of non-whitespace characters.
    [cur] is the run being read, reversed. *)
Fixpoint split_ws_go (cur : list ascii) (l : list ascii) : list string :=
  match l with
  | [] => match cur with [] => [] | _ => [str (rev cur)] end
  | c :: l' =>
      if is_space c
      then match cur with
           | [] => split_ws_go [] l'
           | _ => str (rev cur) :: split_ws_go [] l'
           end
      else split_ws_go (c :: cur) l'
  end.
Definition split (s : string) : list string := split_ws_go [] (chars s).

(** [s.split(sep)] for a one-character separator: one more piece than
    there are separators. *)
Fixpoint split_on_go (sep : ascii) (cur : list ascii) (l : list ascii)
  : list string :=
  match l with
  | [] => [str (rev cur)]
  | c :: l' =>
      if Ascii.eqb c sep
      then str (rev cur) :: split_on_go sep [] l'
      else split_on_go sep (c :: cur) l'
  end.
Definition split_on (sep : ascii) (s : string) : list string :=
  split_on_go sep [] (chars s).

(** [sep.join(l)] *)
Fixpoint join (sep : string) (l : list string) : string :=
  match l with
  | [] => ""
  | [x] => x
  | x :: l' => x +:+ sep +:+ join sep l'
  end.

(** [s.startswith(p)], [s.endswith(p)] *)
Definition startswith (s p : string) : bool := String.prefix p s.
Definition endswith (s p : string) : bool :=
  String.prefix (String.rev p) (String.rev s).

(** [len(s)] *)
Definition len (s : string) : Z := Z.of_nat (String.length s).

(** [s.rfind(c)] for a one-character needle: the last index, or -1. *)
Fixpoint rfind_go (c : ascii) (l : list ascii) (i : Z) (last : Z) : Z :=
  match l with
  | [] => last
  | x :: l' => rfind_go c l' (i + 1) (if Ascii.eqb x c then i else last)
  end.
Definition rfind (s : string) (c : ascii) : Z := rfind_go c (chars s) 0 (-1).

(** [l[:n]] on a list, with Python's reading of a negative bound. *)
Definition take {A} (n : Z) (l : list A) : list A :=
  if n <? 0
  then firstn (Z.to_nat (Z.max 0 (Z.of_nat (length l) + n))) l
  else firstn (Z.to_nat n) l.
(** [s[:n]] *)
Definition take_str (n : Z) (s : string) : string := str (take n (chars s)).

(** [s.replace(a, b)] for one-character [a] and [b] *)
Definition replace_char (a b : ascii) (s : string) : string :=
  str (map (fun c => if Ascii.eqb c a then b else c) (chars s)).

(** [str(n)] *)
Definition of_int (n : Z) : string := pretty n.

End PyStr.


(** ** Python values, dictionaries and results *)

(** The values found in the dictionaries the pipeline passes around.
    JSON values of other shapes (numbers with a fraction, nested objects)
    are not represented; the pipeline would treat them like any other
    value that is not a string. *)
Inductive Value :=
| VNone
| VBool (b : bool)
| VInt (n : Z)
| VStr (s : string)
| VList (l : list string)
| VDatetime (t : nat)   (* the [datetime] read at clock instant [t] *)
| VSeconds (d : nat).   (* a duration, [timedelta.total_seconds()] *)

#[global] Instance Value_eq_dec : EqDecision Value.
Proof. solve_decision. Defined.

(** [datetime.isoformat()].  The clock of the model counts its readings,
    and the text of instant [t] is written with the numeral of [t]. *)
Definition isoformat (t : nat) : string := "T" +:+ pretty t.
Definition VIso (t : nat) : Value := VStr (isoformat t).

(** Truth value of [v] in a condition. *)
Definition truthy (v : Value) : bool :=
  match v with
  | VNone => false
  | VBool b => b
  | VInt n => negb (n =? 0)
  | VStr s => negb (String.eqb s "")
  | VList l => match l with [] => false | _ => true end
  | VDatetime _ => true
  | VSeconds d => negb (d =? 0)%nat
  end.

(** [a or b] *)
Definition py_or (a b : Value) : Value := if truthy a then a else b.

(** [d.get(k)] and [d.get(k, default)] *)
Definition dict_get (d : gmap string Value) (k : string) : Value :=
  default VNone (d !! k).
Definition dict_get_default (d : gmap string Value) (k : string) (dflt : Value)
  : Value := default dflt (d !! k).

(** What a call may give back: a dictionary, or [None] (a function that
    falls off its end). *)
Inductive PyObj :=
| ODict (d : gmap string Value)
| ONone.

Inductive Outcome (A : Type) :=
| Returned (a : A)
| Raised (e : string).
Arguments Returned {A} a.
Arguments Raised {A} e.

(** ** Publishers *)

(** One [publish_post] invocation made by the manager. *)
Record Call := mkCall {
  call_name : string;
  call_title : Value;
  call_content : Value;
  call_tags : Value }.

(** The class tests of [publish_to_all]: the four adapter classes (an
    instance of a subclass passes the same [isinstance] test), or none. *)
Inductive PublisherClass :=
| WordPressPublisher
| MediumPublisher
| NextJSAPIPublisher
| CustomWebsitePublisher
| OtherClass.

(** A registered publisher object.  [publish_post history title content tags]
    is what its method does when invoked after the invocations [history]:
    it talks to the remote end, so its result is the environment's choice. *)
Record Publisher := mkPublisher {
  pub_class : PublisherClass;
  publish_post : list Call -> Value -> Value -> Value -> Outcome PyObj }.

(** ** Scheduler state *)

(** [BlogScheduler.stats] *)
Record Stats := mkStats {
  total_generated : Z;
  total_published : Z;
  failed_generations : Z;
  failed_publications : Z;
  last_generation : Value;
  last_publication : Value }.

(** A row of the MySQL table [blog_posts] as the MySQL branch of
    [_save_blog_to_database] builds it. *)
Record BlogPost := mkBlogPost {
  bp_title : Value;
  bp_content : Value;
  bp_topic : Value;
  bp_status : Value;
  bp_word_count : Value;
  bp_tags : Value;               (* the value [json.dumps] is applied to *)
  bp_is_auto_generated : bool;
  bp_source_url : Value }.

Inductive Row :=
| MongoDocument (doc : gmap string Value)
| MySQLRow (r : BlogPost).

(** The [status] a stored record carries. *)
Definition row_status (r : Row) : Value :=
  match r with
  | MongoDocument doc => dict_get doc "status"
  | MySQLRow r => bp_status r
  end.

Definition row_word_count (r : Row) : Value :=
  match r with
  | MongoDocument doc => dict_get doc "word_count"
  | MySQLRow r => bp_word_count r
  end.

(** A job registered with the [schedule] package. *)
Inductive Job :=
| DailyBlogJob (time_str : string) (topics : list string) (max_words : Z)
    (publish_immediately : bool) (platforms : option (list string)).

(** Everything a run can read or change. *)
Record World := mkWorld {
  stats : Stats;                         (* self.stats *)
  publishers : list (string * Publisher);  (* self.publisher_manager.publishers *)
  stats_store : option Stats;            (* the persisted copy of the statistics *)
  stats_writes : nat;                    (* statistics writes attempted *)
  blog_posts : list Row;                 (* the stored blog records, oldest first *)
  db_inserts : nat;                      (* record inserts attempted *)
  publish_calls : list Call;             (* publish_post invocations, oldest first *)
  completions : nat;                     (* chat-completion requests made *)
  draws : nat;                           (* random draws made *)
  clock : nat;                           (* clock readings made *)
  jobs : list Job }.                     (* schedule.jobs *)

(** Replies of the chat-completion service to the blog prompt, after
    [json.loads]. *)
Inductive AIReply :=
| AIJsonObject (d : gmap string Value)   (* the text parses to a JSON object *)
| AIJsonOther (type_error : string)      (* it parses to a list, string, number... *)
| AINotJson (text : string)              (* json.JSONDecodeError *)
| AIError (e : string).                  (* any other exception *)

(** Replies to the series-plan prompt. *)
Inductive PlanReply :=
| PlanList (l : list Value)              (* a JSON array *)
| PlanUnusable.                          (* not a list, or any exception *)

(** Settings and oracles. *)
Record Env := mkEnv {
  DATABASE_TYPE : string;
  BLOG_MAX_LENGTH : Z;
  (** reply to the [n]-th request, for the blog prompt built from
      topic, max_words, target_audience, style *)
  chat_blog : nat -> string -> Z -> string -> string -> AIReply;
  (** reply to the [n]-th request, for the plan prompt built from
      main_topic, num_posts *)
  chat_plan : nat -> string -> Z -> PlanReply;
  (** the [n]-th insert raises [e] *)
  insert_error : nat -> Row -> option string;
  (** the [n]-th statistics write raises *)
  stats_write_fails : nat -> bool;
  (** the [n]-th random number *)
  random_draw : nat -> nat;
  (** [schedule]'s [at(time_str)] accepts the string for a daily job *)
  at_time_ok : string -> bool }.

(** ** The monad *)

Definition M (A : Type) : Type := World -> Outcome A * World.

#[global] Instance M_ret : MRet M := fun A a w => (Returned a, w).
#[global] Instance M_bind : MBind M := fun A B f m w =>
  match m w with
  | (Returned a, w') => f a w'
  | (Raised e, w') => (Raised e, w')
  end.

(** [raise Exception(e)] *)
Definition raise {A} (e : string) : M A := fun w => (Raised e, w).

(** [try: body  except Exception as e: handler e] *)
Definition try_except {A} (body : M A) (handler : string -> M A) : M A :=
  fun w =>
    match body w with
    | (Returned a, w') => (Returned a, w')
    | (Raised e, w') => handler e w'
    end.

Definition get_world : M World := fun w => (Returned w, w).
Definition modify (f : World -> World) : M unit := fun w => (Returned tt, f w).

(** [for x in l: acc = body x acc] *)
Fixpoint for_each {A B} (l : list A) (body : A -> B -> M B) (acc : B) : M B :=
  match l with
  | [] => mret acc
  | x :: l' => acc' ← body x acc; for_each l' body acc'
  end.

(** Field updates. *)
Definition set_stats (f : Stats -> Stats) (w : World) : World :=
  mkWorld (f (stats w)) (publishers w) (stats_store w) (stats_writes w)
    (blog_posts w) (db_inserts w) (publish_calls w) (completions w)
    (draws w) (clock w) (jobs w).
Definition set_store (s : option Stats) (w : World) : World :=
  mkWorld (stats w) (publishers w) s (S (stats_writes w))
    (blog_posts w) (db_inserts w) (publish_calls w) (completions w)
    (draws w) (clock w) (jobs w).
Definition set_posts (rows : list Row) (w : World) : World :=
  mkWorld (stats w) (publishers w) (stats_store w) (stats_writes w)
    rows (S (db_inserts w)) (publish_calls w) (completions w)
    (draws w) (clock w) (jobs w).
Definition log_call (c : Call) (w : World) : World :=
  mkWorld (stats w) (publishers w) (stats_store w) (stats_writes w)
    (blog_posts w) (db_inserts w) (publish_calls w ++ [c]) (completions w)
    (draws w) (clock w) (jobs w).
Definition count_completion (w : World) : World :=
  mkWorld (stats w) (publishers w) (stats_store w) (stats_writes w)
    (blog_posts w) (db_inserts w) (publish_calls w) (S (completions w))
    (draws w) (clock w) (jobs w).
Definition count_draw (w : World) : World :=
  mkWorld (stats w) (publishers w) (stats_store w) (stats_writes w)
    (blog_posts w) (db_inserts w) (publish_calls w) (completions w)
    (S (draws w)) (clock w) (jobs w).
Definition tick (w : World) : World :=
  mkWorld (stats w) (publishers w) (stats_store w) (stats_writes w)
    (blog_posts w) (db_inserts w) (publish_calls w) (completions w)
    (draws w) (S (clock w)) (jobs w).
Definition set_jobs (js : list Job) (w : World) : World :=
  mkWorld (stats w) (publishers w) (stats_store w) (stats_writes w)
    (blog_posts w) (db_inserts w) (publish_calls w) (completions w)
    (draws w) (clock w) js.

(** [datetime.now()] *)
Definition now : M nat := fun w => (Returned (clock w), tick w).

(** ** content_publisher.py *)

(** Text of a value inside an f-string. *)
Definition py_format (v : Value) : string :=
  match v with
  | VNone => "None"
  | VBool true => "True"
  | VBool false => "False"
  | VInt n => PyStr.of_int n
  | VStr s => s
  | VList l => "[" +:+ PyStr.join ", " (map (fun s => "'" +:+ s +:+ "'") l) +:+ "]"
  | VDatetime t => "datetime(" +:+ pretty t +:+ ")"
  | VSeconds d => pretty d +:+ ".0"
  end.

(** *** NextJSAPIPublisher.publish_post: the handling of the reply *)

(** [response.json()]: a JSON object, or a body the handler cannot use
    (the call raises, or the value has no [get]); [error_text] is then the
    ['error'] text of the except clause that catches it. *)
Inductive HttpBody :=
| BodyObject (d : gmap string Value)
| BodyUnusable (error_text : string).

(** What [requests.post] does. [http_error] is [str(e)] of the [HTTPError]
    that [raise_for_status] raises for this response when its status is
    an error status. *)
Inductive HttpReply :=
| HttpTimeout
| HttpConnectionError
| HttpRequestError (e : string)
| HttpResponse (status_code : Z) (body : HttpBody) (http_error : string).

Record Exchange := mkExchange {
  started : nat;       (* start_time *)
  reply : HttpReply;
  elapsed : nat }.     (* (datetime.now() - start_time).total_seconds() *)

Definition failure_with_post_id (e : string) : PyObj :=
  ODict {[ "success" := VBool false; "error" := VStr e; "post_id" := VNone ]}.

(** [publish_post(title, content, tags)] as the manager calls it: [status]
    keeps its default ["draft"]. *)
Definition NextJSAPIPublisher_publish_post (x : Exchange) : Outcome PyObj :=
  match reply x with
  | HttpTimeout =>
      Returned (failure_with_post_id "Request timeout - API may be unavailable")
  | HttpConnectionError =>
      Returned (failure_with_post_id "Failed to connect to API - check URL and network")
  | HttpRequestError e =>
      Returned (failure_with_post_id ("API Request Error: " +:+ e))
  | HttpResponse status_code body http_error =>
      if status_code =? 201 then
        match body with
        | BodyObject result_data =>
            Returned (ODict
              {[ "success" := VBool true;
                 "post_id" := py_or (dict_get result_data "id") (dict_get result_data "_id");
                 "url" := py_or (dict_get result_data "url") (dict_get result_data "slug");
                 "status" := VStr "draft";
                 "published_at" := VIso (started x);
                 "api_response_time" := VSeconds (elapsed x) ]})
        | BodyUnusable error_text => Returned (failure_with_post_id error_text)
        end
      else if status_code =? 400 then
        match body with
        | BodyObject d =>
            let error_detail := dict_get_default d "message" (VStr "Bad Request") in
            Returned (ODict
              {[ "success" := VBool false;
                 "error" := VStr ("Validation Error: " +:+ py_format error_detail);
                 "post_id" := VNone;
                 "api_response_time" := VSeconds (elapsed x) ]})
        | BodyUnusable error_text => Returned (failure_with_post_id error_text)
        end
      else if status_code =? 401 then
        Returned (ODict
          {[ "success" := VBool false;
             "error" := VStr "Session authentication failed - check admin session data";
             "post_id" := VNone;
             "auth_type" := VStr "session";
             "api_response_time" := VSeconds (elapsed x) ]})
      else if status_code =? 429 then
        Returned (failure_with_post_id "Rate limit exceeded - please try again later")
      else
        (* response.raise_for_status() *)
        if (400 <=? status_code) && (status_code <? 600)
        then Returned (failure_with_post_id ("API Request Error: " +:+ http_error))
        else Returned ONone   (* the function ends without a return *)
  end.

(** A Next.js publisher whose remote end answers as [remote] says. *)
Definition nextjs_publisher
    (remote : list Call -> Value -> Value -> Value -> Exchange) : Publisher :=
  mkPublisher NextJSAPIPublisher
    (fun history title content tags =>
       NextJSAPIPublisher_publish_post (remote history title content tags)).

(** *** PublisherManager *)

(** [self.publishers[name]] / [name in self.publishers] *)
Fixpoint registry_lookup (name : string) (reg : list (string * Publisher))
  : option Publisher :=
  match reg with
  | [] => None
  | (k, p) :: reg' => if String.eqb k name then Some p else registry_lookup name reg'
  end.

(** [list(self.publishers.keys())] *)
Definition registry_keys (reg : list (string * Publisher)) : list string :=
  map fst reg.

Definition not_configured : PyObj :=
  ODict {[ "success" := VBool false; "error" := VStr "Publisher not configured" ]}.
Definition unknown_publisher_type : PyObj :=
  ODict {[ "success" := VBool false; "error" := VStr "Unknown publisher type" ]}.
Definition failure (e : string) : PyObj :=
  ODict {[ "success" := VBool false; "error" := VStr e ]}.

(** [publisher.publish_post(title, content, tags)]: the invocation is
    logged, the outcome is the publisher's. *)
Definition invoke_publish_post (platform_name : string) (publisher : Publisher)
    (title content tags : Value) : M PyObj :=
  fun w =>
    (publish_post publisher (publish_calls w) title content tags,
     log_call (mkCall platform_name title content tags) w).

(** The chain of [isinstance] tests. *)
Definition dispatch (platform_name : string) (publisher : Publisher)
    (title content tags : Value) : M PyObj :=
  match pub_class publisher with
  | WordPressPublisher => invoke_publish_post platform_name publisher title content tags
  | MediumPublisher => invoke_publish_post platform_name publisher title content tags
  | NextJSAPIPublisher => invoke_publish_post platform_name publisher title content tags
  | CustomWebsitePublisher => invoke_publish_post platform_name publisher title content tags
  | OtherClass => mret unknown_publisher_type
  end.

(** The body of the loop of [publish_to_all]. *)
Definition publish_one (title content tags : Value)
    (platform_name : string) (results : gmap string PyObj)
  : M (gmap string PyObj) :=
  w ← get_world;
  match registry_lookup platform_name (publishers w) with
  | Some publisher =>
      try_except
        (result ← dispatch platform_name publisher title content tags;
         mret (<[platform_name := result]> results))
        (fun e => mret (<[platform_name := failure e]> results))
  | None => mret (<[platform_name := not_configured]> results)
  end.

(** [platforms or default] for an optional list *)
Definition or_list {A} (platforms : option (list A)) (dflt : list A) : list A :=
  match platforms with
  | Some (x :: l) => x :: l
  | _ => dflt
  end.

Definition publish_to_all (title content tags : Value)
    (platforms : option (list string)) : M (gmap string PyObj) :=
  w ← get_world;
  let target_platforms := or_list platforms (registry_keys (publishers w)) in
  for_each target_platforms (publish_one title content tags) ∅.

(** ** blog_generator.py *)

Definition type_name (v : Value) : string :=
  match v with
  | VNone => "NoneType"
  | VBool _ => "bool"
  | VInt _ => "int"
  | VStr _ => "str"
  | VList _ => "list"
  | VDatetime _ => "datetime.datetime"
  | VSeconds _ => "float"
  end.

(** [str(e)] of the [AttributeError] of [v.attr] *)
Definition no_attribute (v : Value) (attr : string) : string :=
  "'" +:+ type_name v +:+ "' object has no attribute '" +:+ attr +:+ "'".

(** [str(e)] of the [KeyError] of [d[k]] *)
Definition key_error (k : string) : string := "'" +:+ k +:+ "'".

(** [d[k]] *)
Definition dict_item (d : gmap string Value) (k : string) : M Value :=
  match d !! k with
  | Some v => mret v
  | None => raise (key_error k)
  end.

(** The receiver of a [str] method call: the string, or an
    [AttributeError]. *)
Definition as_str (v : Value) (method : string) : M string :=
  match v with
  | VStr s => mret s
  | _ => raise (no_attribute v method)
  end.

(** One line of [_ensure_heading_structure]. *)
Definition heading_line (line : string) : string :=
  let line := PyStr.strip line in
  if negb (String.eqb line "")
     && (10 <? PyStr.len line)
     && (PyStr.len line <? 100)
     && negb (PyStr.startswith line "#")
     && negb (PyStr.startswith line "-")
     && negb (PyStr.startswith line "*")
     && PyStr.endswith line ":"
  then "## " +:+ line
  else line.

Definition _ensure_heading_structure (content : string) : string :=
  let lines := PyStr.split_on "010" content in
  let processed_lines := map heading_line lines in
  PyStr.join (String "010" "") processed_lines.

(** [end_pos > len(trimmed_text) * 0.8] is decided on the integers as
    [4 * len < 5 * end_pos]: the two agree for every length a string can
    have, the double nearest to 0.8 being within 2^-54 of it. *)
Definition _trim_content (content : string) (max_words : Z) : string :=
  let words := PyStr.split content in
  if Z.of_nat (length words) <=? max_words then content
  else
    let trimmed_words := PyStr.take max_words words in
    let trimmed_text := PyStr.join " " trimmed_words in
    let last_period := PyStr.rfind trimmed_text "." in
    let last_exclamation := PyStr.rfind trimmed_text "!" in
    let last_question := PyStr.rfind trimmed_text "?" in
    let end_pos := Z.max (Z.max last_period last_exclamation) last_question in
    if 4 * PyStr.len trimmed_text <? 5 * end_pos
    then PyStr.take_str (end_pos + 1) trimmed_text
    else trimmed_text +:+ "...".

(** [re.sub(r'[-\s]+', '-', s)] on characters: every maximal run of
    hyphens and whitespace becomes one hyphen. *)
Fixpoint collapse_separators (in_run : bool) (l : list ascii) : list ascii :=
  match l with
  | [] => []
  | c :: l' =>
      if Ascii.eqb c "-" || PyStr.is_space c
      then (if in_run then collapse_separators true l'
            else "-"%char :: collapse_separators true l')
      else c :: collapse_separators false l'
  end.

Definition _generate_slug (title : string) : string :=
  let slug := PyStr.lower title in
  (* re.sub(r'[^a-zA-Z0-9\s-]', '', slug) *)
  let kept := filter (fun c => PyStr.is_alnum c || PyStr.is_space c || Ascii.eqb c "-")
                (PyStr.chars slug) in
  let slug := PyStr.str (collapse_separators false kept) in
  PyStr.strip_char "-" slug.

(** [re.findall(r'#(\w+)', content)]: [cur] is the word being read after
    a ['#'], reversed, when there is one. *)
Fixpoint hashtags_go (cur : option (list ascii)) (l : list ascii) : list string :=
  match l with
  | [] => match cur with
          | Some (c :: acc) => [PyStr.str (rev (c :: acc))]
          | _ => []
          end
  | c :: l' =>
      match cur with
      | Some acc =>
          if PyStr.is_word c then hashtags_go (Some (c :: acc)) l'
          else
            let next := if Ascii.eqb c "#" then Some [] else None in
            match acc with
            | [] => hashtags_go next l'
            | _ => PyStr.str (rev acc) :: hashtags_go next l'
            end
      | None => hashtags_go (if Ascii.eqb c "#" then Some [] else None) l'
      end
  end.
Definition hashtags (content : string) : list string :=
  hashtags_go None (PyStr.chars content).

Definition _extract_content_from_text (content topic : string)
  : gmap string Value :=
  let lines := PyStr.split_on "010" content in
  let title := match lines with
               | l0 :: _ => PyStr.strip l0
               | [] => "Understanding " +:+ topic
               end in
  let tag_matches := hashtags content in
  let tags := match tag_matches with
              | _ :: _ => PyStr.take 5 tag_matches
              | [] =>
                  let words := PyStr.split (PyStr.lower topic) in
                  PyStr.take 3 words ++ ["blog"; "article"]
              end in
  {[ "title" := VStr title;
     "content" := VStr content;
     "tags" := VList tags;
     "meta_description" :=
       VStr ("Learn about " +:+ topic +:+ " and its implications in 2025.");
     "word_count" := VInt (Z.of_nat (length (PyStr.split content))) ]}.

(** What [_generate_content] returns: a dictionary, or a JSON value that
    is not an object; [type_error] is then [str(e)] of the [TypeError]
    that subscripting it with a string raises. *)
Inductive RawBlog :=
| RawDict (d : gmap string Value)
| RawOther (type_error : string).

Definition _generate_content (env : Env) (topic : string) (max_words : Z)
    (target_audience style : string) : M RawBlog :=
  w ← get_world;
  modify count_completion;;
  match chat_blog env (completions w) topic max_words target_audience style with
  | AIJsonObject d => mret (RawDict d)
  | AIJsonOther type_error => mret (RawOther type_error)
  | AINotJson content => mret (RawDict (_extract_content_from_text content topic))
  | AIError e => raise e
  end.

Definition _process_blog_content (env : Env) (blog_data : RawBlog)
    (topic : string) : M (gmap string Value) :=
  match blog_data with
  | RawOther type_error => raise type_error
  | RawDict blog_data =>
      v ← dict_item blog_data "content";
      content ← as_str v "strip";
      let content := PyStr.strip content in
      let content := _ensure_heading_structure content in
      let word_count := Z.of_nat (length (PyStr.split content)) in
      let '(content, word_count) :=
        if BLOG_MAX_LENGTH env <? word_count
        then (_trim_content content (BLOG_MAX_LENGTH env), BLOG_MAX_LENGTH env)
        else (content, word_count) in
      t ← dict_item blog_data "title";
      title ← as_str t "lower";
      let slug := _generate_slug title in
      created_at ← now;
      mret (<["status" := VStr "draft"]>
            (<["is_auto_generated" := VBool true]>
            (<["topic" := VStr topic]>
            (<["created_at" := VIso created_at]>
            (<["slug" := VStr slug]>
            (<["word_count" := VInt word_count]>
            (<["content" := VStr content]> blog_data)))))))
  end.

(** The keys of [self.blog_templates] *)
Definition blog_templates : list string :=
  ["informative"; "casual"; "technical"; "how_to"].

Definition generate_blog (env : Env) (topic : string) (max_words : Z)
    (target_audience style : string) : M (gmap string Value) :=
  try_except
    (if String.eqb (PyStr.strip topic) ""
     then raise "Topic cannot be empty"
     else
       let style := if bool_decide (style ∈ blog_templates)
                    then style else "informative" in
       blog_data ← _generate_content env topic max_words target_audience style;
       processed_data ← _process_blog_content env blog_data topic;
       mret processed_data)
    (fun e => raise e).

Definition _generate_simple_series_plan (main_topic : string) (num_posts : Z)
  : list Value :=
  let base_plan :=
    [ "Introduction to " +:+ main_topic;
      "Getting Started with " +:+ main_topic;
      "Advanced " +:+ main_topic +:+ " Techniques";
      main_topic +:+ " Best Practices";
      "Future of " +:+ main_topic;
      main_topic +:+ " Case Studies";
      "Common " +:+ main_topic +:+ " Mistakes";
      main_topic +:+ " Tools and Resources";
      main_topic +:+ " vs Alternatives";
      "Mastering " +:+ main_topic ] in
  map VStr (PyStr.take num_posts base_plan).

Definition _generate_series_plan (env : Env) (main_topic : string)
    (num_posts : Z) : M (list Value) :=
  w ← get_world;
  modify count_completion;;
  match chat_plan env (completions w) main_topic num_posts with
  | PlanList series_plan =>
      if negb (Z.of_nat (length series_plan) =? num_posts)
      then mret (_generate_simple_series_plan main_topic num_posts)
      else mret series_plan
  | PlanUnusable => mret (_generate_simple_series_plan main_topic num_posts)
  end.

(** [int(settings.BLOG_MAX_LENGTH * 0.8)]: truncation toward zero of
    four fifths. *)
Definition series_max_words (env : Env) : Z := Z.quot (4 * BLOG_MAX_LENGTH env) 5.

(** The loop of [generate_blog_series]; [i] is the position of the first
    subtopic of [series_plan]. *)
Fixpoint generate_series_posts (env : Env) (main_topic : string) (i : Z)
    (series_plan : list Value) (blog_series : list (gmap string Value))
  : M (list (gmap string Value)) :=
  match series_plan with
  | [] => mret blog_series
  | subtopic :: rest =>
      topic ← as_str subtopic "strip";
      blog_post ← generate_blog env topic (series_max_words env)
                    "general" "informative";
      let blog_post :=
        <["series_slug" :=
            VStr (PyStr.replace_char " " "-" (PyStr.lower main_topic)
                  +:+ "-part-" +:+ PyStr.of_int i)]>
        (<["series_topic" := VStr main_topic]>
        (<["series_position" := VInt i]> blog_post)) in
      generate_series_posts env main_topic (i + 1) rest (blog_series ++ [blog_post])
  end.

Definition generate_blog_series (env : Env) (main_topic : string)
    (num_posts : Z) : M (list (gmap string Value)) :=
  try_except
    (series_plan ← _generate_series_plan env main_topic num_posts;
     generate_series_posts env main_topic 1 series_plan [])
    (fun e => raise e).

(** ** blog_scheduler.py *)

(** [self.stats[...] += 1] and the timestamp assignments *)
Definition incr_total_generated (s : Stats) : Stats :=
  mkStats (total_generated s + 1) (total_published s) (failed_generations s)
    (failed_publications s) (last_generation s) (last_publication s).
Definition incr_total_published (s : Stats) : Stats :=
  mkStats (total_generated s) (total_published s + 1) (failed_generations s)
    (failed_publications s) (last_generation s) (last_publication s).
Definition incr_failed_generations (s : Stats) : Stats :=
  mkStats (total_generated s) (total_published s) (failed_generations s + 1)
    (failed_publications s) (last_generation s) (last_publication s).
Definition incr_failed_publications (s : Stats) : Stats :=
  mkStats (total_generated s) (total_published s) (failed_generations s)
    (failed_publications s + 1) (last_generation s) (last_publication s).
Definition set_last_generation (v : Value) (s : Stats) : Stats :=
  mkStats (total_generated s) (total_published s) (failed_generations s)
    (failed_publications s) v (last_publication s).
Definition set_last_publication (v : Value) (s : Stats) : Stats :=
  mkStats (total_generated s) (total_published s) (failed_generations s)
    (failed_publications s) (last_generation s) v.

(** [settings.DATABASE_TYPE.lower()] *)
Definition database_type (env : Env) : string := PyStr.lower (DATABASE_TYPE env).

(** [_save_statistics]: the write is attempted (for MongoDB with an
    [updated_at] reading of the clock); a failure is logged and dropped. *)
Definition _save_statistics (env : Env) : M unit :=
  try_except
    ((if String.eqb (database_type env) "mongodb"
      then (_ ← now; mret tt)
      else mret tt);;
     w ← get_world;
     if stats_write_fails env (stats_writes w)
     then (modify (set_store (stats_store w));; raise "statistics write failed")
     else modify (set_store (Some (stats w))))
    (fun e => mret tt).

(** The driver's insert of one row: it raises when the oracle says so. *)
Definition insert_row (env : Env) (row : Row) : M unit :=
  w ← get_world;
  match insert_error env (db_inserts w) row with
  | Some e => modify (set_posts (blog_posts w));; raise e
  | None => modify (set_posts (blog_posts w ++ [row]))
  end.

(** The module-level names [get_mysql_session] and [BlogPost] of
    blog_scheduler.py (lines 19 to 25).  For a database type other than
    ["mysql"] the module binds both to [None].  For ["mysql"] it imports
    them from [config.database], which has [get_mysql_session] as a
    method of [DatabaseManager] only, not as a name of the module: the
    import raises and there is no scheduler.  So in every scheduler that
    runs, both names are [None]. *)
Module blog_scheduler.
Definition get_mysql_session : Value := VNone.
Definition BlogPost : Value := VNone.
End blog_scheduler.

(** [_save_blog_to_database].  The Python function changes [blog_data] in
    place on the MongoDB path (key ['saved_at']); here the changed
    dictionary is returned and the caller goes on with it.  A failure to
    obtain the collection or session is one of the failures of
    [insert_row].  The second test also asks for the two module-level
    names, which are [None]: the MySQL branch is never taken, and a
    database type other than ["mongodb"] stores nothing. *)
Definition _save_blog_to_database (env : Env) (blog_data : gmap string Value)
  : M (gmap string Value) :=
  try_except
    (if String.eqb (database_type env) "mongodb" then
       t ← now;
       let blog_data := <["saved_at" := VDatetime t]> blog_data in
       insert_row env (MongoDocument blog_data);;
       mret blog_data
     else if String.eqb (database_type env) "mysql"
             && truthy blog_scheduler.get_mysql_session
             && truthy blog_scheduler.BlogPost then
       title ← dict_item blog_data "title";
       content ← dict_item blog_data "content";
       let blog_post :=
         mkBlogPost title content
           (dict_get_default blog_data "topic" (VStr "general"))
           (dict_get_default blog_data "status" (VStr "draft"))
           (dict_get_default blog_data "word_count" (VInt 0))
           (dict_get_default blog_data "tags" (VList []))
           true
           (dict_get blog_data "source_url") in
       insert_row env (MySQLRow blog_post);;
       mret blog_data
     else mret blog_data)
    (fun e => raise e).

(** The dictionary [_publish_blog] returns, and the initial
    [{'success': False}] of the job body. *)
Inductive PublishReport :=
| NotAttempted
| PublishError (error : string)
| PublishOutcome (success : bool) (successful_platforms total_platforms : Z)
    (results : gmap string PyObj).

(** [publish_result['success']] *)
Definition report_success (r : PublishReport) : bool :=
  match r with
  | PublishOutcome success _ _ _ => success
  | _ => false
  end.

(** [result.get('success', False)] as a condition, for a dictionary *)
Definition result_success (r : PyObj) : bool :=
  match r with
  | ODict d => truthy (dict_get_default d "success" (VBool false))
  | ONone => false
  end.

Definition is_none (r : PyObj) : bool :=
  match r with ONone => true | ODict _ => false end.

(** [sum(1 for result in results.values() if result.get('success', False))]:
    a value that is [None] has no [get], whichever comes first raises the
    same error. *)
Definition count_successes (results : gmap string PyObj) : M Z :=
  let values := (map_to_list results).*2 in
  if existsb is_none values
  then raise "'NoneType' object has no attribute 'get'"
  else mret (Z.of_nat (length (filter (fun r => result_success r = true) values))).

Definition _publish_blog (blog_data : gmap string Value)
    (platforms : option (list string)) : M PublishReport :=
  try_except
    (w ← get_world;
     match publishers w with
     | [] => mret (PublishError "No publishers configured")
     | _ =>
         let target_platforms := or_list platforms (registry_keys (publishers w)) in
         title ← dict_item blog_data "title";
         content ← dict_item blog_data "content";
         results ← publish_to_all title content
                     (dict_get_default blog_data "tags" (VList []))
                     (Some target_platforms);
         successful_publications ← count_successes results;
         mret (PublishOutcome (0 <? successful_publications)
                 successful_publications
                 (Z.of_nat (length target_platforms))
                 results)
     end)
    (fun e => mret (PublishError e)).

Definition default_topics : list string :=
  ["artificial intelligence"; "technology trends"; "programming"; "web development"].

(** [_select_topic]: [random.choice] takes the element the oracle's draw
    points at. *)
Definition _select_topic (env : Env) (topics : list string) : M string :=
  let topics := match topics with [] => default_topics | _ => topics end in
  w ← get_world;
  modify count_draw;;
  mret (nth (random_draw env (draws w) mod length topics)%nat topics "").

(** The dictionary the job body returns. *)
Inductive RunReport :=
| Generated (publish_result : PublishReport) (blog_data : gmap string Value)
| GenerationFailed (error : string).

Definition generation_success (r : RunReport) : bool :=
  match r with Generated _ _ => true | GenerationFailed _ => false end.

Definition _generate_and_publish_blog (env : Env) (topics : list string)
    (max_words : Z) (publish_immediately : bool)
    (platforms : option (list string)) : M RunReport :=
  try_except
    (topic ← _select_topic env topics;
     blog_data ← generate_blog env topic max_words "general" "informative";
     blog_data ← _save_blog_to_database env blog_data;
     modify (set_stats incr_total_generated);;
     t ← now;
     modify (set_stats (set_last_generation (VIso t)));;
     _save_statistics env;;
     publish_result ← (if publish_immediately
                       then _publish_blog blog_data platforms
                       else mret NotAttempted);
     (if report_success publish_result
      then (modify (set_stats incr_total_published);;
            t ← now;
            modify (set_stats (set_last_publication (VIso t))))
      else modify (set_stats incr_failed_publications));;
     _save_statistics env;;
     mret (Generated publish_result blog_data))
    (fun e =>
       modify (set_stats incr_failed_generations);;
       _save_statistics env;;
       mret (GenerationFailed e)).

(** One entry of the ['results'] list of a series run. *)
Inductive PostReport :=
| PostOk (post_number : Z) (publish_result : option PublishReport)
    (blog_data : gmap string Value)
| PostFailed (post_number : Z) (error : string).

Definition post_generation_success (r : PostReport) : bool :=
  match r with PostOk _ _ _ => true | PostFailed _ _ => false end.

Definition post_number_of (r : PostReport) : Z :=
  match r with PostOk i _ _ => i | PostFailed i _ => i end.

Inductive SeriesReport :=
| SeriesOk (total_posts published_posts : Z) (results : list PostReport)
| SeriesFailed (error : string).

(** The body of the loop over [enumerate(blog_series, 1)]; the accumulator
    is [(results, published_count)].  Nothing after the first change of
    [published_count] can raise, so the handler sees the value the
    iteration started with.  [time.sleep(2)] changes nothing here. *)
Definition series_post (env : Env) (publish_immediately : bool)
    (platforms : option (list string))
    (item : Z * gmap string Value) (acc : list PostReport * Z)
  : M (list PostReport * Z) :=
  let '(i, blog_data) := item in
  let '(results, published_count) := acc in
  try_except
    (blog_data ← _save_blog_to_database env blog_data;
     modify (set_stats incr_total_generated);;
     if publish_immediately then
       publish_result ← _publish_blog blog_data platforms;
       published_count ←
         (if report_success publish_result
          then (modify (set_stats incr_total_published);;
                mret (published_count + 1))
          else (modify (set_stats incr_failed_publications);;
                mret published_count));
       mret (results ++ [PostOk i (Some publish_result) blog_data], published_count)
     else
       mret (results ++ [PostOk i None blog_data], published_count))
    (fun e =>
       modify (set_stats incr_failed_generations);;
       mret (results ++ [PostFailed i e], published_count)).

(** [enumerate(l, i)] *)
Fixpoint enumerate_from {A} (i : Z) (l : list A) : list (Z * A) :=
  match l with
  | [] => []
  | x :: l' => (i, x) :: enumerate_from (i + 1) l'
  end.

(** The loop of [_generate_blog_series] with what follows it. *)
Definition series_loop (env : Env) (publish_immediately : bool)
    (platforms : option (list string))
    (blog_series : list (gmap string Value)) : M SeriesReport :=
  '(results, published_count) ←
     for_each (enumerate_from 1 blog_series)
       (series_post env publish_immediately platforms) ([], 0);
  t ← now;
  modify (set_stats (set_last_generation (VIso t)));;
  _save_statistics env;;
  mret (SeriesOk (Z.of_nat (length blog_series)) published_count results).

Definition _generate_blog_series (env : Env) (main_topic : string)
    (num_posts : Z) (publish_immediately : bool)
    (platforms : option (list string)) : M SeriesReport :=
  try_except
    (blog_series ← generate_blog_series env main_topic num_posts;
     series_loop env publish_immediately platforms blog_series)
    (fun e => mret (SeriesFailed e)).

(** [schedule.every().day.at(time_str).do(daily_blog_job)]: [at] raises
    on a string it does not accept, before [do] registers the job. *)
Definition schedule_daily_blog_generation (env : Env) (topics : list string)
    (max_words : Z) (publish_immediately : bool)
    (platforms : option (list string)) (time_str : string) : M bool :=
  try_except
    (if at_time_ok env time_str
     then
       w ← get_world;
       modify (set_jobs (jobs w ++
         [DailyBlogJob time_str topics max_words publish_immediately platforms]));;
       mret true
     else raise "Invalid time format for a daily job (valid format is HH:MM(:SS)?)")
    (fun e => mret false).

(** [manual_blog_generation(topic, **kwargs)] with the keyword arguments
    resolved. *)
Definition manual_blog_generation (env : Env) (topic : string) (max_words : Z)
    (publish_immediately : bool) (platforms : option (list string))
  : M RunReport :=
  _generate_and_publish_blog env [topic] max_words publish_immediately platforms.

Definition manual_blog_series (env : Env) (main_topic : string) (num_posts : Z)
    (publish_immediately : bool) (platforms : option (list string))
  : M SeriesReport :=
  _generate_blog_series env main_topic num_posts publish_immediately platforms.

(** A sequence of job-body invocations, as the scheduler loop and the
    manual triggers produce them one after the other.  The job body
    catches every exception, so the last branch of [run_invocations] is
    never taken ([job_body_spec]). *)
Record Invocation := mkInvocation {
  inv_topics : list string;
  inv_max_words : Z;
  inv_publish_immediately : bool;
  inv_platforms : option (list string) }.

Fixpoint run_invocations (env : Env) (l : list Invocation) (w : World)
  : list RunReport * World :=
  match l with
  | [] => ([], w)
  | i :: l' =>
      match _generate_and_publish_blog env (inv_topics i) (inv_max_words i)
              (inv_publish_immediately i) (inv_platforms i) w with
      | (Returned r, w') =>
          let '(rs, w'') := run_invocations env l' w' in (r :: rs, w'')
      | (Raised e, w') => ([], w')
      end
  end.

(** The entry points that the scheduler loop, the manual triggers and the
    registration calls exercise, and a sequence of them. *)
Inductive Operation :=
| OpJobBody (i : Invocation)
| OpSeries (main_topic : string) (num_posts : Z) (publish_immediately : bool)
    (platforms : option (list string))
| OpScheduleDaily (topics : list string) (max_words : Z)
    (publish_immediately : bool) (platforms : option (list string))
    (time_str : string).

Definition run_operation (env : Env) (op : Operation) (w : World) : World :=
  match op with
  | OpJobBody i =>
      snd (_generate_and_publish_blog env (inv_topics i) (inv_max_words i)
             (inv_publish_immediately i) (inv_platforms i) w)
  | OpSeries main_topic num_posts publish_immediately platforms =>
      snd (_generate_blog_series env main_topic num_posts publish_immediately
             platforms w)
  | OpScheduleDaily topics max_words publish_immediately platforms time_str =>
      snd (schedule_daily_blog_generation env topics max_words
             publish_immediately platforms time_str w)
  end.

Definition run_operations (env : Env) (ops : list Operation) (w : World) : World :=
  fold_left (fun w op => run_operation env op w) ops w.

(** ** blog_scheduler.py: curation, restart, default publishers *)

(** [_extract_topics_from_sources]: the sources are not consulted. *)
Definition trending_topics : list string :=
  [ "AI in healthcare 2025";
    "Sustainable technology solutions";
    "Remote work technology";
    "Cybersecurity trends";
    "Cloud computing advances";
    "Machine learning applications";
    "Blockchain technology updates";
    "Internet of Things innovations" ].

Definition _extract_topics_from_sources (sources : list string) (max_articles : Z)
  : list string :=
  PyStr.take max_articles trending_topics.

(** One entry of the ['results'] list of a curation run. *)
Inductive CuratedResult :=
| Curated (topic : string) (curation_result : RunReport)
| CurationError (topic : string) (error : string).

Definition curated_topic (r : CuratedResult) : string :=
  match r with Curated t _ => t | CurationError t _ => t end.

Inductive CurationReport :=
| CurationOk (topics_found : Z) (results : list CuratedResult)
| CurationFailed (error : string).

(** The body of the loop over [curated_topics]. *)
Definition curate_topic (env : Env) (topic : string) (results : list CuratedResult)
  : M (list CuratedResult) :=
  try_except
    (blog_result ← _generate_and_publish_blog env [topic] 600 false None;
     mret (results ++ [Curated topic blog_result]))
    (fun e => mret (results ++ [CurationError topic e])).

Definition _curate_and_generate_content (env : Env) (sources : list string)
    (max_articles : Z) : M CurationReport :=
  try_except
    (let curated_topics := _extract_topics_from_sources sources max_articles in
     results ← for_each curated_topics (curate_topic env) [];
     mret (CurationOk (Z.of_nat (length curated_topics)) results))
    (fun e => mret (CurationFailed e)).



(** [get_statistics]: the counters with three more entries. *)
Record Statistics := mkStatistics {
  st_stats : Stats;
  st_is_running : bool;
  st_scheduled_jobs : Z;
  st_publishers_configured : Z }.

Definition get_statistics (is_running : bool) : M Statistics :=
  w ← get_world;
  mret (mkStatistics (stats w) is_running
          (Z.of_nat (length (jobs w))) (Z.of_nat (length (publishers w)))).

(** ** content_publisher.py: the registry *)

Definition set_publishers
    (f : list (string * Publisher) -> list (string * Publisher)) (w : World)
  : World :=
  mkWorld (stats w) (f (publishers w)) (stats_store w) (stats_writes w)
    (blog_posts w) (db_inserts w) (publish_calls w) (completions w)
    (draws w) (clock w) (jobs w).

(** [self.publishers[name] = publisher]: a name that is there keeps its
    place in the order of the keys, a new name goes last. *)
Fixpoint registry_set (name : string) (publisher : Publisher)
    (reg : list (string * Publisher)) : list (string * Publisher) :=
  match reg with
  | [] => [(name, publisher)]
  | (k, p) :: reg' =>
      if String.eqb k name then (k, publisher) :: reg'
      else (k, p) :: registry_set name publisher reg'
  end.

(** What [publish_post] of an adapter does at its remote end. *)
Definition Behaviour : Type := list Call -> Value -> Value -> Value -> Outcome PyObj.

(** What the constructors of the adapter classes meet.  The WordPress
    and Medium constructors make a request and raise when it fails; the
    Next.js constructor makes a request too; the constructor of the
    custom adapter makes none and stores its arguments. *)
Record Remotes := mkRemotes {
  wordpress_site : Value -> Value -> Value -> Outcome Behaviour;
  medium_account : Value -> Outcome Behaviour;
  nextjs_api : Value -> Value -> Value
               -> Outcome (list Call -> Value -> Value -> Value -> Exchange);
  custom_site : string -> string -> Behaviour }.

Definition add_wordpress_publisher (r : Remotes) (name : string)
    (url username password : Value) : M unit :=
  try_except
    (match wordpress_site r url username password with
     | Returned site =>
         modify (set_publishers (registry_set name (mkPublisher WordPressPublisher site)))
     | Raised e => raise e
     end)
    (fun e => mret tt).

Definition add_medium_publisher (r : Remotes) (name : string) (access_token : Value)
  : M unit :=
  try_except
    (match medium_account r access_token with
     | Returned account =>
         modify (set_publishers (registry_set name (mkPublisher MediumPublisher account)))
     | Raised e => raise e
     end)
    (fun e => mret tt).

Definition add_nextjs_publisher (r : Remotes) (name : string)
    (api_url admin_session auth_header : Value) : M unit :=
  try_except
    (match nextjs_api r api_url admin_session auth_header with
     | Returned remote =>
         modify (set_publishers (registry_set name (nextjs_publisher remote)))
     | Raised e => raise e
     end)
    (fun e => mret tt).

Definition add_custom_publisher (r : Remotes) (name base_url api_key : string)
  : M unit :=
  try_except
    (modify (set_publishers
       (registry_set name
          (mkPublisher CustomWebsitePublisher (custom_site r base_url api_key)))))
    (fun e => mret tt).

(** ** config/settings.py and [_setup_default_publishers] *)

(** The attributes the class [Settings] defines. *)
Definition settings_attributes : list string :=
  [ "DATABASE_TYPE"; "MONGODB_URI"; "MYSQL_HOST"; "MYSQL_PORT"; "MYSQL_USER";
    "MYSQL_PASSWORD"; "MYSQL_DATABASE";
    "OPENAI_API_KEY"; "AI_MODEL"; "MAX_TOKENS"; "TEMPERATURE";
    "NEXTJS_BLOG_API"; "NEXTJS_ADMIN_SESSION"; "NEXTJS_AUTH_HEADER";
    "NEXTJS_API_TIMEOUT"; "NEXTJS_RATE_LIMIT_AWARE"; "NEXTJS_API_KEY";
    "WORDPRESS_URL"; "WORDPRESS_USERNAME"; "WORDPRESS_PASSWORD";
    "MEDIUM_ACCESS_TOKEN";
    "ENABLE_SCHEDULER"; "SCHEDULER_TIMEZONE"; "BLOG_GENERATION_TIME";
    "BLOG_GENERATION_DAYS";
    "LOG_LEVEL"; "LOG_FILE"; "LOG_MAX_SIZE"; "LOG_BACKUP_COUNT";
    "DETAILED_API_LOGGING";
    "BLOG_FREQUENCY"; "BLOG_TOPICS"; "BLOG_MAX_LENGTH"; "BLOG_DEFAULT_STATUS";
    "SEO_OPTIMIZATION";
    "API_RETRY_ATTEMPTS"; "API_RETRY_DELAY"; "MAX_CONCURRENT_REQUESTS";
    "COURSE_MAX_MODULES"; "COURSE_MAX_LESSONS";
    "JOB_SOURCES"; "JOB_UPDATE_FREQUENCY";
    "CHATBOT_ENABLED"; "CHATBOT_PORT"; "SESSION_SECRET" ].

(** [getattr(settings, name)]: [value] gives what the class body read
    from the environment for the attributes it defines; any other name
    is an [AttributeError]. *)
Definition settings_getattr (value : string -> Value) (name : string) : M Value :=
  if bool_decide (name ∈ settings_attributes) then mret (value name)
  else raise ("'Settings' object has no attribute '" +:+ name +:+ "'").

(** [hasattr(settings, name) and settings.<name>] as a condition *)
Definition settings_has (value : string -> Value) (name : string) : M bool :=
  try_except (v ← settings_getattr value name; mret (truthy v))
             (fun e => mret false).

Definition _setup_default_publishers (value : string -> Value) (r : Remotes)
  : M unit :=
  has_wordpress ← settings_has value "WORDPRESS_URL";
  _ ← (if has_wordpress : bool
       then try_except
              (url ← settings_getattr value "WORDPRESS_URL";
               username ← settings_getattr value "WORDPRESS_USERNAME";
               password ← settings_getattr value "WORDPRESS_PASSWORD";
               add_wordpress_publisher r "default_wordpress" url username password)
              (fun e => mret tt)
       else (mret tt : M unit));
  has_medium ← settings_has value "MEDIUM_TOKEN";
  if has_medium : bool
  then try_except
         (access_token ← settings_getattr value "MEDIUM_TOKEN";
          add_medium_publisher r "default_medium" access_token)
         (fun e => mret tt)
  else mret tt.


(** ** content_publisher.py: WordPressPublisher *)

(** The dictionary [_prepare_post_data] builds; [wp_terms_names] is [None]
    when the key ['terms_names'] is not there. *)
Record WPPostData := mkWPPostData {
  wp_post_title : Value;
  wp_post_content : Value;
  wp_post_status : string;
  wp_post_type : string;
  wp_post_author : Z;
  wp_terms_names : option (gmap string Value);
  wp_custom_fields : list (string * string) }.

(** The remote end of one [publish_post] call: what [wp.getUsers] and
    [wp.newPost] do. *)
Record WordPressSite := mkWordPressSite {
  wp_url : string;                       (* self.url *)
  wp_getUsers : Outcome unit;
  wp_newPost : WPPostData -> Outcome Value }.

(** [None] or a string, as a value *)
Definition opt_value (o : option string) : Value :=
  match o with Some s => VStr s | None => VNone end.

Definition _prepare_post_data (title content tags : Value)
    (category : option string) (status : string) (featured_image : option string)
  : M WPPostData :=
  let terms_names :=
    if truthy tags then Some ({[ "post_tag" := tags ]} : gmap string Value)
    else None in
  terms_names ←
    (match category with
     | Some c =>
         if truthy (VStr c)
         then match terms_names with
              | Some terms => mret (Some (<["category" := VList [c]]> terms))
              | None => raise (key_error "terms_names")
              end
         else mret terms_names
     | None => mret terms_names
     end);
  t ← now;
  mret (mkWPPostData title content status "post" 1 terms_names
          [("ai_generated", "true"); ("generated_at", isoformat t)]).

Definition _get_blog_info (site : WordPressSite) : M Z :=
  try_except
    (match wp_getUsers site with
     | Returned _ => mret 1
     | Raised e => raise e
     end)
    (fun e => raise ("Failed to get blog info: " +:+ e)).

(** The two branches of [if status == "publish"] make the same call. *)
Definition WordPressPublisher_publish_post (site : WordPressSite)
    (title content tags : Value) (category : option string) (status : string)
    (featured_image : option string) : M PyObj :=
  try_except
    (blog_id ← _get_blog_info site;
     post_data ← _prepare_post_data title content tags category status featured_image;
     post_id ← (match wp_newPost site post_data with
                | Returned post_id => mret post_id
                | Raised e => raise e
                end);
     let post_url := wp_url site +:+ "/?p=" +:+ py_format post_id in
     t ← now;
     mret (ODict {[ "success" := VBool true;
                    "post_id" := post_id;
                    "url" := VStr post_url;
                    "status" := VStr status;
                    "published_at" := VIso t ]}))
    (fun e => mret (failure_with_post_id e)).

(** ** content_publisher.py: the excerpt NextJSAPIPublisher sends *)

(** [post_data['excerpt']] in [NextJSAPIPublisher.publish_post]. *)
Definition NextJSAPIPublisher_excerpt (excerpt : option string) (content : string)
  : string :=
  if truthy (opt_value excerpt) then default "" excerpt
  else if 150 <? PyStr.len content
       then PyStr.strip (PyStr.take_str 150 content) +:+ "..."
       else content.

(** ** config/database.py: the database name *)

(** ["/" in s] *)
Definition has_slash (s : string) : bool :=
  existsb (fun c => Ascii.eqb c "/") (PyStr.chars s).

(** [db_name] in [DatabaseManager.connect_mongodb] *)
Definition mongodb_db_name (MONGODB_URI : string) : string :=
  let db_name := "ai_automation" in
  if has_slash MONGODB_URI
  then
    let db_name := List.last (PyStr.split_on "/" MONGODB_URI) "" in
    if negb (truthy (VStr db_name)) then "ai_automation" else db_name
  else db_name.

(** ** blog_generator.py: the SEO helpers *)

(** [sub in s] *)
Fixpoint prefixb (p l : list ascii) : bool :=
  match p with
  | [] => true
  | a :: p' =>
      match l with
      | b :: l' => Ascii.eqb a b && prefixb p' l'
      | [] => false
      end
  end.
Fixpoint contains_go (sub l : list ascii) : bool :=
  prefixb sub l || match l with
                   | [] => false
                   | _ :: l' => contains_go sub l'
                   end.
Definition py_contains (s sub : string) : bool :=
  contains_go (PyStr.chars sub) (PyStr.chars s).

(** [s.count(sub)]: the occurrences of [sub] that do not overlap, read
    from the left; [skip] characters of the last occurrence are still to
    be passed.  The empty string is counted between any two characters
    and at both ends. *)
Fixpoint count_go (sub : list ascii) (skip : nat) (l : list ascii) : Z :=
  match l with
  | [] => 0
  | _ :: l' =>
      match skip with
      | S k => count_go sub k l'
      | O => if prefixb sub l
             then 1 + count_go sub (length sub - 1) l'
             else count_go sub 0 l'
      end
  end.
Definition py_count (s sub : string) : Z :=
  if String.eqb sub "" then PyStr.len s + 1
  else count_go (PyStr.chars sub) 0 (PyStr.chars s).

(** [_add_seo_enhancements].  The first line that is not blank and does
    not begin with ['#'] or ['-'] gets a sentence with the first keyword,
    unless it already holds one of the first two keywords. *)
Definition is_paragraph (line : string) : bool :=
  negb (String.eqb (PyStr.strip line) "")
  && negb (PyStr.startswith line "#")
  && negb (PyStr.startswith line "-").

Definition _add_seo_enhancements (content : string) (keywords : list string)
  : string :=
  let lines := PyStr.split_on "010" content in
  match list_find (fun line => is_paragraph line = true) lines with
  | Some (first_paragraph_idx, first_line) =>
      match keywords with
      | keyword0 :: _ =>
          if negb (existsb
                     (fun keyword =>
                        py_contains (PyStr.lower first_line) (PyStr.lower keyword))
                     (PyStr.take 2 keywords))
          then
            let enhanced_lines :=
              <[first_paragraph_idx :=
                  first_line +:+ " Understanding " +:+ keyword0 +:+ " is crucial."]>
                lines in
            PyStr.join (String "010" "") enhanced_lines
          else content
      | [] => content
      end
  | None => content
  end.

(** A Python [float] is a binary64 number.  The counts converted here are
    lengths and numbers of occurrences, below 2^53, for which the
    conversion is exact and [a / b] on integers is the division of the
    two floats. *)
Definition float_of_int (n : Z) : PrimFloat.float :=
  PrimFloat.of_uint63 (Uint63.of_Z n).

(** [a / b] for two integers *)
Definition true_div (a b : Z) : Outcome PrimFloat.float :=
  if b =? 0 then Raised "division by zero"
  else Returned (PrimFloat.div (float_of_int a) (float_of_int b)).

(** [d[k] = v] for a dictionary whose order of keys matters *)
Fixpoint assoc_set {A} (k : string) (v : A) (d : list (string * A))
  : list (string * A) :=
  match d with
  | [] => [(k, v)]
  | (k', v') :: d' =>
      if String.eqb k' k then (k', v) :: d' else (k', v') :: assoc_set k v d'
  end.

(** [{'count': ..., 'density': ...}] *)
Record KeywordData := mkKeywordData {
  kw_count : Z;
  kw_density : PrimFloat.float }.

(** What [optimize_for_seo] returns. *)
Inductive SeoReport :=
| SeoOk (keyword_analysis : list (string * KeywordData))
    (recommendations : list string) (seo_score : Z) (optimized_content : string)
| SeoError (error : string).

(** [content.count('#')] *)
Definition heading_count (content : string) : Z := py_count content "#".

Section Seo.

(** [round(x, 2)], and [sum] over a sequence of floats that is not
    empty: the two operations on floats whose result is left to the
    interpreter. *)
Variable round2 : PrimFloat.float -> PrimFloat.float.
Variable float_sum : list PrimFloat.float -> PrimFloat.float.

(** The body of the loop over [keywords]. *)
Definition analyse_keyword (blog_content content_lower : string) (keyword : string)
    (keyword_analysis : list (string * KeywordData))
  : Outcome (list (string * KeywordData)) :=
  let keyword_count := py_count content_lower (PyStr.lower keyword) in
  match true_div keyword_count (Z.of_nat (length (PyStr.split blog_content))) with
  | Returned q =>
      let keyword_density := PrimFloat.mul q (float_of_int 100) in
      Returned (assoc_set keyword
                  (mkKeywordData keyword_count (round2 keyword_density))
                  keyword_analysis)
  | Raised e => Raised e
  end.

Fixpoint analyse_keywords (blog_content content_lower : string)
    (keywords : list string) (keyword_analysis : list (string * KeywordData))
  : Outcome (list (string * KeywordData)) :=
  match keywords with
  | [] => Returned keyword_analysis
  | keyword :: keywords' =>
      match analyse_keyword blog_content content_lower keyword keyword_analysis with
      | Returned keyword_analysis' =>
          analyse_keywords blog_content content_lower keywords' keyword_analysis'
      | Raised e => Raised e
      end
  end.

(** [_calculate_seo_score]: with no keyword analysed, the average is
    [0 / 0] on integers. *)
Definition _calculate_seo_score (content : string)
    (keyword_analysis : list (string * KeywordData)) : Outcome Z :=
  let score := 50 in
  let word_count := Z.of_nat (length (PyStr.split content)) in
  let score :=
    if (300 <=? word_count) && (word_count <=? 1500) then score + 20
    else if word_count <? 300 then score - 10
    else score in
  let heading_count := heading_count content in
  let score :=
    if 3 <=? heading_count then score + 15
    else if 2 <=? heading_count then score + 10
    else score in
  match keyword_analysis with
  | [] => Raised "division by zero"
  | _ :: _ =>
      let avg_density :=
        PrimFloat.div
          (float_sum (map (fun data => kw_density (snd data)) keyword_analysis))
          (float_of_int (Z.of_nat (length keyword_analysis))) in
      let score :=
        if PrimFloat.leb (float_of_int 1) avg_density
           && PrimFloat.leb avg_density
                (PrimFloat.div (float_of_int 5) (float_of_int 2))
        then score + 15
        else if PrimFloat.ltb (float_of_int 3) avg_density then score - 10
        else score in
      Returned (Z.min 100 (Z.max 0 score))
  end.

Definition optimize_for_seo (blog_content : string) (keywords : list string)
  : SeoReport :=
  let content_lower := PyStr.lower blog_content in
  match analyse_keywords blog_content content_lower keywords [] with
  | Raised e => SeoError e
  | Returned keyword_analysis =>
      let densities := map (fun data => kw_density (snd data)) keyword_analysis in
      let recommendations :=
        (if existsb (fun d => PrimFloat.ltb d (float_of_int 1)) densities
         then ["Consider increasing keyword density for better SEO"] else [])
        ++ (if existsb (fun d => PrimFloat.ltb (float_of_int 3) d) densities
            then ["Some keywords may be overused - consider reducing density"]
            else [])
        ++ (if heading_count blog_content <? 3
            then ["Add more subheadings to improve content structure"] else []) in
      match _calculate_seo_score blog_content keyword_analysis with
      | Raised e => SeoError e
      | Returned seo_score =>
          SeoOk keyword_analysis recommendations seo_score
            (_add_seo_enhancements blog_content keywords)
      end
  end.

End Seo.

(** ** Vocabulary of the statements *)

(** The target list of a fan-out: [platforms or list(self.publishers.keys())]. *)
Definition targets (platforms : option (list string)) (w : World) : list string :=
  or_list platforms (registry_keys (publishers w)).

(** The name is registered with a publisher of one of the four adapter
    classes: the fan-out invokes its [publish_post]. *)
Definition invoked (reg : list (string * Publisher)) (name : string) : bool :=
  match registry_lookup name reg with
  | Some p => match pub_class p with OtherClass => false | _ => true end
  | None => false
  end.

(** What the fan-out records for an invocation's outcome. *)
Definition recorded (o : Outcome PyObj) : PyObj :=
  match o with
  | Returned r => r
  | Raised e => failure e
  end.

(** The invocations made between two states of the world. *)
Definition new_calls (w w' : World) : list Call :=
  drop (length (publish_calls w)) (publish_calls w').

(** The records stored between two states of the world. *)
Definition new_rows (w w' : World) : list Row :=
  drop (length (blog_posts w)) (blog_posts w').

(** The world after the invocations [cs] were logged. *)
Definition log_calls (cs : list Call) (w : World) : World :=
  fold_left (fun w c => log_call c w) cs w.

(** The number of results of a fan-out that report success. *)
Definition successes (results : gmap string PyObj) : Z :=
  Z.of_nat (length (filter (fun r => result_success r = true)
                      (map_to_list results).*2)).

(** What claim C2 says of a result entry: a dictionary with
    [success=false] and the error text ["not configured"]. *)
Definition reports_not_configured (r : option PyObj) : Prop :=
  exists d, r = Some (ODict d)
    /\ d !! "success" = Some (VBool false)
    /\ d !! "error" = Some (VStr "not configured").

(** What claim C1 says of a run of the job body that published: the
    record it stored carries status ["published"] exactly when at least
    one platform result reports success. *)
Definition stored_status_follows_publication (env : Env) (topics : list string)
    (max_words : Z) (platforms : option (list string)) (w : World) : Prop :=
  match _generate_and_publish_blog env topics max_words true platforms w with
  | (Returned (Generated (PublishOutcome _ _ _ results) _), w') =>
      forall row, last (blog_posts w') = Some row ->
      (row_status row = VStr "published" <-> 1 <= successes results)
  | _ => True
  end.

(** What claim C7 says of a series run: the two counters together have
    grown by the number of posts whose generation the run reached, that
    is, by the number of requests it made after the one for the plan. *)
Definition series_counts_reached_generations (env : Env) (main_topic : string)
    (num_posts : Z) (publish_immediately : bool)
    (platforms : option (list string)) (w : World) : Prop :=
  let w' := snd (_generate_blog_series env main_topic num_posts
                   publish_immediately platforms w) in
  total_generated (stats w') + failed_generations (stats w')
  = total_generated (stats w) + failed_generations (stats w)
    + (Z.of_nat (completions w') - Z.of_nat (completions w) - 1).

(** What claim C5 says of a series run in which the generator fails on
    the [k]-th post of [n]: a list of [n] reports comes back, exactly one
    of them with [generation_success] false, and [failed_generations]
    has grown by exactly 1. *)
Definition series_isolates_generator_failure (env : Env) (main_topic : string)
    (n : Z) (publish_immediately : bool) (platforms : option (list string))
    (w : World) : Prop :=
  exists published results w',
    _generate_blog_series env main_topic n publish_immediately platforms w
      = (Returned (SeriesOk n published results), w')
    /\ Z.of_nat (length results) = n
    /\ length (filter (fun r => post_generation_success r = false) results) = 1%nat
    /\ failed_generations (stats w') = failed_generations (stats w) + 1.

(** What claim C6 says of a run of the job body without publication. *)
Definition publication_counters_untouched (env : Env) (topics : list string)
    (max_words : Z) (platforms : option (list string)) (w : World) : Prop :=
  forall publish_result blog_data w',
    _generate_and_publish_blog env topics max_words false platforms w
      = (Returned (Generated publish_result blog_data), w') ->
    new_calls w w' = []
    /\ total_published (stats w') = total_published (stats w)
    /\ failed_publications (stats w') = failed_publications (stats w).

(** What claim C8 says of a registration with a rejected time string: the
    error is raised to the caller. *)
Definition registration_raises (env : Env) (topics : list string)
    (max_words : Z) (publish_immediately : bool)
    (platforms : option (list string)) (time_str : string) (w : World) : Prop :=
  exists e w',
    schedule_daily_blog_generation env topics max_words publish_immediately
      platforms time_str w = (Raised e, w').

(** Modelled from the spec: the time-of-day check of the [schedule]
    package, which is not part of the repository, as the "well-formed
    HH:MM" of the specification: two digits, a colon, two digits, hours
    below 24 and minutes below 60.  It is only used as the [at_time_ok]
    of sample environments; the statements hold for any such check. *)
Definition hhmm_ok (s : string) : bool :=
  match PyStr.chars s with
  | [h1; h2; colon; m1; m2] =>
      PyStr.is_digit h1 && PyStr.is_digit h2 && Ascii.eqb colon ":"
      && PyStr.is_digit m1 && PyStr.is_digit m2
      && (nat_of_ascii h1 * 10 + nat_of_ascii h2 <? 48 * 11 + 24)%nat
      && (nat_of_ascii m1 <? 48 + 6)%nat
  | _ => false
  end.

(** The entry the fan-out records for a name it does not invoke. *)
Definition static_entry (reg : list (string * Publisher)) (name : string) : PyObj :=
  match registry_lookup name reg with
  | None => not_configured
  | Some _ => unknown_publisher_type
  end.

(** The entry the fan-out records for [name] when it reaches it in the
    world [w]. *)
Definition entry (title content tags : Value) (w : World) (name : string) : PyObj :=
  match registry_lookup name (publishers w) with
  | Some p =>
      if invoked (publishers w) name
      then recorded (publish_post p (publish_calls w) title content tags)
      else unknown_publisher_type
  | None => not_configured
  end.

(** Two states of the world that differ at most in the bookkeeping of
    the oracles (requests made, draws made, clock) and in the persisted
    copy of the statistics. *)
Definition quiet (w w' : World) : Prop :=
  stats w' = stats w
  /\ publishers w' = publishers w
  /\ blog_posts w' = blog_posts w
  /\ db_inserts w' = db_inserts w
  /\ publish_calls w' = publish_calls w
  /\ jobs w' = jobs w.

(** The word count the pipeline computes for a generated body. *)
Definition recomputed_word_count (env : Env) (body : string) : Z :=
  let n := Z.of_nat (length (PyStr.split
                       (_ensure_heading_structure (PyStr.strip body)))) in
  if BLOG_MAX_LENGTH env <? n then BLOG_MAX_LENGTH env else n.

(** What [generate_blog] returns is a processed dictionary: a draft with
    a title and a body that are strings. *)
Definition processed (env : Env) (d : gmap string Value) : Prop :=
  d !! "status" = Some (VStr "draft")
  /\ (exists title, d !! "title" = Some (VStr title))
  /\ (exists content, d !! "content" = Some (VStr content))
  /\ (exists n, d !! "word_count" = Some (VInt n)).

(** The except clause of the job body. *)
Definition record_failure (env : Env) (e : string) : M RunReport :=
  modify (set_stats incr_failed_generations);;
  _save_statistics env;;
  mret (GenerationFailed e).

(** The job body from the statistics update that follows the save. *)
Definition after_save (env : Env) (publish_immediately : bool)
    (platforms : option (list string)) (blog_data : gmap string Value)
  : M RunReport :=
  modify (set_stats incr_total_generated);;
  t ← now;
  modify (set_stats (set_last_generation (VIso t)));;
  _save_statistics env;;
  publish_result ← (if publish_immediately
                    then _publish_blog blog_data platforms
                    else mret NotAttempted);
  (if report_success publish_result
   then (modify (set_stats incr_total_published);;
         t ← now;
         modify (set_stats (set_last_publication (VIso t))))
   else modify (set_stats incr_failed_publications));;
  _save_statistics env;;
  mret (Generated publish_result blog_data).

(** The topic [_select_topic] takes in the world [w]. *)
Definition selected_topic (env : Env) (topics : list string) (w : World) : string :=
  let topics := match topics with [] => default_topics | _ => topics end in
  nth (random_draw env (draws w) mod length topics)%nat topics "".

(** The rows a successful [_save_blog_to_database] of [blog_data] adds in
    the world [w]: one document for MongoDB, and none otherwise. *)
Definition saved_rows (env : Env) (blog_data : gmap string Value) (w : World)
  : list Row :=
  if String.eqb (database_type env) "mongodb"
  then [MongoDocument (<["saved_at" := VDatetime (clock w)]> blog_data)]
  else [].

(** The dictionary the caller goes on with after the save. *)
Definition saved_blog_data (env : Env) (blog_data : gmap string Value) (w : World)
  : gmap string Value :=
  if String.eqb (database_type env) "mongodb"
  then <["saved_at" := VDatetime (clock w)]> blog_data
  else blog_data.

(** The numbers of reports of a series run that say the post was, or was
    not, generated. *)
Definition posts_ok (results : list PostReport) : Z :=
  Z.of_nat (length (filter (fun r => post_generation_success r = true) results)).
Definition posts_failed (results : list PostReport) : Z :=
  Z.of_nat (length (filter (fun r => post_generation_success r = false) results)).

(** Reading the parts of a run's result. *)
Definition returns {A} (r : Outcome A * World) : bool :=
  match r with (Returned _, _) => true | (Raised _, _) => false end.
Definition value_or {A} (d : A) (r : Outcome A * World) : A :=
  match r with (Returned a, _) => a | (Raised _, _) => d end.
Definition error_of {A} (r : Outcome A * World) : string :=
  match r with (Raised e, _) => e | (Returned _, _) => "" end.

(** ** Vocabulary of the properties of the text helpers *)

(** [len(s.split())] *)
Definition word_count_of (s : string) : Z := Z.of_nat (length (PyStr.split s)).

(** [len(s.split('\n'))] *)
Definition line_count_of (s : string) : nat := length (PyStr.split_on "010" s).

(** A character a slug is made of: a lowercase letter, a digit or a
    hyphen. *)
Definition slug_char (c : ascii) : bool :=
  PyStr.is_lower c || PyStr.is_digit c || Ascii.eqb c "-".

(** Two hyphens in a row somewhere in the text. *)
Fixpoint double_hyphen (l : list ascii) : bool :=
  match l with
  | a :: l' =>
      match l' with
      | b :: _ => (Ascii.eqb a "-" && Ascii.eqb b "-") || double_hyphen l'
      | [] => false
      end
  | [] => false
  end.

(** A word as [str.split()] yields them: not empty, no whitespace. *)
Definition wordy (s : string) : bool :=
  negb (String.eqb s "") && forallb (fun c => negb (PyStr.is_space c)) (PyStr.chars s).

(** A tag as the pattern [#(\w+)] captures them: not empty, word
    characters only. *)
Definition tag_like (s : string) : bool :=
  negb (String.eqb s "") && forallb PyStr.is_word (PyStr.chars s).

(** No line feed in the text. *)
Definition one_line (s : string) : bool :=
  forallb (fun c => negb (Ascii.eqb c "010")) (PyStr.chars s).

(** The text does not begin with a character that [p] holds of. *)
Definition no_lead (p : ascii -> bool) (l : list ascii) : Prop :=
  match l with [] => True | c :: _ => p c = false end.

(** ** Vocabulary of the further properties of the scheduler and the
       publishers *)

(** The world after [_save_statistics]: the clock read for [updated_at]
    on the MongoDB path, one more write attempted, and the persisted copy
    replaced unless the write failed. *)
Definition after_statistics_write (env : Env) (w : World) : World :=
  let w1 := if String.eqb (database_type env) "mongodb" then tick w else w in
  set_store (if stats_write_fails env (stats_writes w1)
             then stats_store w1 else Some (stats w1)) w1.

(** The dictionary [_prepare_post_data] returns when it returns, built
    at clock instant [t]. *)
Definition prepared_post_data (title content tags : Value)
    (category : option string) (status : string) (t : nat) : WPPostData :=
  mkWPPostData title content status "post" 1
    (if truthy tags
     then Some (if truthy (opt_value category)
                then <["category" := VList [default "" category]]>
                       ({[ "post_tag" := tags ]} : gmap string Value)
                else {[ "post_tag" := tags ]})
     else None)
    [("ai_generated", "true"); ("generated_at", isoformat t)].

(** A category is given and no tag is: the case in which
    [_prepare_post_data] looks up ['terms_names'] before it is there. *)
Definition category_without_tags (tags : Value) (category : option string) : bool :=
  truthy (opt_value category) && negb (truthy tags).

(** No character of the text is [c]. *)
Definition free_of (c : ascii) (s : string) : bool :=
  forallb (fun x => negb (Ascii.eqb x c)) (PyStr.chars s).

(** The world without the persisted copy of the statistics and the count
    of the writes made to it. *)
Definition without_store (w : World) : World :=
  mkWorld (stats w) (publishers w) None 0 (blog_posts w) (db_inserts w)
    (publish_calls w) (completions w) (draws w) (clock w) (jobs w).

(** The environment [env] with another account of which statistics
    writes fail. *)
Definition set_stats_write_fails (fails : nat -> bool) (env : Env) : Env :=
  mkEnv (DATABASE_TYPE env) (BLOG_MAX_LENGTH env) (chat_blog env) (chat_plan env)
    (insert_error env) fails (random_draw env) (at_time_ok env).

(** Two computations that return the same and change the world alike,
    the persisted statistics aside, from worlds that are alike, the
    persisted statistics aside. *)
Definition store_blind {A} (m m' : M A) : Prop :=
  forall w w', without_store w = without_store w' ->
  fst (m w) = fst (m' w')
  /\ without_store (snd (m w)) = without_store (snd (m' w')).

(** ** Concrete inputs *)

Definition published_result (post_id : string) : PyObj :=
  ODict {[ "success" := VBool true; "post_id" := VStr post_id;
           "url" := VStr ("https://example.org/?p=" +:+ post_id);
           "status" := VStr "publish" ]}.

(** A WordPress publisher whose site accepts every post. *)
Definition site_a : Publisher :=
  mkPublisher WordPressPublisher (fun _ _ _ _ => Returned (published_result "1")).

(** A Medium publisher whose token is refused. *)
Definition site_b : Publisher :=
  mkPublisher MediumPublisher
    (fun _ _ _ _ => Returned (failure_with_post_id "API Error: 401 Unauthorized")).

(** A subclass of the custom adapter whose [publish_post] raises. *)
Definition site_raising : Publisher :=
  mkPublisher CustomWebsitePublisher (fun _ _ _ _ => Raised "boom").

(** An object of no adapter class put into the registry. *)
Definition site_plugin : Publisher :=
  mkPublisher OtherClass (fun _ _ _ _ => Returned (published_result "7")).

(** A Next.js publisher whose API answers 200 OK with the created post. *)
Definition site_next : Publisher :=
  nextjs_publisher (fun _ _ _ _ =>
    mkExchange 0 (HttpResponse 200 (BodyObject {[ "id" := VStr "42" ]}) "") 1).

Definition zero_stats : Stats := mkStats 0 0 0 0 VNone VNone.

Definition world_with (reg : list (string * Publisher)) : World :=
  mkWorld zero_stats reg None 0 [] 0 [] 0 0 0 [].

(** A generator whose model answers with a JSON object that claims 999
    words, a MongoDB store that accepts every insert. *)
Definition env_ok : Env :=
  mkEnv "mongodb" 1000
    (fun _ topic _ _ _ =>
       AIJsonObject {[ "title" := VStr ("About " +:+ topic);
                       "content" := VStr "Short text. Two sentences";
                       "tags" := VList ["x"; "y"];
                       "word_count" := VInt 999 ]})
    (fun _ _ _ => PlanUnusable)
    (fun _ _ => None)
    (fun _ => false)
    (fun _ => 0%nat)
    hhmm_ok.

(** The same, except that the model's second blog reply is an error:
    requests are numbered from 0 and the plan request is the first. *)
Definition env_second_post_fails : Env :=
  mkEnv "mongodb" 1000
    (fun n topic _ _ _ =>
       if (n =? 2)%nat then AIError "rate limit"
       else AIJsonObject {[ "title" := VStr ("About " +:+ topic);
                            "content" := VStr "Short text. Two sentences";
                            "tags" := VList ["x"; "y"];
                            "word_count" := VInt 999 ]})
    (fun _ _ _ => PlanUnusable)
    (fun _ _ => None)
    (fun _ => false)
    (fun _ => 0%nat)
    hhmm_ok.

(** The same as [env_ok], except that the store refuses the second
    insert. *)
Definition env_second_insert_fails : Env :=
  mkEnv "mongodb" 1000
    (chat_blog env_ok)
    (fun _ _ _ => PlanUnusable)
    (fun n _ => if (n =? 1)%nat then Some "duplicate key" else None)
    (fun _ => false)
    (fun _ => 0%nat)
    hhmm_ok.

(** Scenario B of the specification: one site that accepts, one that
    refuses. *)
Definition world_ab : World := world_with [("site-a", site_a); ("site-b", site_b)].

(** A registry with a raising publisher between two working ones, and an
    object of no adapter class. *)
Definition world_mixed : World :=
  world_with [("site-a", site_a); ("site-x", site_raising);
              ("site-b", site_b); ("plugin", site_plugin)].

(** One site that accepts the post, and a Next.js site whose API answers
    200 OK. *)
Definition world_an : World := world_with [("site-a", site_a); ("site-n", site_next)].

Definition blog_x : gmap string Value :=
  {[ "title" := VStr "T"; "content" := VStr "body"; "tags" := VList ["x"] ]}.

(** The stages of a three-post series run in which the generator fails
    on the second post. *)
Definition plan_run : Outcome (list Value) * World :=
  _generate_series_plan env_second_post_fails "AI" 3 (world_with []).
Definition first_post_run : Outcome (list (gmap string Value)) * World :=
  generate_series_posts env_second_post_fails "AI" 1
    [VStr "Introduction to AI"] [] (snd plan_run).
Definition second_post_run : Outcome (gmap string Value) * World :=
  generate_blog env_second_post_fails "Getting Started with AI"
    (series_max_words env_second_post_fails) "general" "informative"
    (snd first_post_run).

(** The stages of a three-post series run in which the store refuses
    the second post. *)
Definition series_run : Outcome (list (gmap string Value)) * World :=
  generate_blog_series env_second_insert_fails "AI" 3 world_ab.
Definition first_save_run : Outcome (list PostReport * Z) * World :=
  for_each (enumerate_from 1 (PyStr.take 1 (value_or [] series_run)))
    (series_post env_second_insert_fails true None) ([], 0) (snd series_run).
Definition second_save_run : Outcome (gmap string Value) * World :=
  _save_blog_to_database env_second_insert_fails
    (nth 1 (value_or [] series_run) ∅) (snd first_save_run).

(** A model reply that claims 999 words for a body of three. *)
Definition raw_three_words : gmap string Value :=
  {[ "title" := VStr "Three words"; "content" := VStr "  one two three  ";
     "word_count" := VInt 999 ]}.
Definition process_run : Outcome (gmap string Value) * World :=
  _process_blog_content env_ok (RawDict raw_three_words) "x" (world_with []).

(** The newline character as a string. *)
Definition nl : string := String "010" "".

(** ** Further concrete inputs *)

(** A run of the generator on the topic ["x"]. *)
Definition generate_run : Outcome (gmap string Value) * World :=
  generate_blog env_ok "x" 800 "general" "informative" (world_with []).

(** A three-post series with every reply usable. *)
Definition series_ok_run : Outcome (list (gmap string Value)) * World :=
  generate_blog_series env_ok "AI" 3 (world_with []).

(** The environment of [env_ok] with a database type the scheduler has
    no code for, and a run of the job body in it. *)
Definition env_sqlite : Env :=
  mkEnv "sqlite" 1000 (chat_blog env_ok) (chat_plan env_ok) (insert_error env_ok)
    (stats_write_fails env_ok) (random_draw env_ok) (at_time_ok env_ok).
Definition sqlite_run : Outcome RunReport * World :=
  _generate_and_publish_blog env_sqlite ["x"] 800 false None (world_with []).

(** The environment of [env_ok] with the database type ["mysql"], and a
    run of the job body in it. *)
Definition env_mysql : Env :=
  mkEnv "mysql" 1000 (chat_blog env_ok) (chat_plan env_ok) (insert_error env_ok)
    (stats_write_fails env_ok) (random_draw env_ok) (at_time_ok env_ok).
Definition mysql_run : Outcome RunReport * World :=
  _generate_and_publish_blog env_mysql ["x"] 800 true None world_ab.

(** Remote ends that are all down, except the custom site, whose adapter
    is built without a request. *)
Definition remotes_down : Remotes :=
  mkRemotes (fun _ _ _ => Raised "WordPress connection failed: timed out")
    (fun _ => Raised "Failed to get Medium user info: timed out")
    (fun _ _ _ => Raised "timed out")
    (fun _ _ _ _ _ _ => Returned (published_result "9")).
Example split_ex : PyStr.split "  a bc  d " = ["a"; "bc"; "d"].
Proof. reflexivity. Qed.
Example split_on_ex : PyStr.split_on "010" "ab" = ["ab"] /\ PyStr.split_on "," "a,,b," = ["a"; ""; "b"; ""].
Proof. split; reflexivity. Qed.
Example strip_ex : PyStr.strip "  a b  " = "a b".
Proof. reflexivity. Qed.
Example rfind_ex : PyStr.rfind "a.b.c" "." = 3 /\ PyStr.rfind "abc" "." = -1.
Proof. split; reflexivity. Qed.
Example take_ex : PyStr.take (-2) [1;2;3;4;5] = [1;2;3] /\ PyStr.take 2 [1;2;3] = [1;2] /\ PyStr.take (-9) [1;2] = [].
Proof. repeat split; reflexivity. Qed.
Example of_int_ex : PyStr.of_int 12 = "12".
Proof. reflexivity. Qed.
Example endswith_ex : PyStr.endswith "Key points:" ":" = true /\ PyStr.lower "AbC d" = "abc d".
Proof. split; reflexivity. Qed.

(** The generator's text helpers on sample inputs. *)
Example generate_slug_ex :
  _generate_slug "  Hello, World! -- 2025 Trends_x " = "hello-world-2025-trendsx"
  /\ _generate_slug "--A  b--" = "a-b".
Proof. split; reflexivity. Qed.

Example ensure_heading_structure_ex :
  _ensure_heading_structure
    ("Intro" +:+ nl +:+ "  Key takeaways for you:  " +:+ nl
     +:+ "- item one two three:" +:+ nl +:+ "short:" +:+ nl)
  = "Intro" +:+ nl +:+ "## Key takeaways for you:" +:+ nl
    +:+ "- item one two three:" +:+ nl +:+ "short:" +:+ nl.
Proof. reflexivity. Qed.

Example trim_content_ex :
  _trim_content "One two. Three four five six seven eight" 6
    = "One two. Three four five six..."
  /\ _trim_content "One two three four five. Six seven eight" 6
     = "One two three four five."
  /\ _trim_content "a b c d" (-1) = "a b c..."
  /\ _trim_content "a b c d" 0 = "...".
Proof. repeat split; reflexivity. Qed.

Example extract_content_from_text_ex :
  _extract_content_from_text
    ("My title " +:+ nl +:+ "Some #tag1 and ##tag_2 text #a#b # c #d #e #f")
    "AI In Health Care Now"
  = {[ "title" := VStr "My title";
       "content" := VStr ("My title " +:+ nl
                          +:+ "Some #tag1 and ##tag_2 text #a#b # c #d #e #f");
       "tags" := VList ["tag1"; "tag_2"; "a"; "b"; "d"];
       "meta_description" :=
         VStr "Learn about AI In Health Care Now and its implications in 2025.";
       "word_count" := VInt 13 ]}
  /\ dict_get (_extract_content_from_text "No tags here" "AI In Health Care Now") "tags"
     = VList ["ai"; "in"; "health"; "blog"; "article"].
Proof. split; reflexivity. Qed.

Example series_max_words_ex :
  series_max_words env_ok = 800
  /\ Z.quot (4 * -7) 5 = -5 /\ Z.quot (4 * 3) 5 = 2 /\ Z.quot (4 * 1001) 5 = 800.
Proof. repeat split; reflexivity. Qed.

Example split_space_ex :
  PyStr.split (String "032" (String "032" ("a" +:+ String "009" ("b" +:+ String "028" "c "))))
  = ["a"; "b"; "c"].
Proof. reflexivity. Qed.

(** * Properties *)

(** ** The monad and the loop combinator *)

Ltac unfold_monad :=
  unfold mbind, M_bind, mret, M_ret, try_except, raise, get_world, modify, now in *.

Lemma bind_returned {A B} (m : M A) (f : A -> M B) w a w1 :
  m w = (Returned a, w1) -> (m ≫= f) w = f a w1.
Proof. intros H. unfold_monad. by rewrite H. Qed.

Lemma bind_raised {A B} (m : M A) (f : A -> M B) w e w1 :
  m w = (Raised e, w1) -> (m ≫= f) w = (Raised e, w1).
Proof. intros H. unfold_monad. by rewrite H. Qed.

Lemma bind_inv {A B} (m : M A) (f : A -> M B) w o w' :
  (m ≫= f) w = (o, w') ->
  (exists a w1, m w = (Returned a, w1) /\ f a w1 = (o, w'))
  \/ (exists e, m w = (Raised e, w') /\ o = Raised e).
Proof.
  unfold_monad. destruct (m w) as [[a|e] w1]; intros H.
  - left. eauto.
  - right. inversion H; subst. eauto.
Qed.

Lemma for_each_app {A B} (l1 l2 : list A) (body : A -> B -> M B) acc w :
  for_each (l1 ++ l2) body acc w =
  match for_each l1 body acc w with
  | (Returned acc1, w1) => for_each l2 body acc1 w1
  | (Raised e, w1) => (Raised e, w1)
  end.
Proof.
  revert acc w. induction l1 as [|x l1 IH]; intros acc w; simpl.
  - reflexivity.
  - unfold_monad. destruct (body x acc w) as [[acc1|e] w1]; [apply IH | reflexivity].
Qed.

(** A loop whose body always returns, returns. *)
Lemma for_each_total {A B} (l : list A) (body : A -> B -> M B) :
  (forall x acc w, exists acc' w', body x acc w = (Returned acc', w')) ->
  forall acc w, exists acc' w', for_each l body acc w = (Returned acc', w').
Proof.
  intros Hbody. induction l as [|x l IH]; intros acc w; simpl.
  - by exists acc, w.
  - destruct (Hbody x acc w) as (acc1 & w1 & H1).
    destruct (IH acc1 w1) as (acc2 & w2 & H2).
    exists acc2, w2. by rewrite (bind_returned _ _ _ _ _ H1).
Qed.

(** ** Logged invocations *)

Lemma log_calls_app cs1 cs2 w :
  log_calls (cs1 ++ cs2) w = log_calls cs2 (log_calls cs1 w).
Proof. unfold log_calls. apply fold_left_app. Qed.

Lemma log_calls_fields cs w :
  stats (log_calls cs w) = stats w
  /\ publishers (log_calls cs w) = publishers w
  /\ stats_store (log_calls cs w) = stats_store w
  /\ stats_writes (log_calls cs w) = stats_writes w
  /\ blog_posts (log_calls cs w) = blog_posts w
  /\ db_inserts (log_calls cs w) = db_inserts w
  /\ publish_calls (log_calls cs w) = publish_calls w ++ cs
  /\ completions (log_calls cs w) = completions w
  /\ draws (log_calls cs w) = draws w
  /\ clock (log_calls cs w) = clock w
  /\ jobs (log_calls cs w) = jobs w.
Proof.
  revert w. induction cs as [|c cs IH]; intros w; simpl.
  - rewrite app_nil_r. repeat split.
  - destruct (IH (log_call c w)) as (?&?&?&?&?&?&Hc&?&?&?&?).
    unfold log_calls in *. simpl in *. rewrite Hc, <- app_assoc. simpl.
    repeat split; assumption.
Qed.

Lemma publishers_log_calls cs w : publishers (log_calls cs w) = publishers w.
Proof. apply log_calls_fields. Qed.

Lemma publish_calls_log_calls cs w :
  publish_calls (log_calls cs w) = publish_calls w ++ cs.
Proof. apply log_calls_fields. Qed.

Lemma new_calls_log_calls cs w : new_calls w (log_calls cs w) = cs.
Proof.
  unfold new_calls. rewrite publish_calls_log_calls.
  by rewrite drop_app_length.
Qed.

(** ** The fan-out of [publish_to_all] *)

Section FanOut.

Context (title content tags : Value).

Local Abbreviation step := (publish_one title content tags).
Local Abbreviation call_of := (fun n => mkCall n title content tags).

Lemma publish_one_eq n res w :
  step n res w =
  (Returned (<[n := entry title content tags w n]> res),
   if invoked (publishers w) n then log_call (call_of n) w else w).
Proof.
  unfold publish_one, entry, invoked, dispatch, invoke_publish_post.
  unfold_monad.
  destruct (registry_lookup n (publishers w)) as [p|]; [|reflexivity].
  destruct (pub_class p); simpl;
    try (destruct (publish_post p (publish_calls w) title content tags);
         reflexivity).
Qed.

Lemma invoked_log_call c w n :
  invoked (publishers (log_call c w)) n = invoked (publishers w) n.
Proof. reflexivity. Qed.

(** The fan-out never raises, and invokes exactly the names of the list
    that are registered with an adapter class, in the order of the list. *)
Lemma fan_out_returns l res w :
  exists results,
    for_each l step res w =
    (Returned results,
     log_calls (map call_of (filter (fun n => invoked (publishers w) n = true) l)) w).
Proof.
  revert res w. induction l as [|n l IH]; intros res w; simpl.
  - by exists res.
  - rewrite (bind_returned _ _ _ _ _ (publish_one_eq n res w)).
    rewrite filter_cons. destruct (invoked (publishers w) n) eqn:Hn.
    + destruct (IH (<[n:=entry title content tags w n]> res) (log_call (call_of n) w))
        as (R & HR).
      exists R. rewrite HR. rewrite decide_True by done. reflexivity.
    + destruct (IH (<[n:=entry title content tags w n]> res) w) as (R & HR).
      exists R. rewrite HR. rewrite decide_False by done. reflexivity.
Qed.

Lemma fan_out_publishers l res w R w' :
  for_each l step res w = (Returned R, w') -> publishers w' = publishers w.
Proof.
  destruct (fan_out_returns l res w) as (R' & H'). rewrite H'.
  intros [= _ <-]. apply publishers_log_calls.
Qed.

(** Names outside the list keep the entry they had. *)
Lemma fan_out_lookup_notin l res w R w' n :
  for_each l step res w = (Returned R, w') -> n ∉ l -> R !! n = res !! n.
Proof.
  revert res w. induction l as [|x l IH]; intros res w; simpl.
  - unfold_monad. by intros [= <- <-].
  - rewrite (bind_returned _ _ _ _ _ (publish_one_eq x res w)).
    intros H Hn. apply not_elem_of_cons in Hn as [Hx Hl].
    rewrite (IH _ _ H Hl). by rewrite lookup_insert_ne.
Qed.

(** The last occurrence of a name decides its entry. *)
Lemma fan_out_lookup_last l1 n l2 res w R1 w1 R w' :
  for_each l1 step res w = (Returned R1, w1) ->
  for_each (l1 ++ n :: l2) step res w = (Returned R, w') ->
  n ∉ l2 ->
  R !! n = Some (entry title content tags w1 n).
Proof.
  intros H1 H Hn. rewrite for_each_app, H1 in H. simpl in H.
  rewrite (bind_returned _ _ _ _ _ (publish_one_eq n R1 w1)) in H.
  rewrite (fan_out_lookup_notin _ _ _ _ _ _ H Hn).
  apply lookup_insert_eq.
Qed.

(** An entry that does not depend on the state can be set before the
    loop as well as in it. *)
Lemma fan_out_insert_static name l res w R w' :
  invoked (publishers w) name = false ->
  for_each l step res w = (Returned R, w') ->
  for_each l step (<[name := static_entry (publishers w) name]> res) w =
  (Returned (<[name := static_entry (publishers w) name]> R), w').
Proof.
  intros Hname. revert res w Hname R w'.
  induction l as [|x l IH]; intros res w Hname R w'; simpl.
  - unfold_monad. by intros [= <- <-].
  - rewrite !(bind_returned _ _ _ _ _ (publish_one_eq x _ w)).
    intros H. destruct (decide (x = name)) as [->|Hx].
    + rewrite Hname in *.
      assert (entry title content tags w name = static_entry (publishers w) name) as He.
      { unfold entry, static_entry. rewrite Hname.
        by destruct (registry_lookup name (publishers w)). }
      rewrite He in *. rewrite insert_insert_eq.
      destruct (fan_out_returns l res w) as (R0 & H0).
      pose proof (IH res w Hname _ _ H0) as H1.
      rewrite H1 in H. injection H as <- <-.
      rewrite H1. by rewrite insert_insert_eq.
    + rewrite insert_insert_ne by done.
      destruct (invoked (publishers w) x).
      * apply (IH _ (log_call (call_of x) w)); done.
      * apply IH; done.
Qed.

(** A name the fan-out does not invoke contributes its own entry and
    nothing else: the run is the run over the other names, with that
    entry added. *)
Lemma fan_out_skip name l res w R0 w0 :
  invoked (publishers w) name = false ->
  for_each (filter (fun n => n <> name) l) step res w = (Returned R0, w0) ->
  for_each l step res w =
  (Returned (if decide (name ∈ l)
             then <[name := static_entry (publishers w) name]> R0 else R0), w0).
Proof.
  intros Hname. revert res w Hname R0 w0.
  induction l as [|x l IH]; intros res w Hname R0 w0.
  - cbn [for_each filter list_filter]. unfold_monad. intros [= <- <-].
    rewrite decide_False; [done|]. apply not_elem_of_nil.
  - rewrite filter_cons. destruct (decide (x = name)) as [->|Hx].
    + rewrite decide_False by (intros Hne; by apply Hne).
      intros H. simpl.
      rewrite (bind_returned _ _ _ _ _ (publish_one_eq name res w)).
      rewrite Hname.
      assert (entry title content tags w name = static_entry (publishers w) name) as ->.
      { unfold entry, static_entry. rewrite Hname.
        by destruct (registry_lookup name (publishers w)). }
      pose proof (IH res w Hname _ _ H) as H1.
      rewrite (fan_out_insert_static _ _ _ _ _ _ Hname H1).
      destruct (decide (name ∈ name :: l)) as [_|Hn];
        [|exfalso; apply Hn, list_elem_of_here].
      destruct (decide (name ∈ l)); [by rewrite insert_insert_eq | done].
    + rewrite decide_True by done. simpl.
      rewrite !(bind_returned _ _ _ _ _ (publish_one_eq x res w)).
      intros H.
      assert (forall w1, publishers w1 = publishers w ->
                for_each (filter (fun n => n <> name) l) step
                  (<[x:=entry title content tags w x]> res) w1 = (Returned R0, w0) ->
                for_each l step (<[x:=entry title content tags w x]> res) w1 =
                (Returned (if decide (name ∈ x :: l)
                           then <[name:=static_entry (publishers w) name]> R0
                           else R0), w0)) as Hgo.
      { intros w1 Hp H1. rewrite <- Hp in Hname.
        rewrite (IH _ w1 Hname _ _ H1). rewrite Hp.
        destruct (decide (name ∈ l)) as [Hin|Hin];
          destruct (decide (name ∈ x :: l)) as [Hin'|Hin']; try done.
        - exfalso. by apply Hin', list_elem_of_further.
        - apply elem_of_cons in Hin' as [?|?]; [by subst|done]. }
      destruct (invoked (publishers w) x); apply Hgo; done.
Qed.

End FanOut.

(** ** Claims about the fan-out *)

Lemma publish_to_all_eq title content tags platforms w :
  publish_to_all title content tags platforms w =
  for_each (targets platforms w) (publish_one title content tags) ∅ w.
Proof. reflexivity. Qed.

Lemma new_calls_names title content tags l w call :
  call ∈ map (fun n => mkCall n title content tags)
         (filter (fun n => invoked (publishers w) n = true) l) ->
  call_name call ∈ l /\ invoked (publishers w) (call_name call) = true.
Proof.
  intros (n & -> & Hn)%list_elem_of_fmap.
  apply list_elem_of_filter in Hn as [? ?]. simpl. done.
Qed.

Lemma fan_out_new_calls title content tags l res w R w' :
  for_each l (publish_one title content tags) res w = (Returned R, w') ->
  new_calls w w' =
  map (fun n => mkCall n title content tags)
    (filter (fun n => invoked (publishers w) n = true) l).
Proof.
  destruct (fan_out_returns title content tags l res w) as (R' & H').
  rewrite H'. intros [= _ <-]. apply new_calls_log_calls.
Qed.

(** No exception leaves [publish_to_all]. *)
Lemma publish_to_all_returns title content tags platforms w :
  exists results w',
    publish_to_all title content tags platforms w = (Returned results, w').
Proof.
  rewrite publish_to_all_eq.
  destruct (fan_out_returns title content tags (targets platforms w) ∅ w)
    as (results & H).
  eauto.
Qed.

(** C2, as the code has it.  A target name that is not in the registry
    gets the entry [{'success': False, 'error': 'Publisher not configured'}];
    the call returns; it is otherwise the run over the remaining target
    names (same invocations, same other entries), so no invocation is made
    under the unknown name and every target registered with an adapter
    class is invoked, in the order of the list. *)
Theorem unknown_platform_reported_without_io
    title content tags platforms name w :
  name ∈ targets platforms w ->
  registry_lookup name (publishers w) = None ->
  exists others w',
    for_each (filter (fun n => n <> name) (targets platforms w))
      (publish_one title content tags) ∅ w = (Returned others, w')
    /\ publish_to_all title content tags platforms w =
       (Returned
          (<[name := ODict {[ "success" := VBool false;
                              "error" := VStr "Publisher not configured" ]}]>
             others), w')
    /\ new_calls w w' =
       map (fun n => mkCall n title content tags)
         (filter (fun n => invoked (publishers w) n = true) (targets platforms w))
    /\ (forall call, call ∈ new_calls w w' -> call_name call <> name)
    /\ (forall n, n ∈ targets platforms w -> invoked (publishers w) n = true ->
        exists call, call ∈ new_calls w w' /\ call_name call = n).
Proof.
  intros Hin Hreg.
  assert (invoked (publishers w) name = false) as Hinv.
  { unfold invoked. by rewrite Hreg. }
  destruct (fan_out_returns title content tags
              (filter (fun n => n <> name) (targets platforms w)) ∅ w)
    as (others & Hothers).
  eexists others, _. split; [exact Hothers|].
  pose proof (fan_out_skip title content tags name _ _ _ _ _ Hinv Hothers) as Hall.
  rewrite decide_True in Hall by done.
  unfold static_entry in Hall. rewrite Hreg in Hall.
  rewrite publish_to_all_eq. split; [exact Hall|].
  pose proof (fan_out_new_calls _ _ _ _ _ _ _ _ Hall) as Hcalls.
  split; [exact Hcalls|]. rewrite Hcalls. split.
  - intros call [_ Hc]%new_calls_names Heq. rewrite Heq in Hc. congruence.
  - intros n Hn Hi. exists (mkCall n title content tags). split; [|done].
    apply list_elem_of_fmap. exists n. split; [done|].
    by apply list_elem_of_filter.
Qed.

(** C3.  When the publisher registered under [name] raises [e] on its
    turn, the call still returns; the loop goes on over the names after
    it from the results gathered so far, in which only the entry of
    [name] was set, to [{'success': False, 'error': str(e)}]; that entry
    is the final one unless the name is listed again; and every target
    registered with an adapter class, before and after the failing one,
    is invoked. *)
Theorem publisher_exception_is_isolated
    title content tags platforms before name after publisher e results1 w w1 :
  targets platforms w = before ++ name :: after ->
  registry_lookup name (publishers w) = Some publisher ->
  pub_class publisher <> OtherClass ->
  for_each before (publish_one title content tags) ∅ w = (Returned results1, w1) ->
  publish_post publisher (publish_calls w1) title content tags = Raised e ->
  exists results w',
    publish_to_all title content tags platforms w = (Returned results, w')
    /\ for_each after (publish_one title content tags)
         (<[name := failure e]> results1)
         (log_call (mkCall name title content tags) w1) = (Returned results, w')
    /\ (name ∉ after ->
        results !! name =
        Some (ODict {[ "success" := VBool false; "error" := VStr e ]}))
    /\ new_calls w w' =
       map (fun n => mkCall n title content tags)
         (filter (fun n => invoked (publishers w) n = true) (before ++ name :: after)).
Proof.
  intros Htargets Hreg Hclass Hbefore Hraise.
  pose proof (fan_out_publishers _ _ _ _ _ _ _ _ Hbefore) as Hpub.
  assert (invoked (publishers w1) name = true) as Hinv.
  { unfold invoked. rewrite Hpub, Hreg. by destruct (pub_class publisher). }
  assert (entry title content tags w1 name = failure e) as Hentry.
  { unfold entry. rewrite Hinv, Hpub, Hreg, Hraise. reflexivity. }
  destruct (fan_out_returns title content tags after
              (<[name := failure e]> results1)
              (log_call (mkCall name title content tags) w1)) as (results & Hafter).
  match type of Hafter with _ = (_, ?x) => set (w' := x) in * end.
  exists results, w'.
  assert (publish_to_all title content tags platforms w = (Returned results, w')) as Hall.
  { rewrite publish_to_all_eq, Htargets, for_each_app, Hbefore. simpl.
    rewrite (bind_returned _ _ _ _ _ (publish_one_eq title content tags name results1 w1)).
    rewrite Hinv, Hentry. exact Hafter. }
  split; [exact Hall|]. split; [exact Hafter|]. split.
  - intros Hnotin.
    rewrite (fan_out_lookup_notin _ _ _ _ _ _ _ _ _ Hafter Hnotin).
    apply lookup_insert_eq.
  - rewrite publish_to_all_eq, Htargets in Hall.
    exact (fan_out_new_calls _ _ _ _ _ _ _ _ Hall).
Qed.

(** C10.  A target name registered with an object of none of the four
    adapter classes gets the entry
    [{'success': False, 'error': 'Unknown publisher type'}]; the call
    returns, and no invocation is made under that name nor under any name
    the same object is registered with. *)
Theorem unknown_publisher_type_not_invoked
    title content tags platforms name publisher w :
  name ∈ targets platforms w ->
  registry_lookup name (publishers w) = Some publisher ->
  pub_class publisher = OtherClass ->
  exists results w',
    publish_to_all title content tags platforms w = (Returned results, w')
    /\ results !! name =
       Some (ODict {[ "success" := VBool false;
                      "error" := VStr "Unknown publisher type" ]})
    /\ (forall call, call ∈ new_calls w w' -> call_name call <> name)
    /\ (forall call, call ∈ new_calls w w' ->
        registry_lookup (call_name call) (publishers w) <> Some publisher).
Proof.
  intros Hin Hreg Hclass.
  assert (invoked (publishers w) name = false) as Hinv.
  { unfold invoked. by rewrite Hreg, Hclass. }
  destruct (fan_out_returns title content tags
              (filter (fun n => n <> name) (targets platforms w)) ∅ w)
    as (others & Hothers).
  pose proof (fan_out_skip title content tags name _ _ _ _ _ Hinv Hothers) as Hall.
  rewrite decide_True in Hall by done.
  unfold static_entry in Hall. rewrite Hreg in Hall.
  eexists _, _. rewrite publish_to_all_eq. split; [exact Hall|].
  split; [apply lookup_insert_eq|].
  rewrite (fan_out_new_calls _ _ _ _ _ _ _ _ Hall). split.
  - intros call [_ Hc]%new_calls_names Heq. rewrite Heq in Hc. congruence.
  - intros call [_ Hc]%new_calls_names Hsame.
    unfold invoked in Hc. rewrite Hsame, Hclass in Hc. discriminate.
Qed.

Lemma unknown_platform_witness :
  exists others w',
    for_each (filter (fun n => n <> "site-c") (targets (Some ["site-c"; "site-a"]) world_ab))
      (publish_one (VStr "T") (VStr "body") (VList [])) ∅ world_ab = (Returned others, w')
    /\ publish_to_all (VStr "T") (VStr "body") (VList []) (Some ["site-c"; "site-a"]) world_ab =
       (Returned
          (<["site-c" := ODict {[ "success" := VBool false;
                                  "error" := VStr "Publisher not configured" ]}]>
             others), w')
    /\ new_calls world_ab w' =
       map (fun n => mkCall n (VStr "T") (VStr "body") (VList []))
         (filter (fun n => invoked (publishers world_ab) n = true)
            (targets (Some ["site-c"; "site-a"]) world_ab))
    /\ (forall call, call ∈ new_calls world_ab w' -> call_name call <> "site-c")
    /\ (forall n, n ∈ targets (Some ["site-c"; "site-a"]) world_ab ->
        invoked (publishers world_ab) n = true ->
        exists call, call ∈ new_calls world_ab w' /\ call_name call = n).
Proof.
  apply (unknown_platform_reported_without_io
           (VStr "T") (VStr "body") (VList []) (Some ["site-c"; "site-a"])
           "site-c" world_ab).
  - apply list_elem_of_here.
  - reflexivity.
Defined.

(** C2 as stated fails on the error text: for the unregistered name
    ["site-c"] the entry's error is not ["not configured"]. *)
Lemma unknown_platform_error_text_differs :
  ~ (exists results w',
       publish_to_all (VStr "T") (VStr "body") (VList []) (Some ["site-c"; "site-a"])
         world_ab = (Returned results, w')
       /\ reports_not_configured (results !! "site-c")).
Proof.
  intros (results & w' & Hrun & d & Hd & _ & Herr).
  assert (results !! "site-c" = Some not_configured) as Hnc.
  { destruct (fan_out_returns (VStr "T") (VStr "body") (VList [])
                (filter (fun n => n <> "site-c") ["site-c"; "site-a"]) ∅ world_ab)
      as (others & Hothers).
    pose proof (fan_out_skip (VStr "T") (VStr "body") (VList []) "site-c"
                  ["site-c"; "site-a"] ∅ world_ab _ _ eq_refl Hothers) as Hall.
    rewrite decide_True in Hall by apply list_elem_of_here.
    rewrite publish_to_all_eq in Hrun. change (targets _ _) with ["site-c"; "site-a"] in Hrun.
    rewrite Hall in Hrun. injection Hrun as <- _.
    apply lookup_insert_eq. }
  rewrite Hnc in Hd. injection Hd as <-.
  vm_compute in Herr. discriminate.
Qed.

Lemma publisher_exception_witness :
  exists results w',
    publish_to_all (VStr "T") (VStr "body") (VList []) None world_mixed = (Returned results, w')
    /\ for_each ["site-b"; "plugin"] (publish_one (VStr "T") (VStr "body") (VList []))
         (<["site-x" := failure "boom"]> (<["site-a" := published_result "1"]> ∅))
         (log_call (mkCall "site-x" (VStr "T") (VStr "body") (VList []))
            (log_call (mkCall "site-a" (VStr "T") (VStr "body") (VList [])) world_mixed))
       = (Returned results, w')
    /\ ("site-x" ∉ ["site-b"; "plugin"] ->
        results !! "site-x" =
        Some (ODict {[ "success" := VBool false; "error" := VStr "boom" ]}))
    /\ new_calls world_mixed w' =
       map (fun n => mkCall n (VStr "T") (VStr "body") (VList []))
         (filter (fun n => invoked (publishers world_mixed) n = true)
            (["site-a"] ++ "site-x" :: ["site-b"; "plugin"])).
Proof.
  apply (publisher_exception_is_isolated
           (VStr "T") (VStr "body") (VList []) None
           ["site-a"] "site-x" ["site-b"; "plugin"] site_raising "boom"
           (<["site-a" := published_result "1"]> ∅)
           world_mixed
           (log_call (mkCall "site-a" (VStr "T") (VStr "body") (VList [])) world_mixed)).
  - reflexivity.
  - reflexivity.
  - discriminate.
  - reflexivity.
  - reflexivity.
Defined.

Lemma unknown_publisher_type_witness :
  exists results w',
    publish_to_all (VStr "T") (VStr "body") (VList []) None world_mixed = (Returned results, w')
    /\ results !! "plugin" =
       Some (ODict {[ "success" := VBool false;
                      "error" := VStr "Unknown publisher type" ]})
    /\ (forall call, call ∈ new_calls world_mixed w' -> call_name call <> "plugin")
    /\ (forall call, call ∈ new_calls world_mixed w' ->
        registry_lookup (call_name call) (publishers world_mixed) <> Some site_plugin).
Proof.
  apply (unknown_publisher_type_not_invoked
           (VStr "T") (VStr "body") (VList []) None "plugin" site_plugin world_mixed).
  - unfold targets, world_mixed, world_with. simpl. set_solver.
  - reflexivity.
  - reflexivity.
Defined.

(** Scenarios B and C of the specification. *)
Example scenario_b :
  match publish_to_all (VStr "T") (VStr "body") (VList []) None world_ab with
  | (Returned results, w') =>
      result_success <$> results !! "site-a" = Some true
      /\ result_success <$> results !! "site-b" = Some false
      /\ map call_name (publish_calls w') = ["site-a"; "site-b"]
  | _ => False
  end.
Proof. vm_compute. repeat split. Qed.

Example scenario_c :
  publish_to_all (VStr "T") (VStr "body") (VList []) (Some ["site-c"]) world_ab
  = (Returned {[ "site-c" := not_configured ]}, world_ab).
Proof. reflexivity. Qed.

Example hhmm_ok_ex :
  hhmm_ok "09:00" = true /\ hhmm_ok "23:59" = true /\ hhmm_ok "24:00" = false
  /\ hhmm_ok "9:00" = false /\ hhmm_ok "12:60" = false.
Proof. repeat split; reflexivity. Qed.

(** ** The generator's post-processing *)

(** The word count [_process_blog_content] computes for a body. *)
Lemma process_blog_content_returned env blog_data topic w d w' :
  _process_blog_content env (RawDict blog_data) topic w = (Returned d, w') ->
  exists body title,
    blog_data !! "content" = Some (VStr body)
    /\ blog_data !! "title" = Some (VStr title)
    /\ w' = tick w
    /\ let text := _ensure_heading_structure (PyStr.strip body) in
       let n := Z.of_nat (length (PyStr.split text)) in
       d = <["status" := VStr "draft"]>
           (<["is_auto_generated" := VBool true]>
           (<["topic" := VStr topic]>
           (<["created_at" := VIso (clock w)]>
           (<["slug" := VStr (_generate_slug title)]>
           (<["word_count" :=
                VInt (if BLOG_MAX_LENGTH env <? n then BLOG_MAX_LENGTH env else n)]>
           (<["content" :=
                VStr (if BLOG_MAX_LENGTH env <? n
                      then _trim_content text (BLOG_MAX_LENGTH env) else text)]>
              blog_data)))))).
Proof.
  unfold _process_blog_content, dict_item, as_str. unfold_monad.
  destruct (blog_data !! "content") as [[| | |body| | |]|]; try discriminate.
  destruct (blog_data !! "title") as [[| | |title| | |]|];
    try (destruct (BLOG_MAX_LENGTH env <? _); discriminate).
  intros H. exists body, title. split; [done|]. split; [done|].
  destruct (BLOG_MAX_LENGTH env <? _) eqn:Hlt; injection H as <- <-; done.
Qed.

Lemma quiet_refl w : quiet w w.
Proof. by repeat split. Qed.

Lemma quiet_trans w1 w2 w3 : quiet w1 w2 -> quiet w2 w3 -> quiet w1 w3.
Proof.
  intros (?&?&?&?&?&?) (?&?&?&?&?&?). repeat split; congruence.
Qed.

Lemma quiet_tick w : quiet w (tick w).
Proof. by repeat split. Qed.

Lemma quiet_count_completion w : quiet w (count_completion w).
Proof. by repeat split. Qed.

Lemma quiet_count_draw w : quiet w (count_draw w).
Proof. by repeat split. Qed.

Create HintDb quiet.
#[local] Hint Resolve quiet_refl quiet_tick quiet_count_completion
  quiet_count_draw : quiet.

Lemma process_blog_content_quiet env raw topic w o w' :
  _process_blog_content env raw topic w = (o, w') -> quiet w w'.
Proof.
  unfold _process_blog_content, dict_item, as_str. unfold_monad.
  destruct raw as [blog_data|err]; [|intros [= <- <-]; auto with quiet].
  destruct (blog_data !! "content") as [[| | |body| | |]|];
    try (intros [= <- <-]; auto with quiet).
  destruct (BLOG_MAX_LENGTH env <? _);
    destruct (blog_data !! "title") as [[| | |title| | |]|];
    intros [= <- <-]; auto with quiet.
Qed.

Lemma generate_content_quiet env topic max_words audience style w o w' :
  _generate_content env topic max_words audience style w = (o, w') -> quiet w w'.
Proof.
  unfold _generate_content. unfold_monad.
  destruct (chat_blog env _ _ _ _ _); intros [= <- <-]; auto with quiet.
Qed.

Lemma generate_blog_spec env topic max_words audience style w o w' :
  generate_blog env topic max_words audience style w = (o, w') ->
  quiet w w' /\ (forall d, o = Returned d -> processed env d).
Proof.
  unfold generate_blog. unfold try_except.
  destruct (String.eqb (PyStr.strip topic) "").
  { unfold_monad. intros [= <- <-]. split; [auto with quiet|discriminate]. }
  set (st := if bool_decide (style ∈ blog_templates) then style else "informative").
  destruct (_generate_content env topic max_words audience st w)
    as [[raw|e] w1] eqn:Hgen.
  2:{ rewrite (bind_raised _ _ _ _ _ Hgen). unfold raise. intros [= <- <-].
      split; [eapply generate_content_quiet; eauto | discriminate]. }
  rewrite (bind_returned _ _ _ _ _ Hgen).
  pose proof (generate_content_quiet _ _ _ _ _ _ _ _ Hgen) as Hq1.
  destruct (_process_blog_content env raw topic w1) as [[d|e] w2] eqn:Hproc.
  2:{ rewrite (bind_raised _ _ _ _ _ Hproc). unfold raise. intros [= <- <-].
      split; [|discriminate].
      eapply quiet_trans; [exact Hq1|]. eapply process_blog_content_quiet; eauto. }
  rewrite (bind_returned _ _ _ _ _ Hproc). unfold_monad. intros [= <- <-].
  split.
  { eapply quiet_trans; [exact Hq1|]. eapply process_blog_content_quiet; eauto. }
  intros d' [= <-].
  destruct raw as [blog_data|err]; [|discriminate].
  apply process_blog_content_returned in Hproc
    as (body & title & Hbody & Htitle & _ & Hd).
  cbv zeta in Hd. subst d. unfold processed.
  split; [by rewrite lookup_insert_eq|].
  split; [exists title; by repeat (rewrite lookup_insert_ne by done)|].
  split; [eexists; repeat (rewrite lookup_insert_ne by done); by rewrite lookup_insert_eq|].
  eexists; repeat (rewrite lookup_insert_ne by done); by rewrite lookup_insert_eq.
Qed.

(** ** The scheduler's helpers *)

Lemma select_topic_eq env topics w :
  _select_topic env topics w = (Returned (selected_topic env topics w), count_draw w).
Proof. reflexivity. Qed.

Lemma save_statistics_returns env w :
  exists w', _save_statistics env w = (Returned tt, w') /\ quiet w w'.
Proof.
  unfold _save_statistics. unfold_monad.
  destruct (String.eqb (database_type env) "mongodb"); simpl;
    destruct (stats_write_fails env (stats_writes w));
    eexists; (split; [reflexivity|]); by repeat split.
Qed.

Lemma or_list_idem {A} (p : option (list A)) (d : list A) :
  or_list (Some (or_list p d)) d = or_list p d.
Proof. destruct p as [[|x l]|]; simpl; try done; by destruct d. Qed.

Lemma count_successes_returned results k w w' :
  count_successes results w = (Returned k, w') ->
  w' = w /\ k = successes results
  /\ (forall name, results !! name <> Some ONone).
Proof.
  unfold count_successes, successes. unfold_monad.
  destruct (existsb is_none (map_to_list results).*2) eqn:Hex; [discriminate|].
  intros [= <- <-]. split; [done|]. split; [done|].
  intros name Hname.
  assert (existsb is_none (map_to_list results).*2 = true) as Hc; [|congruence].
  apply existsb_exists. exists ONone. split; [|done].
  apply list_elem_of_In, list_elem_of_fmap. exists (name, ONone).
  split; [done|]. by apply elem_of_map_to_list.
Qed.

Lemma count_successes_raised results e w w' :
  count_successes results w = (Raised e, w') ->
  w' = w /\ exists name, results !! name = Some ONone.
Proof.
  unfold count_successes. unfold_monad.
  destruct (existsb is_none (map_to_list results).*2) eqn:Hex; [|discriminate].
  intros [= <- <-]. split; [done|].
  apply existsb_exists in Hex as (r & Hin & Hr).
  apply list_elem_of_In, list_elem_of_fmap in Hin as ([name r'] & -> & Hin).
  apply elem_of_map_to_list in Hin. destruct r'; [discriminate|]. eauto.
Qed.

(** The number of successes is positive exactly when some entry reports
    success. *)
Lemma successes_positive results :
  1 <= successes results <->
  exists name r, results !! name = Some r /\ result_success r = true.
Proof.
  unfold successes. split.
  - intros H.
    destruct (filter (fun r => result_success r = true) (map_to_list results).*2)
      as [|r l] eqn:Hf; [simpl in H; lia|].
    assert (r ∈ filter (fun r => result_success r = true) (map_to_list results).*2)
      as Hin by (rewrite Hf; apply list_elem_of_here).
    apply list_elem_of_filter in Hin as [Hr Hin].
    apply list_elem_of_fmap in Hin as ([name r'] & -> & Hin).
    apply elem_of_map_to_list in Hin. eauto.
  - intros (name & r & Hname & Hr).
    assert (r ∈ filter (fun r => result_success r = true) (map_to_list results).*2)
      as Hin.
    { apply list_elem_of_filter. split; [done|].
      apply list_elem_of_fmap. exists (name, r). split; [done|].
      by apply elem_of_map_to_list. }
    destruct (filter _ _); [by apply not_elem_of_nil in Hin|]. simpl. lia.
Qed.

(** [_publish_blog] always returns; it changes nothing but the log of
    invocations; and when it reports an outcome, the reported success is
    that of at least one platform. *)
Lemma publish_blog_returns blog_data platforms w :
  exists report cs,
    _publish_blog blog_data platforms w = (Returned report, log_calls cs w)
    /\ (forall success k n results,
          report = PublishOutcome success k n results ->
          k = successes results
          /\ (success = true <-> 1 <= k)
          /\ (forall name, results !! name <> Some ONone)
          /\ n = Z.of_nat (length (targets platforms w))).
Proof.
  unfold _publish_blog, try_except.
  unfold mbind at 1. unfold M_bind, get_world.
  destruct (publishers w) as [|reg0 reg] eqn:Hreg.
  { exists (PublishError "No publishers configured"), []. split; [done|]. discriminate. }
  unfold dict_item.
  destruct (blog_data !! "title") as [title|].
  2:{ exists (PublishError (key_error "title")), []. split; [done|]. discriminate. }
  destruct (blog_data !! "content") as [content|].
  2:{ exists (PublishError (key_error "content")), []. split; [done|]. discriminate. }
  unfold mbind at 1. unfold M_bind. unfold mret at 1. unfold M_ret.
  unfold mbind at 1. unfold M_bind. unfold mret at 1. unfold M_ret.
  rewrite <- Hreg.
  set (tags := dict_get_default blog_data "tags" (VList [])).
  set (l := or_list platforms (registry_keys (publishers w))).
  destruct (fan_out_returns title content tags l ∅ w) as (results & Hres).
  match type of Hres with _ = (_, ?x) => set (w1 := x) in * end.
  assert (publish_to_all title content tags (Some l) w = (Returned results, w1)) as Hall.
  { rewrite publish_to_all_eq. unfold targets, l. rewrite or_list_idem. exact Hres. }
  rewrite (bind_returned _ _ _ _ _ Hall).
  destruct (count_successes results w1) as [[k|e] w2] eqn:Hcount.
  - apply count_successes_returned in Hcount as Hc. destruct Hc as (-> & -> & Hnone).
    rewrite (bind_returned _ _ _ _ _ Hcount). unfold mret, M_ret.
    eexists _, _. split; [reflexivity|].
    intros s k n res [= <- <- <- <-]. split; [done|]. split; [|done].
    rewrite Z.ltb_lt. split; lia.
  - apply count_successes_raised in Hcount as Hc. destruct Hc as (-> & _).
    rewrite (bind_raised _ _ _ _ _ Hcount). unfold mret, M_ret.
    eexists _, _. split; [reflexivity|]. discriminate.
Qed.

(** [_save_blog_to_database]: a save that returns has appended
    [saved_rows]; a save that raises has stored nothing.  Either way the
    statistics, the registry and the log of invocations are as before. *)
Lemma save_blog_spec env blog_data w o w' :
  _save_blog_to_database env blog_data w = (o, w') ->
  stats w' = stats w /\ publishers w' = publishers w
  /\ publish_calls w' = publish_calls w /\ jobs w' = jobs w
  /\ match o with
     | Returned d =>
         d = saved_blog_data env blog_data w
         /\ blog_posts w' = blog_posts w ++ saved_rows env blog_data w
     | Raised e => blog_posts w' = blog_posts w
     end.
Proof.
  unfold _save_blog_to_database, saved_blog_data, saved_rows, insert_row.
  unfold_monad.
  destruct (String.eqb (database_type env) "mongodb"); simpl.
  { destruct (insert_error env _ _); intros [= <- <-]; by repeat split. }
  rewrite andb_false_r. simpl.
  intros [= <- <-]. rewrite app_nil_r. by repeat split.
Qed.

(** A processed dictionary is stored as a draft, with the word count it
    carries. *)
Lemma saved_rows_processed env blog_data w row :
  processed env blog_data ->
  row ∈ saved_rows env blog_data w ->
  row_status row = VStr "draft"
  /\ Some (row_word_count row) = blog_data !! "word_count".
Proof.
  intros (Hstatus & _ & _ & n & Hn). unfold saved_rows.
  destruct (String.eqb (database_type env) "mongodb").
  { intros ->%list_elem_of_singleton. simpl. unfold dict_get.
    rewrite !lookup_insert_ne by done. by rewrite Hstatus, Hn. }
  by intros ?%not_elem_of_nil.
Qed.

Lemma saved_blog_data_lookup env blog_data w k :
  k <> "saved_at" -> saved_blog_data env blog_data w !! k = blog_data !! k.
Proof.
  intros Hk. unfold saved_blog_data.
  destruct (String.eqb (database_type env) "mongodb"); [|done].
  by rewrite lookup_insert_ne.
Qed.

(** ** The job body *)

Lemma record_failure_spec env e w :
  exists w',
    record_failure env e w = (Returned (GenerationFailed e), w')
    /\ stats w' = incr_failed_generations (stats w)
    /\ publishers w' = publishers w
    /\ blog_posts w' = blog_posts w
    /\ publish_calls w' = publish_calls w.
Proof.
  unfold record_failure.
  destruct (save_statistics_returns env (set_stats incr_failed_generations w))
    as (w' & Hsave & Hs & Hp & Hb & _ & Hc & _).
  exists w'. split; [|by repeat split].
  rewrite (bind_returned _ _ w tt (set_stats incr_failed_generations w) eq_refl).
  by rewrite (bind_returned _ _ _ _ _ Hsave).
Qed.

(** The counters after the part of the job body that follows the save. *)
Lemma after_save_spec env publish_immediately platforms blog_data w :
  exists publish_result cs w',
    after_save env publish_immediately platforms blog_data w
      = (Returned (Generated publish_result blog_data), w')
    /\ publishers w' = publishers w
    /\ blog_posts w' = blog_posts w
    /\ publish_calls w' = publish_calls w ++ cs
    /\ total_generated (stats w') = total_generated (stats w) + 1
    /\ failed_generations (stats w') = failed_generations (stats w)
    /\ total_published (stats w') =
         total_published (stats w) + (if report_success publish_result then 1 else 0)
    /\ failed_publications (stats w') =
         failed_publications (stats w) + (if report_success publish_result then 0 else 1)
    /\ (publish_immediately = false -> publish_result = NotAttempted /\ cs = [])
    /\ (forall success k n results,
          publish_result = PublishOutcome success k n results ->
          k = successes results /\ (success = true <-> 1 <= k)
          /\ (forall name, results !! name <> Some ONone)).
Proof.
  unfold after_save.
  rewrite (bind_returned _ _ w tt (set_stats incr_total_generated w) eq_refl).
  set (w1 := set_stats incr_total_generated w).
  rewrite (bind_returned _ _ w1 (clock w1) (tick w1) eq_refl).
  set (w2 := tick w1).
  rewrite (bind_returned _ _ w2 tt
             (set_stats (set_last_generation (VIso (clock w1))) w2) eq_refl).
  set (w3 := set_stats (set_last_generation (VIso (clock w1))) w2).
  destruct (save_statistics_returns env w3) as (w4 & Hsave4 & Hs4 & Hp4 & Hb4 & _ & Hc4 & _).
  rewrite (bind_returned _ _ _ _ _ Hsave4).
  assert (exists publish_result cs,
            (if publish_immediately then _publish_blog blog_data platforms
             else mret NotAttempted) w4 = (Returned publish_result, log_calls cs w4)
            /\ (publish_immediately = false -> publish_result = NotAttempted /\ cs = [])
            /\ (forall success k n results,
                  publish_result = PublishOutcome success k n results ->
                  k = successes results /\ (success = true <-> 1 <= k)
                  /\ (forall name, results !! name <> Some ONone)))
    as (publish_result & cs & Hpub & Hnot & Hout).
  { destruct publish_immediately.
    - destruct (publish_blog_returns blog_data platforms w4) as (r & cs & Hr & Hk).
      exists r, cs. split; [done|]. split; [discriminate|].
      intros s k n res Heq. destruct (Hk _ _ _ _ Heq) as (?&?&?&?). done.
    - exists NotAttempted, []. split; [done|]. split; [done|]. discriminate. }
  rewrite (bind_returned _ _ _ _ _ Hpub).
  set (w5 := log_calls cs w4).
  pose proof (log_calls_fields cs w4) as (Hs5 & Hp5 & _ & _ & Hb5 & _ & Hc5 & _).
  fold w5 in Hs5, Hp5, Hb5, Hc5.
  exists publish_result, cs.
  destruct (report_success publish_result) eqn:Hsucc.
  - rewrite (bind_returned
               (modify (set_stats incr_total_published);;
                t ← now; modify (set_stats (set_last_publication (VIso t))))
               _ w5 tt
               (set_stats (set_last_publication (VIso (clock w5)))
                  (tick (set_stats incr_total_published w5))) eq_refl).
    set (w6 := set_stats _ (tick _)).
    destruct (save_statistics_returns env w6) as (w7 & Hsave7 & Hs7 & Hp7 & Hb7 & _ & Hc7 & _).
    rewrite (bind_returned _ _ _ _ _ Hsave7).
    exists w7. split; [reflexivity|].
    rewrite Hs7, Hp7, Hb7, Hc7. subst w6. simpl.
    rewrite Hs5, Hp5, Hb5, Hc5, Hs4, Hp4, Hb4, Hc4. simpl.
    split; [done|]. split; [done|]. split; [done|].
    split; [lia|]. split; [done|]. split; [lia|]. split; [lia|].
    split; [exact Hnot|exact Hout].
  - rewrite (bind_returned (modify (set_stats incr_failed_publications))
               _ w5 tt (set_stats incr_failed_publications w5) eq_refl).
    set (w6 := set_stats _ _).
    destruct (save_statistics_returns env w6) as (w7 & Hsave7 & Hs7 & Hp7 & Hb7 & _ & Hc7 & _).
    rewrite (bind_returned _ _ _ _ _ Hsave7).
    exists w7. split; [reflexivity|].
    rewrite Hs7, Hp7, Hb7, Hc7. subst w6. simpl.
    rewrite Hs5, Hp5, Hb5, Hc5, Hs4, Hp4, Hb4, Hc4. simpl.
    split; [done|]. split; [done|]. split; [done|].
    split; [lia|]. split; [done|]. split; [lia|]. split; [lia|].
    split; [exact Hnot|exact Hout].
Qed.

Lemma job_body_eq env topics max_words publish_immediately platforms w :
  _generate_and_publish_blog env topics max_words publish_immediately platforms w =
  match generate_blog env (selected_topic env topics w) max_words
          "general" "informative" (count_draw w) with
  | (Raised e, w1) => record_failure env e w1
  | (Returned d0, w1) =>
      match _save_blog_to_database env d0 w1 with
      | (Raised e, w2) => record_failure env e w2
      | (Returned blog_data, w2) =>
          after_save env publish_immediately platforms blog_data w2
      end
  end.
Proof.
  unfold _generate_and_publish_blog, try_except.
  rewrite (bind_returned _ _ _ _ _ (select_topic_eq env topics w)).
  destruct (generate_blog env (selected_topic env topics w) max_words
              "general" "informative" (count_draw w)) as [[d0|e] w1] eqn:Hgen.
  2:{ rewrite (bind_raised _ _ _ _ _ Hgen). reflexivity. }
  rewrite (bind_returned _ _ _ _ _ Hgen).
  destruct (_save_blog_to_database env d0 w1) as [[blog_data|e] w2] eqn:Hsave.
  2:{ rewrite (bind_raised _ _ _ _ _ Hsave). reflexivity. }
  rewrite (bind_returned _ _ _ _ _ Hsave).
  destruct (after_save_spec env publish_immediately platforms blog_data w2)
    as (pr & cs & w' & Hafter & _).
  change (match after_save env publish_immediately platforms blog_data w2 with
          | (Returned a, w'0) => (Returned a, w'0)
          | (Raised e, w'0) => record_failure env e w'0
          end = after_save env publish_immediately platforms blog_data w2).
  by rewrite Hafter.
Qed.

(** The job body always returns a report.  A failed run changes one
    counter and stores nothing; a run that generated has stored the
    processed dictionary (when the database type is ["mongodb"]) and
    then, at most, published it. *)
Lemma job_body_spec env topics max_words publish_immediately platforms w :
  exists report w',
    _generate_and_publish_blog env topics max_words publish_immediately platforms w
      = (Returned report, w')
    /\ publishers w' = publishers w
    /\ match report with
       | GenerationFailed e =>
           stats w' = incr_failed_generations (stats w)
           /\ blog_posts w' = blog_posts w
           /\ publish_calls w' = publish_calls w
       | Generated publish_result blog_data =>
           exists d0 w1 cs,
             processed env d0
             /\ blog_data = saved_blog_data env d0 w1
             /\ blog_posts w' = blog_posts w ++ saved_rows env d0 w1
             /\ publish_calls w' = publish_calls w ++ cs
             /\ total_generated (stats w') = total_generated (stats w) + 1
             /\ failed_generations (stats w') = failed_generations (stats w)
             /\ total_published (stats w') =
                  total_published (stats w)
                  + (if report_success publish_result then 1 else 0)
             /\ failed_publications (stats w') =
                  failed_publications (stats w)
                  + (if report_success publish_result then 0 else 1)
             /\ (publish_immediately = false ->
                 publish_result = NotAttempted /\ cs = [])
             /\ (forall success k n results,
                   publish_result = PublishOutcome success k n results ->
                   k = successes results /\ (success = true <-> 1 <= k)
                   /\ (forall name, results !! name <> Some ONone))
       end.
Proof.
  rewrite job_body_eq.
  destruct (generate_blog env (selected_topic env topics w) max_words
              "general" "informative" (count_draw w)) as [[d0|e] w1] eqn:Hgen.
  2:{ apply generate_blog_spec in Hgen as [(Hs & Hp & Hb & _ & Hc & _) _].
      destruct (record_failure_spec env e w1) as (w' & Hrun & Hs' & Hp' & Hb' & Hc').
      exists (GenerationFailed e), w'. split; [done|].
      simpl in *. rewrite Hs', Hp', Hb', Hc', Hs, Hp, Hb, Hc. done. }
  apply generate_blog_spec in Hgen as [(Hs & Hp & Hb & _ & Hc & _) Hproc].
  specialize (Hproc d0 eq_refl). simpl in Hs, Hp, Hb, Hc.
  destruct (_save_blog_to_database env d0 w1) as [[blog_data|e] w2] eqn:Hsave.
  2:{ apply save_blog_spec in Hsave as (Hs2 & Hp2 & Hc2 & _ & Hb2).
      destruct (record_failure_spec env e w2) as (w' & Hrun & Hs' & Hp' & Hb' & Hc').
      exists (GenerationFailed e), w'. split; [done|].
      rewrite Hs', Hp', Hb', Hc', Hs2, Hp2, Hb2, Hc2, Hs, Hp, Hb, Hc. done. }
  apply save_blog_spec in Hsave as (Hs2 & Hp2 & Hc2 & _ & Hd & Hb2).
  destruct (after_save_spec env publish_immediately platforms blog_data w2)
    as (pr & cs & w' & Hafter & Hp' & Hb' & Hc' & Htg & Hfg & Htp & Hfp & Hnot & Hout).
  exists (Generated pr blog_data), w'. split; [done|].
  split; [congruence|].
  exists d0, w1, cs. rewrite Hb', Hc', Htg, Hfg, Htp, Hfp, Hb2, Hc2, Hs2, Hb, Hc, Hs.
  done.
Qed.

Lemma new_rows_app w w' rows :
  blog_posts w' = blog_posts w ++ rows -> new_rows w w' = rows.
Proof. intros H. unfold new_rows. rewrite H. by rewrite drop_app_length. Qed.

Lemma new_calls_app w w' cs :
  publish_calls w' = publish_calls w ++ cs -> new_calls w w' = cs.
Proof. intros H. unfold new_calls. rewrite H. by rewrite drop_app_length. Qed.

(** C1, as the code has it.  A run of the job body that generated and
    published leaves the record it stored with status ['draft'], whatever
    the number [k] of platform successes: the record is stored before the
    fan-out and the job body never rewrites it.  Exactly one record is
    stored when the database type is ["mongodb"], and none for any other
    type, ["mysql"] included: the MySQL branch also asks for the names
    [get_mysql_session] and [BlogPost], which are [None].  What follows
    [k >= 1] is the run's [publish_result['success']] and the
    [total_published] counter. *)
Theorem stored_record_stays_draft
    env topics max_words platforms w publish_result blog_data w' :
  _generate_and_publish_blog env topics max_words true platforms w
    = (Returned (Generated publish_result blog_data), w') ->
  (forall row, row ∈ new_rows w w' -> row_status row = VStr "draft")
  /\ (database_type env = "mongodb" -> length (new_rows w w') = 1%nat)
  /\ (database_type env <> "mongodb" -> new_rows w w' = [])
  /\ (forall success k n results,
        publish_result = PublishOutcome success k n results ->
        k = successes results /\ (success = true <-> 1 <= k))
  /\ total_published (stats w') =
       total_published (stats w) + (if report_success publish_result then 1 else 0).
Proof.
  intros Hrun.
  destruct (job_body_spec env topics max_words true platforms w)
    as (report & w0 & Hrun0 & _ & Hspec).
  rewrite Hrun in Hrun0. injection Hrun0 as <- <-.
  destruct Hspec as (d0 & w1 & cs & Hproc & _ & Hrows & _ & _ & _ & Htp & _ & _ & Hout).
  rewrite (new_rows_app _ _ _ Hrows). split; [|split; [|split; [|split]]].
  - intros row Hrow. by apply (saved_rows_processed env d0 w1 row Hproc).
  - unfold saved_rows. by intros ->.
  - unfold saved_rows. by intros ->%String.eqb_neq.
  - intros s k n results Heq. destruct (Hout _ _ _ _ Heq) as (?&?&_). done.
  - exact Htp.
Qed.

(** A run whose result was checked to be a return, or a raise, is the
    pair of its parts. *)
Lemma returns_eq {A} (d : A) (r : Outcome A * World) :
  returns r = true -> r = (Returned (value_or d r), snd r).
Proof. by destruct r as [[a|e] w]. Qed.

Lemma raises_eq {A} (r : Outcome A * World) :
  returns r = false -> r = (Raised (error_of r), snd r).
Proof. by destruct r as [[a|e] w]. Qed.

Lemma generated_run_cases (r : Outcome RunReport * World)
    (P : PublishReport -> gmap string Value -> World -> Prop) :
  returns r && generation_success (value_or (GenerationFailed "") r) = true ->
  (forall publish_result blog_data w',
     r = (Returned (Generated publish_result blog_data), w') ->
     P publish_result blog_data w') ->
  match r with
  | (Returned (Generated publish_result blog_data), w') =>
      P publish_result blog_data w'
  | _ => False
  end.
Proof. destruct r as [[[pr bd|e]|e] w]; simpl; intros; try discriminate; eauto. Qed.

Lemma stored_record_witness :
  match _generate_and_publish_blog env_ok ["x"] 800 true None world_ab with
  | (Returned (Generated publish_result blog_data), w') =>
      (forall row, row ∈ new_rows world_ab w' -> row_status row = VStr "draft")
      /\ (database_type env_ok = "mongodb" -> length (new_rows world_ab w') = 1%nat)
      /\ (database_type env_ok <> "mongodb" -> new_rows world_ab w' = [])
      /\ (forall success k n results,
            publish_result = PublishOutcome success k n results ->
            k = successes results /\ (success = true <-> 1 <= k))
      /\ total_published (stats w') =
           total_published (stats world_ab)
           + (if report_success publish_result then 1 else 0)
  | _ => False
  end.
Proof.
  apply generated_run_cases.
  - vm_compute. reflexivity.
  - intros publish_result blog_data w' Hrun.
    exact (stored_record_stays_draft env_ok ["x"] 800 None world_ab
             publish_result blog_data w' Hrun).
Defined.

(** C1 as stated fails: with one platform accepting the post, the run
    reports one success and the stored record still says ['draft']. *)
Lemma stored_status_is_not_published :
  ~ stored_status_follows_publication env_ok ["x"] 800 None world_ab.
Proof.
  unfold stored_status_follows_publication. vm_compute. intros H.
  destruct (H _ eq_refl) as [_ Hback].
  assert (VStr "draft" = VStr "published") as Habs by (apply Hback; discriminate).
  discriminate.
Qed.

(** With the database type ["mysql"] the run generates and publishes,
    and stores no record: no insert is attempted. *)
Example mysql_run_stores_no_record :
  match mysql_run with
  | (Returned (Generated publish_result _), w') =>
      report_success publish_result = true
      /\ blog_posts w' = [] /\ db_inserts w' = 0%nat
      /\ total_generated (stats w') = 1
  | _ => False
  end.
Proof. vm_compute. repeat split. Qed.

(** ** Publication counters and the aggregate result *)

(** Whenever [_publish_blog] reports an outcome with its result map, the
    reported success is that of at least one entry of the map. *)
Lemma publish_blog_outcome_success
    blog_data platforms w success k n results w' :
  _publish_blog blog_data platforms w = (Returned (PublishOutcome success k n results), w') ->
  success = true <->
  exists name r, results !! name = Some r /\ result_success r = true.
Proof.
  intros Hrun.
  destruct (publish_blog_returns blog_data platforms w) as (report & cs & Hrun' & Hout).
  rewrite Hrun in Hrun'. injection Hrun' as <- _.
  destruct (Hout _ _ _ _ eq_refl) as (-> & Hs & _).
  by rewrite Hs, successes_positive.
Qed.

(** The Next.js adapter gives back [None] for a 200 response. *)
Lemma nextjs_ok_response_returns_none started body http_error elapsed :
  NextJSAPIPublisher_publish_post
    (mkExchange started (HttpResponse 200 body http_error) elapsed) = Returned ONone.
Proof. reflexivity. Qed.

(** C4 at the failing input: the fan-out over an accepting site and a
    Next.js site answering 200 OK holds a successful result for the
    first and [None] for the second, and [_publish_blog] reports
    failure. *)
Theorem none_result_masks_success :
  match publish_to_all (VStr "T") (VStr "body") (VList ["x"]) None world_an with
  | (Returned results, _) =>
      result_success <$> results !! "site-a" = Some true
      /\ results !! "site-n" = Some ONone
  | _ => False
  end
  /\ fst (_publish_blog blog_x None world_an)
     = Returned (PublishError "'NoneType' object has no attribute 'get'").
Proof. vm_compute. repeat split. Qed.

(** A run of the job body without publication: no invocation is made,
    [total_published] keeps its value, and [failed_publications] grows
    by one, the initial [{'success': False}] being counted as a failed
    publication. *)
Lemma draft_run_spec env topics max_words platforms w publish_result blog_data w' :
  _generate_and_publish_blog env topics max_words false platforms w
    = (Returned (Generated publish_result blog_data), w') ->
  publish_result = NotAttempted
  /\ new_calls w w' = []
  /\ (forall row, row ∈ new_rows w w' -> row_status row = VStr "draft")
  /\ total_generated (stats w') = total_generated (stats w) + 1
  /\ total_published (stats w') = total_published (stats w)
  /\ failed_publications (stats w') = failed_publications (stats w) + 1.
Proof.
  intros Hrun.
  destruct (job_body_spec env topics max_words false platforms w)
    as (report & w0 & Hrun0 & _ & Hspec).
  rewrite Hrun in Hrun0. injection Hrun0 as <- <-.
  destruct Hspec as (d0 & w1 & cs & Hproc & _ & Hrows & Hcalls & Htg & _ & Htp & Hfp & Hnot & _).
  destruct (Hnot eq_refl) as [-> ->]. simpl in Htp, Hfp.
  rewrite (new_rows_app _ _ _ Hrows), (new_calls_app _ _ _ Hcalls).
  split; [done|]. split; [done|]. split.
  { intros row Hrow. by apply (saved_rows_processed env d0 w1 row Hproc). }
  split; [done|]. split; lia.
Qed.

(** C6 at the failing input (Scenario A of the specification): the
    manual trigger with [publish_immediately=False] stores a draft, makes
    no invocation, adds one to [total_generated], leaves
    [total_published] alone and adds one to [failed_publications]. *)
Theorem draft_run_counts_a_failed_publication :
  match manual_blog_generation env_ok "x" 800 false None world_ab with
  | (Returned (Generated publish_result _), w') =>
      publish_result = NotAttempted
      /\ new_calls world_ab w' = []
      /\ map row_status (blog_posts w') = [VStr "draft"]
      /\ total_generated (stats w') = total_generated (stats world_ab) + 1
      /\ total_published (stats w') = total_published (stats world_ab)
      /\ failed_publications (stats w') = failed_publications (stats world_ab) + 1
  | _ => False
  end.
Proof. vm_compute. repeat split. Qed.

Lemma draft_run_touches_failed_publications :
  ~ publication_counters_untouched env_ok ["x"] 800 None world_ab.
Proof.
  intros H. unfold publication_counters_untouched in H.
  destruct (job_body_spec env_ok ["x"] 800 false None world_ab)
    as ([pr bd|e] & w' & Hrun & _ & Hspec).
  - destruct (H _ _ _ Hrun) as (_ & _ & Hfp).
    apply draft_run_spec in Hrun as (_ & _ & _ & _ & _ & Hfp'). lia.
  - assert (generation_success (GenerationFailed e) = true) as Habs; [|discriminate].
    assert (fst (_generate_and_publish_blog env_ok ["x"] 800 false None world_ab)
            = Returned (GenerationFailed e)) as Hf by (by rewrite Hrun).
    revert Hf. vm_compute. discriminate.
Qed.

(** ** Statistics *)

(** One invocation of the job body adds one to exactly one of
    [total_generated] and [failed_generations]. *)
Lemma job_body_counts_once env topics max_words publish_immediately platforms w :
  exists report w',
    _generate_and_publish_blog env topics max_words publish_immediately platforms w
      = (Returned report, w')
    /\ total_generated (stats w') =
         total_generated (stats w) + (if generation_success report then 1 else 0)
    /\ failed_generations (stats w') =
         failed_generations (stats w) + (if generation_success report then 0 else 1).
Proof.
  destruct (job_body_spec env topics max_words publish_immediately platforms w)
    as (report & w' & Hrun & _ & Hspec).
  exists report, w'. split; [done|].
  destruct report as [pr bd|e]; simpl.
  - destruct Hspec as (d0 & w1 & cs & _ & _ & _ & _ & Htg & Hfg & _). lia.
  - destruct Hspec as (-> & _). simpl. lia.
Qed.

Lemma run_invocations_spec env l w :
  let '(reports, w') := run_invocations env l w in
  length reports = length l
  /\ total_generated (stats w') =
       total_generated (stats w)
       + Z.of_nat (length (filter (fun r => generation_success r = true) reports))
  /\ failed_generations (stats w') =
       failed_generations (stats w)
       + Z.of_nat (length (filter (fun r => generation_success r = false) reports)).
Proof.
  revert w. induction l as [|i l IH]; intros w; simpl.
  - repeat split; lia.
  - destruct (job_body_counts_once env (inv_topics i) (inv_max_words i)
                (inv_publish_immediately i) (inv_platforms i) w)
      as (report & w1 & Hrun & Htg & Hfg).
    rewrite Hrun. specialize (IH w1).
    destruct (run_invocations env l w1) as [reports w2].
    destruct IH as (Hlen & Htg2 & Hfg2). simpl. rewrite !filter_cons.
    destruct (generation_success report) eqn:Hg.
    + rewrite decide_True by done. rewrite decide_False by done.
      simpl length. repeat split; lia.
    + rewrite decide_False by done. rewrite decide_True by done.
      simpl length. repeat split; lia.
Qed.

(** ** The series variant *)

Lemma posts_ok_app l1 l2 : posts_ok (l1 ++ l2) = posts_ok l1 + posts_ok l2.
Proof. unfold posts_ok. rewrite filter_app, length_app. lia. Qed.

Lemma posts_failed_app l1 l2 :
  posts_failed (l1 ++ l2) = posts_failed l1 + posts_failed l2.
Proof. unfold posts_failed. rewrite filter_app, length_app. lia. Qed.

(** One pass of the loop body: it returns, appends exactly one report
    carrying the post's number, and counts the post once, as generated
    when the save returned and as failed when it raised. *)
Lemma series_post_spec env publish_immediately platforms i blog_data
    results published w :
  exists report published' w',
    series_post env publish_immediately platforms (i, blog_data)
      (results, published) w = (Returned (results ++ [report], published'), w')
    /\ post_number_of report = i
    /\ publishers w' = publishers w
    /\ total_generated (stats w') =
         total_generated (stats w) + posts_ok [report]
    /\ failed_generations (stats w') =
         failed_generations (stats w) + posts_failed [report]
    /\ match _save_blog_to_database env blog_data w with
       | (Raised e, w1) =>
           report = PostFailed i e
           /\ published' = published
           /\ w' = set_stats incr_failed_generations w1
       | (Returned d, w1) =>
           exists publish_result cs,
             report = PostOk i publish_result d
             /\ blog_posts w' = blog_posts w ++ saved_rows env blog_data w
             /\ publish_calls w' = publish_calls w ++ cs
             /\ (publish_immediately = false -> publish_result = None /\ cs = [])
             /\ (publish_immediately = true -> exists r, publish_result = Some r)
       end.
Proof.
  unfold series_post, try_except.
  destruct (_save_blog_to_database env blog_data w) as [[d|e] w1] eqn:Hsave.
  2:{ rewrite (bind_raised _ _ _ _ _ Hsave).
      apply save_blog_spec in Hsave as (Hs & Hp & Hc & _ & Hb).
      exists (PostFailed i e), published, (set_stats incr_failed_generations w1).
      split; [reflexivity|]. simpl. rewrite Hs, Hp. simpl.
      repeat split; try done; unfold posts_ok, posts_failed; simpl; lia. }
  rewrite (bind_returned _ _ _ _ _ Hsave).
  apply save_blog_spec in Hsave as (Hs & Hp & Hc & _ & Hd & Hb).
  rewrite (bind_returned _ _ w1 tt (set_stats incr_total_generated w1) eq_refl).
  set (w2 := set_stats incr_total_generated w1).
  destruct publish_immediately.
  - destruct (publish_blog_returns d platforms w2) as (r & cs & Hr & _).
    rewrite (bind_returned _ _ _ _ _ Hr).
    pose proof (log_calls_fields cs w2) as (Hs3 & Hp3 & _ & _ & Hb3 & _ & Hc3 & _).
    set (w3 := log_calls cs w2) in *.
    destruct (report_success r).
    + exists (PostOk i (Some r) d), (published + 1), (set_stats incr_total_published w3).
      split; [reflexivity|]. simpl. rewrite Hs3, Hp3, Hb3, Hc3. simpl.
      rewrite Hs, Hp, Hb, Hc.
      split; [done|]. split; [done|].
      split; [unfold posts_ok; simpl; lia|]. split; [unfold posts_failed; simpl; lia|].
      exists (Some r), cs. repeat split; try done. eauto.
    + exists (PostOk i (Some r) d), published, (set_stats incr_failed_publications w3).
      split; [reflexivity|]. simpl. rewrite Hs3, Hp3, Hb3, Hc3. simpl.
      rewrite Hs, Hp, Hb, Hc.
      split; [done|]. split; [done|].
      split; [unfold posts_ok; simpl; lia|]. split; [unfold posts_failed; simpl; lia|].
      exists (Some r), cs. repeat split; try done. eauto.
  - exists (PostOk i None d), published, w2.
    split; [reflexivity|]. simpl. rewrite Hs, Hp, Hb, Hc.
    split; [done|]. split; [done|].
    split; [unfold posts_ok; simpl; lia|]. split; [unfold posts_failed; simpl; lia|].
    exists None, []. rewrite app_nil_r. repeat split; done.
Qed.

(** The loop over the generated posts: one report per post, numbered in
    order, and each post counted once. *)
Lemma series_posts_spec env publish_immediately platforms blog_series :
  forall i results published w,
  exists new published' w',
    for_each (enumerate_from i blog_series)
      (series_post env publish_immediately platforms) (results, published) w
      = (Returned (results ++ new, published'), w')
    /\ map post_number_of new = seqZ i (Z.of_nat (length blog_series))
    /\ publishers w' = publishers w
    /\ total_generated (stats w') = total_generated (stats w) + posts_ok new
    /\ failed_generations (stats w') = failed_generations (stats w) + posts_failed new.
Proof.
  induction blog_series as [|blog_data l IH]; intros i results published w.
  - exists [], published, w. simpl. rewrite app_nil_r.
    unfold posts_ok, posts_failed. simpl. repeat split; try done; lia.
  - destruct (series_post_spec env publish_immediately platforms i blog_data
                results published w)
      as (report & published1 & w1 & Hstep & Hnum & Hp1 & Htg1 & Hfg1 & _).
    destruct (IH (i + 1) (results ++ [report]) published1 w1)
      as (new & published' & w' & Hrest & Hnums & Hp & Htg & Hfg).
    exists (report :: new), published', w'.
    cbn [enumerate_from for_each].
    rewrite (bind_returned _ _ _ _ _ Hstep), Hrest.
    rewrite <- app_assoc. split; [reflexivity|].
    split.
    { cbn [map length]. rewrite Hnum, Hnums.
      rewrite (seqZ_cons i) by lia. f_equal. f_equal; lia. }
    split; [congruence|].
    change (report :: new) with ([report] ++ new).
    rewrite posts_ok_app, posts_failed_app. lia.
Qed.

Lemma try_except_reraise {A} (m : M A) w : try_except m (fun e => raise e) w = m w.
Proof. unfold try_except, raise. by destruct (m w) as [[a|e] w']. Qed.

Lemma generate_series_posts_app env main_topic plan1 plan2 :
  forall i acc w,
  generate_series_posts env main_topic i (plan1 ++ plan2) acc w =
  match generate_series_posts env main_topic i plan1 acc w with
  | (Returned acc1, w1) =>
      generate_series_posts env main_topic (i + Z.of_nat (length plan1)) plan2 acc1 w1
  | (Raised e, w1) => (Raised e, w1)
  end.
Proof.
  induction plan1 as [|subtopic plan1 IH]; intros i acc w.
  - simpl. unfold_monad. by rewrite Z.add_0_r.
  - cbn [app generate_series_posts length].
    destruct (as_str subtopic "strip" w) as [[topic|e] w0] eqn:Hstr.
    2:{ by rewrite !(bind_raised _ _ _ _ _ Hstr). }
    rewrite !(bind_returned _ _ _ _ _ Hstr).
    destruct (generate_blog env topic (series_max_words env) "general" "informative" w0)
      as [[post|e] w1] eqn:Hgen.
    2:{ by rewrite !(bind_raised _ _ _ _ _ Hgen). }
    rewrite !(bind_returned _ _ _ _ _ Hgen). rewrite IH.
    replace (i + 1 + Z.of_nat (length plan1)) with (i + Z.of_nat (S (length plan1))) by lia.
    reflexivity.
Qed.

Lemma as_str_world v method o w w' : as_str v method w = (o, w') -> w' = w.
Proof. destruct v; unfold as_str; unfold_monad; by intros [= _ <-]. Qed.

Lemma generate_series_posts_spec env main_topic plan :
  forall i acc w o w',
  generate_series_posts env main_topic i plan acc w = (o, w') ->
  quiet w w'
  /\ (forall l, o = Returned l -> length l = (length acc + length plan)%nat).
Proof.
  induction plan as [|subtopic plan IH]; intros i acc w o w'.
  - simpl. unfold_monad. intros [= <- <-]. split; [apply quiet_refl|].
    intros l [= <-]. lia.
  - cbn [generate_series_posts length].
    intros [(topic & w0 & Hstr & H)|(e & Hstr & ->)]%bind_inv.
    2:{ apply as_str_world in Hstr as ->. split; [apply quiet_refl|discriminate]. }
    apply as_str_world in Hstr as ->.
    apply bind_inv in H as [(post & w1 & Hgen & H)|(e & Hgen & ->)].
    2:{ apply generate_blog_spec in Hgen as [Hq _]. split; [done|discriminate]. }
    apply generate_blog_spec in Hgen as [Hq _].
    apply IH in H as [Hq' Hlen]. split; [by eapply quiet_trans|].
    intros l Hl. rewrite (Hlen l Hl), length_app. simpl. lia.
Qed.

Lemma series_plan_spec env main_topic num_posts w :
  exists plan,
    _generate_series_plan env main_topic num_posts w
      = (Returned plan, count_completion w)
    /\ (0 <= num_posts <= 10 -> Z.of_nat (length plan) = num_posts).
Proof.
  assert (0 <= num_posts <= 10 ->
          Z.of_nat (length (_generate_simple_series_plan main_topic num_posts))
          = num_posts) as Hsimple.
  { intros Hn. unfold _generate_simple_series_plan, PyStr.take.
    destruct (num_posts <? 0) eqn:Hneg; [lia|].
    rewrite length_map, length_take. simpl length. lia. }
  unfold _generate_series_plan. unfold_monad.
  destruct (chat_plan env (completions w) main_topic num_posts) as [l|].
  - destruct (Z.of_nat (length l) =? num_posts) eqn:Hlen; simpl.
    + exists l. split; [done|]. lia.
    + eexists. split; [reflexivity|done].
  - eexists. split; [reflexivity|done].
Qed.

Lemma generate_blog_series_spec env main_topic num_posts w o w' :
  generate_blog_series env main_topic num_posts w = (o, w') ->
  quiet w w'
  /\ (forall l, o = Returned l -> 0 <= num_posts <= 10 ->
      Z.of_nat (length l) = num_posts).
Proof.
  unfold generate_blog_series. rewrite try_except_reraise.
  destruct (series_plan_spec env main_topic num_posts w) as (plan & Hplan & Hlen).
  rewrite (bind_returned _ _ _ _ _ Hplan).
  intros [Hq Hl]%generate_series_posts_spec. split.
  - eapply quiet_trans; [apply quiet_count_completion|done].
  - intros l Ho Hn. rewrite (Hl l Ho). simpl. by apply Hlen.
Qed.

Lemma enumerate_from_app {A} (l1 l2 : list A) i :
  enumerate_from i (l1 ++ l2) =
  enumerate_from i l1 ++ enumerate_from (i + Z.of_nat (length l1)) l2.
Proof.
  revert i. induction l1 as [|x l1 IH]; intros i; simpl.
  - by rewrite Z.add_0_r.
  - rewrite IH. do 3 f_equal. lia.
Qed.

Lemma series_loop_eq env publish_immediately platforms blog_series w results published w1 :
  for_each (enumerate_from 1 blog_series)
    (series_post env publish_immediately platforms) ([], 0) w
    = (Returned (results, published), w1) ->
  exists w',
    series_loop env publish_immediately platforms blog_series w
      = (Returned (SeriesOk (Z.of_nat (length blog_series)) published results), w')
    /\ total_generated (stats w') = total_generated (stats w1)
    /\ failed_generations (stats w') = failed_generations (stats w1).
Proof.
  intros Hloop. unfold series_loop.
  rewrite (bind_returned _ _ _ _ _ Hloop).
  rewrite (bind_returned _ _ w1 (clock w1) (tick w1) eq_refl).
  set (w2 := set_stats (set_last_generation (VIso (clock w1))) (tick w1)).
  rewrite (bind_returned _ _ (tick w1) tt w2 eq_refl).
  destruct (save_statistics_returns env w2) as (w3 & Hsave & Hs & _).
  rewrite (bind_returned _ _ _ _ _ Hsave).
  exists w3. split; [reflexivity|]. by rewrite Hs.
Qed.

(** The two courses of a series run: the generator raises on some post
    and the run is abandoned, or all posts are generated and the loop
    reports and counts each of them. *)
Lemma series_run_cases
    env main_topic num_posts publish_immediately platforms w :
  (forall plan w0 before topic after generated w1 e w2,
     _generate_series_plan env main_topic num_posts w = (Returned plan, w0) ->
     plan = before ++ VStr topic :: after ->
     generate_series_posts env main_topic 1 before [] w0 = (Returned generated, w1) ->
     generate_blog env topic (series_max_words env) "general" "informative" w1
       = (Raised e, w2) ->
     _generate_blog_series env main_topic num_posts publish_immediately platforms w
       = (Returned (SeriesFailed e), w2)
     /\ stats w2 = stats w
     /\ blog_posts w2 = blog_posts w
     /\ publish_calls w2 = publish_calls w)
  /\
  (forall blog_series w0,
     generate_blog_series env main_topic num_posts w = (Returned blog_series, w0) ->
     exists published results w1 w',
       for_each (enumerate_from 1 blog_series)
         (series_post env publish_immediately platforms) ([], 0) w0
         = (Returned (results, published), w1)
       /\ _generate_blog_series env main_topic num_posts publish_immediately platforms w
          = (Returned (SeriesOk (Z.of_nat (length blog_series)) published results), w')
       /\ (0 <= num_posts <= 10 -> Z.of_nat (length blog_series) = num_posts)
       /\ map post_number_of results = seqZ 1 (Z.of_nat (length blog_series))
       /\ total_generated (stats w') = total_generated (stats w) + posts_ok results
       /\ failed_generations (stats w') =
            failed_generations (stats w) + posts_failed results
       /\ (forall before post after results0 published0 v e v',
             blog_series = before ++ post :: after ->
             for_each (enumerate_from 1 before)
               (series_post env publish_immediately platforms) ([], 0) w0
               = (Returned (results0, published0), v) ->
             _save_blog_to_database env post v = (Raised e, v') ->
             let k := 1 + Z.of_nat (length before) in
             for_each (enumerate_from (k + 1) after)
               (series_post env publish_immediately platforms)
               (results0 ++ [PostFailed k e], published0)
               (set_stats incr_failed_generations v')
               = (Returned (results, published), w1)
             /\ results !! length before = Some (PostFailed k e))).
Proof.
  split.
  - intros plan w0 before topic after generated w1 e w2 Hplan -> Hbefore Hgen.
    assert (generate_blog_series env main_topic num_posts w = (Raised e, w2)) as Hseries.
    { unfold generate_blog_series. rewrite try_except_reraise.
      rewrite (bind_returned _ _ _ _ _ Hplan).
      rewrite generate_series_posts_app, Hbefore.
      cbn [generate_series_posts]. unfold as_str.
      rewrite (bind_returned _ _ w1 topic w1 eq_refl).
      by rewrite (bind_raised _ _ _ _ _ Hgen). }
    split.
    { unfold _generate_blog_series, try_except.
      by rewrite (bind_raised _ _ _ _ _ Hseries). }
    apply generate_blog_series_spec in Hseries as [(?&?&?&?&?&?) _]. done.
  - intros blog_series w0 Hseries.
    pose proof (generate_blog_series_spec _ _ _ _ _ _ Hseries) as [(Hs0&_&_&_&_&_) Hlen].
    destruct (series_posts_spec env publish_immediately platforms blog_series
                1 [] 0 w0) as (results & published & w1 & Hloop & Hnums & _ & Htg & Hfg).
    simpl in Hloop.
    destruct (series_loop_eq _ _ _ _ _ _ _ _ Hloop) as (w' & Hrun & Htg' & Hfg').
    exists published, results, w1, w'. split; [exact Hloop|].
    split.
    { unfold _generate_blog_series, try_except.
      rewrite (bind_returned _ _ _ _ _ Hseries). by rewrite Hrun. }
    split; [by apply Hlen|]. split; [exact Hnums|].
    split; [rewrite Htg', Htg, Hs0; done|]. split; [rewrite Hfg', Hfg, Hs0; done|].
    intros before post after results0 published0 v e v' -> Hbefore Hsave k.
    rewrite enumerate_from_app, for_each_app, Hbefore in Hloop.
    cbn [enumerate_from for_each] in Hloop.
    destruct (series_post_spec env publish_immediately platforms k post
                results0 published0 v)
      as (report & published1 & v1 & Hstep & _ & _ & _ & _ & Hcase).
    rewrite Hsave in Hcase. destruct Hcase as (-> & -> & ->).
    fold k in Hloop. rewrite (bind_returned _ _ _ _ _ Hstep) in Hloop.
    split; [exact Hloop|].
    destruct (series_posts_spec env publish_immediately platforms before
                1 [] 0 w0) as (new0 & p0 & v0 & Hb0 & Hn0 & _).
    simpl in Hb0. rewrite Hbefore in Hb0. injection Hb0 as -> _ _.
    assert (length new0 = length before) as Hl0.
    { rewrite <- (length_map post_number_of), Hn0, length_seqZ. lia. }
    destruct (series_posts_spec env publish_immediately platforms after
                (k + 1) (new0 ++ [PostFailed k e]) published0
                (set_stats incr_failed_generations v'))
      as (new & p & v2 & Ha & _).
    rewrite Hloop in Ha. injection Ha as -> _ _.
    rewrite <- app_assoc. rewrite lookup_app_r by lia.
    by rewrite Hl0, Nat.sub_diag.
Qed.

(** C5, as the code has it.  The posts of a series are generated first,
    all of them, and only then saved and published one by one.
    - When the generator fails on a post, the run returns
      [{'series_success': False, 'error': ...}] with no per-post report;
      nothing was saved or published and no counter has changed.
    - When all posts were generated, the run returns one report per post,
      numbered 1..N in order; [total_generated] has grown by the number of
      reports with [generation_success] true and [failed_generations] by
      the number of those with [generation_success] false.  A post whose
      save raises is reported with [generation_success] false and the
      loop goes on with the posts after it. *)
Theorem series_failure_handling
    env main_topic num_posts publish_immediately platforms w :
  (forall plan w0 before topic after generated w1 e w2,
     _generate_series_plan env main_topic num_posts w = (Returned plan, w0) ->
     plan = before ++ VStr topic :: after ->
     generate_series_posts env main_topic 1 before [] w0 = (Returned generated, w1) ->
     generate_blog env topic (series_max_words env) "general" "informative" w1
       = (Raised e, w2) ->
     _generate_blog_series env main_topic num_posts publish_immediately platforms w
       = (Returned (SeriesFailed e), w2)
     /\ stats w2 = stats w
     /\ blog_posts w2 = blog_posts w
     /\ publish_calls w2 = publish_calls w)
  /\
  (forall blog_series w0,
     generate_blog_series env main_topic num_posts w = (Returned blog_series, w0) ->
     exists published results w1 w',
       for_each (enumerate_from 1 blog_series)
         (series_post env publish_immediately platforms) ([], 0) w0
         = (Returned (results, published), w1)
       /\ _generate_blog_series env main_topic num_posts publish_immediately platforms w
          = (Returned (SeriesOk (Z.of_nat (length blog_series)) published results), w')
       /\ (0 <= num_posts <= 10 -> Z.of_nat (length blog_series) = num_posts)
       /\ map post_number_of results = seqZ 1 (Z.of_nat (length blog_series))
       /\ total_generated (stats w') = total_generated (stats w) + posts_ok results
       /\ failed_generations (stats w') =
            failed_generations (stats w) + posts_failed results
       /\ (forall before post after results0 published0 v e v',
             blog_series = before ++ post :: after ->
             for_each (enumerate_from 1 before)
               (series_post env publish_immediately platforms) ([], 0) w0
               = (Returned (results0, published0), v) ->
             _save_blog_to_database env post v = (Raised e, v') ->
             let k := 1 + Z.of_nat (length before) in
             for_each (enumerate_from (k + 1) after)
               (series_post env publish_immediately platforms)
               (results0 ++ [PostFailed k e], published0)
               (set_stats incr_failed_generations v')
               = (Returned (results, published), w1)
             /\ results !! length before = Some (PostFailed k e))).
Proof.
  exact (series_run_cases env main_topic num_posts publish_immediately platforms w).
Qed.

Lemma series_failure_witness :
  (_generate_blog_series env_second_post_fails "AI" 3 false None (world_with [])
     = (Returned (SeriesFailed (error_of second_post_run)), snd second_post_run)
   /\ error_of second_post_run = "rate limit"
   /\ stats (snd second_post_run) = stats (world_with [])
   /\ blog_posts (snd second_post_run) = blog_posts (world_with [])
   /\ publish_calls (snd second_post_run) = publish_calls (world_with []))
  /\
  (exists published results (w1 w' : World),
     _generate_blog_series env_second_insert_fails "AI" 3 true None world_ab
       = (Returned (SeriesOk (Z.of_nat (length (value_or [] series_run)))
                      published results), w')
     /\ Z.of_nat (length (value_or [] series_run)) = 3
     /\ map post_number_of results = seqZ 1 (Z.of_nat (length (value_or [] series_run)))
     /\ failed_generations (stats w') =
          failed_generations (stats world_ab) + posts_failed results
     /\ for_each (enumerate_from (1 + Z.of_nat 1 + 1) (drop 2 (value_or [] series_run)))
          (series_post env_second_insert_fails true None)
          (fst (value_or ([], 0) first_save_run)
             ++ [PostFailed (1 + Z.of_nat 1) (error_of second_save_run)],
           snd (value_or ([], 0) first_save_run))
          (set_stats incr_failed_generations (snd second_save_run))
        = (Returned (results, published), w1)
     /\ results !! 1%nat = Some (PostFailed (1 + Z.of_nat 1) (error_of second_save_run))
     /\ error_of second_save_run = "duplicate key").
Proof.
  assert (_generate_series_plan env_second_post_fails "AI" 3 (world_with [])
          = (Returned (value_or [] plan_run), snd plan_run)) as Hplan.
  { apply (returns_eq [] plan_run). vm_compute. reflexivity. }
  assert (value_or [] plan_run
          = [VStr "Introduction to AI"] ++ VStr "Getting Started with AI"
              :: [VStr "Advanced AI Techniques"]) as Hsplit.
  { vm_compute. reflexivity. }
  assert (generate_series_posts env_second_post_fails "AI" 1
            [VStr "Introduction to AI"] [] (snd plan_run)
          = (Returned (value_or [] first_post_run), snd first_post_run)) as Hfirst.
  { apply (returns_eq [] first_post_run). vm_compute. reflexivity. }
  assert (generate_blog env_second_post_fails "Getting Started with AI"
            (series_max_words env_second_post_fails) "general" "informative"
            (snd first_post_run)
          = (Raised (error_of second_post_run), snd second_post_run)) as Hsecond.
  { apply (raises_eq second_post_run). vm_compute. reflexivity. }
  assert (error_of second_post_run = "rate limit") as Herr.
  { vm_compute. reflexivity. }
  assert (generate_blog_series env_second_insert_fails "AI" 3 world_ab
          = (Returned (value_or [] series_run), snd series_run)) as Hseries.
  { apply (returns_eq [] series_run). vm_compute. reflexivity. }
  assert (value_or [] series_run
          = PyStr.take 1 (value_or [] series_run)
            ++ nth 1 (value_or [] series_run) ∅ :: drop 2 (value_or [] series_run))
    as Hposts.
  { assert (length (value_or [] series_run) = 3%nat) as Hl by (vm_compute; reflexivity).
    destruct (value_or [] series_run) as [|p1 [|p2 [|p3 [|p4 l]]]];
      try discriminate Hl. reflexivity. }
  assert (length (PyStr.take 1 (value_or [] series_run)) = 1%nat) as Hone.
  { vm_compute. reflexivity. }
  assert (for_each (enumerate_from 1 (PyStr.take 1 (value_or [] series_run)))
            (series_post env_second_insert_fails true None) ([], 0) (snd series_run)
          = (Returned (fst (value_or ([], 0) first_save_run),
                       snd (value_or ([], 0) first_save_run)),
             snd first_save_run)) as Hsave1.
  { etrans; [apply (returns_eq ([], 0) first_save_run); vm_compute; reflexivity|].
    destruct (value_or ([], 0) first_save_run); reflexivity. }
  assert (_save_blog_to_database env_second_insert_fails
            (nth 1 (value_or [] series_run) ∅) (snd first_save_run)
          = (Raised (error_of second_save_run), snd second_save_run)) as Hsave2.
  { apply (raises_eq second_save_run). vm_compute. reflexivity. }
  assert (error_of second_save_run = "duplicate key") as Herr2.
  { vm_compute. reflexivity. }
  assert (0 <= 3 <= 10) as Hrange by lia.
  destruct (series_failure_handling env_second_post_fails "AI" 3 false None
              (world_with [])) as [Ha _].
  destruct (series_failure_handling env_second_insert_fails "AI" 3 true None
              world_ab) as [_ Hb].
  split.
  - exact (match Ha _ _ _ _ _ _ _ _ _ Hplan Hsplit Hfirst Hsecond with
           | conj Hrun Hrest => conj Hrun (conj Herr Hrest)
           end).
  - destruct (Hb _ _ Hseries)
      as (published & results & w1 & w' & _ & Hrun & Hlen & Hnums & _ & Hfg & Hcont).
    destruct (Hcont _ _ _ _ _ _ _ _ Hposts Hsave1 Hsave2) as [Hrest Hk].
    rewrite Hone in Hrest, Hk.
    exists published, results, w1, w'.
    exact (conj Hrun (conj (Hlen Hrange)
             (conj Hnums (conj Hfg (conj Hrest (conj Hk Herr2)))))).
Defined.

(** C5 as stated fails: when the generator fails on the second of three
    posts the run gives no list of reports at all. *)
Lemma generator_failure_aborts_series :
  ~ series_isolates_generator_failure env_second_post_fails "AI" 3 false None
      (world_with []).
Proof.
  assert (returns (_generate_blog_series env_second_post_fails "AI" 3 false None
                     (world_with []))
          && match value_or (SeriesFailed "") (_generate_blog_series
                     env_second_post_fails "AI" 3 false None (world_with [])) with
             | SeriesOk _ _ _ => true
             | SeriesFailed _ => false
             end = false) as Hf by (vm_compute; reflexivity).
  intros (published & results & w' & Hrun & _).
  rewrite Hrun in Hf. discriminate Hf.
Qed.

(** ** The job body, in more detail *)

Lemma save_statistics_eq env w :
  _save_statistics env w = (Returned tt, after_statistics_write env w).
Proof.
  unfold _save_statistics, after_statistics_write. unfold_monad.
  destruct (String.eqb (database_type env) "mongodb"); cbn;
    destruct (stats_write_fails env _); reflexivity.
Qed.

Lemma after_statistics_write_fields env w :
  let w' := after_statistics_write env w in
  stats w' = stats w /\ publishers w' = publishers w
  /\ blog_posts w' = blog_posts w /\ db_inserts w' = db_inserts w
  /\ publish_calls w' = publish_calls w /\ completions w' = completions w
  /\ draws w' = draws w /\ jobs w' = jobs w
  /\ stats_writes w' = S (stats_writes w)
  /\ stats_store w' = (if stats_write_fails env (stats_writes w)
                       then stats_store w else Some (stats w)).
Proof.
  unfold after_statistics_write.
  destruct (String.eqb (database_type env) "mongodb"); cbn; repeat split.
Qed.

Lemma record_failure_eq env e w :
  record_failure env e w =
  (Returned (GenerationFailed e),
   after_statistics_write env (set_stats incr_failed_generations w)).
Proof.
  unfold record_failure.
  rewrite (bind_returned _ _ w tt (set_stats incr_failed_generations w) eq_refl).
  by rewrite (bind_returned _ _ _ _ _ (save_statistics_eq env _)).
Qed.

(** The part of the job body after the save ends with the second write
    of the statistics, the first one having been made from the counters
    as they were after the generation was counted. *)
Lemma after_save_eq env publish_immediately platforms blog_data w :
  exists publish_result w0,
    after_save env publish_immediately platforms blog_data w
      = (Returned (Generated publish_result blog_data),
         after_statistics_write env w0)
    /\ stats_writes w0 = S (stats_writes w)
    /\ (stats_store w0 = stats_store w
        \/ stats_write_fails env (stats_writes w) = false)
    /\ completions w0 = completions w.
Proof.
  unfold after_save.
  rewrite (bind_returned _ _ w tt (set_stats incr_total_generated w) eq_refl).
  set (w1 := set_stats incr_total_generated w).
  rewrite (bind_returned _ _ w1 (clock w1) (tick w1) eq_refl).
  set (w2 := tick w1).
  rewrite (bind_returned _ _ w2 tt
             (set_stats (set_last_generation (VIso (clock w1))) w2) eq_refl).
  set (w3 := set_stats (set_last_generation (VIso (clock w1))) w2).
  rewrite (bind_returned _ _ _ _ _ (save_statistics_eq env w3)).
  set (w4 := after_statistics_write env w3).
  pose proof (after_statistics_write_fields env w3)
    as (_ & _ & _ & _ & _ & Hreq4 & _ & _ & Hwrites4 & Hstore4).
  fold w4 in Hwrites4, Hstore4, Hreq4.
  assert (exists publish_result cs,
            (if publish_immediately then _publish_blog blog_data platforms
             else mret NotAttempted) w4 = (Returned publish_result, log_calls cs w4))
    as (publish_result & cs & Hpub).
  { destruct publish_immediately.
    - destruct (publish_blog_returns blog_data platforms w4) as (r & cs & Hr & _).
      by exists r, cs.
    - by exists NotAttempted, []. }
  rewrite (bind_returned _ _ _ _ _ Hpub).
  set (w5 := log_calls cs w4).
  pose proof (log_calls_fields cs w4)
    as (_ & _ & Hstore5 & Hwrites5 & _ & _ & _ & Hreq5 & _).
  fold w5 in Hstore5, Hwrites5, Hreq5.
  exists publish_result.
  destruct (report_success publish_result).
  - rewrite (bind_returned
               (modify (set_stats incr_total_published);;
                t ← now; modify (set_stats (set_last_publication (VIso t))))
               _ w5 tt
               (set_stats (set_last_publication (VIso (clock w5)))
                  (tick (set_stats incr_total_published w5))) eq_refl).
    set (w6 := set_stats _ (tick _)).
    rewrite (bind_returned _ _ _ _ _ (save_statistics_eq env w6)).
    exists w6. split; [reflexivity|]. subst w6. cbn.
    rewrite Hwrites5, Hwrites4, Hstore5, Hstore4, Hreq5, Hreq4. split; [done|].
    subst w3 w2 w1. cbn.
    split; [destruct (stats_write_fails env (stats_writes w)); auto|done].
  - rewrite (bind_returned (modify (set_stats incr_failed_publications))
               _ w5 tt (set_stats incr_failed_publications w5) eq_refl).
    set (w6 := set_stats _ _).
    rewrite (bind_returned _ _ _ _ _ (save_statistics_eq env w6)).
    exists w6. split; [reflexivity|]. subst w6. cbn.
    rewrite Hwrites5, Hwrites4, Hstore5, Hstore4, Hreq5, Hreq4. split; [done|].
    subst w3 w2 w1. cbn.
    split; [destruct (stats_write_fails env (stats_writes w)); auto|done].
Qed.

Lemma generate_blog_world env topic max_words audience style w o w' :
  generate_blog env topic max_words audience style w = (o, w') ->
  stats_writes w' = stats_writes w /\ stats_store w' = stats_store w
  /\ draws w' = draws w.
Proof.
  unfold generate_blog. rewrite try_except_reraise.
  destruct (String.eqb (PyStr.strip topic) "").
  { unfold raise. by intros [= _ <-]. }
  unfold _generate_content, _process_blog_content, dict_item, as_str.
  unfold_monad.
  destruct (chat_blog env _ _ _ _ _) as [d|err|text|err]; cbn;
    try (by intros [= _ <-]).
  - destruct (d !! "content") as [[| | |body| | |]|]; try (by intros [= _ <-]).
    destruct (BLOG_MAX_LENGTH env <? _);
      destruct (d !! "title") as [[| | |title| | |]|]; by intros [= _ <-].
  - destruct (_extract_content_from_text text topic !! "content")
      as [[| | |body| | |]|]; try (by intros [= _ <-]).
    destruct (BLOG_MAX_LENGTH env <? _);
      destruct (_extract_content_from_text text topic !! "title")
        as [[| | |title| | |]|]; by intros [= _ <-].
Qed.

(** [generate_blog] makes at most one request, and exactly one when it
    returns a post. *)
Lemma generate_blog_requests env topic max_words audience style w o w' :
  generate_blog env topic max_words audience style w = (o, w') ->
  (completions w <= completions w' <= S (completions w))%nat
  /\ (forall d, o = Returned d -> completions w' = S (completions w)).
Proof.
  unfold generate_blog. rewrite try_except_reraise.
  destruct (String.eqb (PyStr.strip topic) "").
  { unfold raise. intros [= <- <-]. split; [lia|discriminate]. }
  unfold _generate_content, _process_blog_content, dict_item, as_str.
  unfold_monad.
  destruct (chat_blog env _ _ _ _ _) as [d|err|text|err]; cbn;
    try (intros [= <- <-]; cbn; split; [lia|done]).
  - destruct (d !! "content") as [[| | |body| | |]|];
      try (intros [= <- <-]; cbn; split; [lia|done]).
    destruct (BLOG_MAX_LENGTH env <? _);
      destruct (d !! "title") as [[| | |title| | |]|];
      intros [= <- <-]; cbn; split; (lia || done).
  - destruct (_extract_content_from_text text topic !! "content")
      as [[| | |body| | |]|]; try (intros [= <- <-]; cbn; split; [lia|done]).
    destruct (BLOG_MAX_LENGTH env <? _);
      destruct (_extract_content_from_text text topic !! "title")
        as [[| | |title| | |]|]; intros [= <- <-]; cbn; split; (lia || done).
Qed.

Lemma save_blog_world env blog_data w o w' :
  _save_blog_to_database env blog_data w = (o, w') ->
  stats_writes w' = stats_writes w /\ stats_store w' = stats_store w
  /\ completions w' = completions w.
Proof.
  unfold _save_blog_to_database, insert_row. unfold_monad.
  destruct (String.eqb (database_type env) "mongodb"); cbn.
  { destruct (insert_error env _ _); by intros [= _ <-]. }
  rewrite andb_false_r. cbn. by intros [= _ <-].
Qed.

Lemma posts_ok_failed_length results :
  posts_ok results + posts_failed results = Z.of_nat (length results).
Proof.
  unfold posts_ok, posts_failed.
  induction results as [|r results IH]; [done|].
  rewrite !filter_cons. destruct (post_generation_success r).
  - rewrite decide_True by done. rewrite decide_False by done. simpl length. lia.
  - rewrite decide_False by done. rewrite decide_True by done. simpl length. lia.
Qed.

Lemma posts_counts_nonneg results : 0 <= posts_ok results /\ 0 <= posts_failed results.
Proof. unfold posts_ok, posts_failed. lia. Qed.

(** A series run never lowers the two counters, whatever its outcome. *)
Lemma series_run_monotone env main_topic num_posts publish_immediately platforms w :
  let w' := snd (_generate_blog_series env main_topic num_posts
                   publish_immediately platforms w) in
  total_generated (stats w) <= total_generated (stats w')
  /\ failed_generations (stats w) <= failed_generations (stats w').
Proof.
  destruct (series_run_cases env main_topic num_posts publish_immediately
              platforms w) as [_ Hb].
  destruct (generate_blog_series env main_topic num_posts w) as [[l|e] w0] eqn:Hs.
  - destruct (Hb l w0 eq_refl)
      as (published & results & w1 & w' & _ & Hrun & _ & _ & Htg & Hfg & _).
    rewrite Hrun. simpl. pose proof (posts_counts_nonneg results). lia.
  - unfold _generate_blog_series, try_except.
    rewrite (bind_raised _ _ _ _ _ Hs). simpl.
    apply generate_blog_series_spec in Hs as [(Hst&_) _]. rewrite Hst. lia.
Qed.

Lemma run_operation_monotone env op w :
  total_generated (stats w) <= total_generated (stats (run_operation env op w))
  /\ failed_generations (stats w) <= failed_generations (stats (run_operation env op w)).
Proof.
  destruct op as [i|mt n pi pl|topics mw pi pl time_str]; simpl.
  - destruct (job_body_counts_once env (inv_topics i) (inv_max_words i)
                (inv_publish_immediately i) (inv_platforms i) w)
      as (report & w' & Hrun & Htg & Hfg).
    rewrite Hrun. simpl. destruct (generation_success report); lia.
  - apply series_run_monotone.
  - unfold schedule_daily_blog_generation. unfold_monad.
    destruct (at_time_ok env time_str); simpl; lia.
Qed.

(** One invocation of the job body makes at most one request to the
    chat-completion service, and an invocation that generated made one. *)
Lemma job_body_requests env topics max_words publish_immediately platforms w :
  exists report w',
    _generate_and_publish_blog env topics max_words publish_immediately platforms w
      = (Returned report, w')
    /\ (completions w <= completions w' <= S (completions w))%nat
    /\ (generation_success report = true -> completions w' = S (completions w)).
Proof.
  rewrite job_body_eq.
  destruct (generate_blog env (selected_topic env topics w) max_words
              "general" "informative" (count_draw w)) as [[d0|e] w1] eqn:Hgen;
    apply generate_blog_requests in Hgen as [Hr Hret]; cbn in Hr.
  2:{ rewrite record_failure_eq. eexists _, _. split; [reflexivity|].
      pose proof (after_statistics_write_fields env
                    (set_stats incr_failed_generations w1))
        as (_ & _ & _ & _ & _ & Hc & _).
      cbv zeta in Hc. rewrite Hc. cbn. split; [lia|discriminate]. }
  specialize (Hret d0 eq_refl). cbn in Hret.
  destruct (_save_blog_to_database env d0 w1) as [[bd|e] w2] eqn:Hsave;
    apply save_blog_world in Hsave as (_ & _ & Hc2).
  2:{ rewrite record_failure_eq. eexists _, _. split; [reflexivity|].
      pose proof (after_statistics_write_fields env
                    (set_stats incr_failed_generations w2))
        as (_ & _ & _ & _ & _ & Hc & _).
      cbv zeta in Hc. rewrite Hc. cbn. rewrite Hc2. split; [lia|discriminate]. }
  destruct (after_save_eq env publish_immediately platforms bd w2)
    as (pr & w0 & -> & _ & _ & Hc0).
  eexists _, _. split; [reflexivity|].
  pose proof (after_statistics_write_fields env w0) as (_ & _ & _ & _ & _ & Hc & _).
  cbv zeta in Hc. rewrite Hc, Hc0, Hc2, Hret. split; [lia|done].
Qed.

Lemma run_invocations_requests env l w :
  let '(reports, w') := run_invocations env l w in
  (completions w + length (filter (fun r => generation_success r = true) reports)
   <= completions w' <= completions w + length l)%nat.
Proof.
  revert w. induction l as [|i l IH]; intros w; simpl; [lia|].
  destruct (job_body_requests env (inv_topics i) (inv_max_words i)
              (inv_publish_immediately i) (inv_platforms i) w)
    as (report & w1 & Hrun & Hr & Hgen).
  rewrite Hrun. specialize (IH w1).
  destruct (run_invocations env l w1) as [reports w2].
  rewrite filter_cons. destruct (generation_success report) eqn:Hg.
  - rewrite decide_True by done. specialize (Hgen eq_refl). simpl length. lia.
  - rewrite decide_False by done. lia.
Qed.

(** The generator of a series never takes a request back. *)
Lemma generate_series_posts_requests env main_topic plan :
  forall i acc w o w',
  generate_series_posts env main_topic i plan acc w = (o, w') ->
  (completions w <= completions w')%nat.
Proof.
  induction plan as [|subtopic plan IH]; intros i acc w o w'.
  - simpl. unfold_monad. intros [= _ <-]. lia.
  - cbn [generate_series_posts].
    intros [(topic & w0 & Hstr & H)|(e & Hstr & _)]%bind_inv.
    2:{ apply as_str_world in Hstr as ->. lia. }
    apply as_str_world in Hstr as ->.
    apply bind_inv in H as [(post & w1 & Hgen & H)|(e & Hgen & _)].
    2:{ apply generate_blog_requests in Hgen as [Hr _]. lia. }
    apply generate_blog_requests in Hgen as [Hr _].
    apply IH in H. lia.
Qed.

(** A series run whose generator raises has made the request for the
    plan at least, returns the failure and leaves the counters alone. *)
Lemma series_run_abandoned
    env main_topic num_posts publish_immediately platforms w e w0 :
  generate_blog_series env main_topic num_posts w = (Raised e, w0) ->
  _generate_blog_series env main_topic num_posts publish_immediately platforms w
    = (Returned (SeriesFailed e), w0)
  /\ (completions w < completions w0)%nat
  /\ stats w0 = stats w.
Proof.
  intros Hs. split.
  { unfold _generate_blog_series, try_except.
    by rewrite (bind_raised _ _ _ _ _ Hs). }
  split.
  - revert Hs. unfold generate_blog_series. rewrite try_except_reraise.
    destruct (series_plan_spec env main_topic num_posts w) as (plan & Hplan & _).
    rewrite (bind_returned _ _ _ _ _ Hplan).
    intros Hposts%generate_series_posts_requests. cbn in Hposts. lia.
  - by apply generate_blog_series_spec in Hs as [(Hst & _) _].
Qed.

(** C7, as the code has it.  No operation lowers [total_generated] or
    [failed_generations].  After any sequence of invocations of the job
    body there is one report per invocation and the sum of the two
    counters has grown by the number of invocations, each invocation
    adding one to [total_generated] when it generated and one to
    [failed_generations] when it did not; and every post counted in
    [total_generated] has cost a request to the chat-completion service.
    A series run counts its posts only when its generator has produced
    the whole series: then the two counters together grow by the number
    of posts.  When the generator raises, the run has made a request at
    least, returns the failure and moves neither counter. *)
Theorem generation_counters_monotone_and_exact env :
  (forall ops w,
     total_generated (stats w) <= total_generated (stats (run_operations env ops w))
     /\ failed_generations (stats w)
        <= failed_generations (stats (run_operations env ops w)))
  /\ (forall l w,
        let '(reports, w') := run_invocations env l w in
        length reports = length l
        /\ total_generated (stats w') + failed_generations (stats w')
           = total_generated (stats w) + failed_generations (stats w)
             + Z.of_nat (length l)
        /\ total_generated (stats w') =
             total_generated (stats w)
             + Z.of_nat (length (filter (fun r => generation_success r = true) reports))
        /\ failed_generations (stats w') =
             failed_generations (stats w)
             + Z.of_nat (length (filter (fun r => generation_success r = false) reports))
        /\ (completions w
            + length (filter (fun r => generation_success r = true) reports)
            <= completions w' <= completions w + length l)%nat)
  /\ (forall main_topic num_posts publish_immediately platforms w,
        match generate_blog_series env main_topic num_posts w with
        | (Returned blog_series, _) =>
            exists published results w',
              _generate_blog_series env main_topic num_posts publish_immediately
                platforms w
              = (Returned (SeriesOk (Z.of_nat (length blog_series)) published results),
                 w')
              /\ length results = length blog_series
              /\ total_generated (stats w') + failed_generations (stats w')
                 = total_generated (stats w) + failed_generations (stats w)
                   + Z.of_nat (length blog_series)
        | (Raised e, w0) =>
            _generate_blog_series env main_topic num_posts publish_immediately
              platforms w
            = (Returned (SeriesFailed e), w0)
            /\ (completions w < completions w0)%nat
            /\ total_generated (stats w0) = total_generated (stats w)
            /\ failed_generations (stats w0) = failed_generations (stats w)
        end).
Proof.
  split; [|split].
  - intros ops. unfold run_operations.
    induction ops as [|op ops IH]; intros w; simpl; [lia|].
    pose proof (run_operation_monotone env op w).
    pose proof (IH (run_operation env op w)). lia.
  - intros l w. pose proof (run_invocations_spec env l w) as H.
    pose proof (run_invocations_requests env l w) as Hreq.
    destruct (run_invocations env l w) as [reports w'].
    destruct H as (Hlen & Htg & Hfg). split; [done|].
    split; [|split; [done|split; [done|exact Hreq]]].
    rewrite Htg, Hfg, <- Hlen.
    assert (forall rs : list RunReport,
              Z.of_nat (length (filter (fun r => generation_success r = true) rs))
              + Z.of_nat (length (filter (fun r => generation_success r = false) rs))
              = Z.of_nat (length rs)) as Hsum.
    { induction rs as [|r rs IHrs]; [done|]. rewrite !filter_cons.
      destruct (generation_success r).
      - rewrite decide_True by done. rewrite decide_False by done. simpl length. lia.
      - rewrite decide_False by done. rewrite decide_True by done. simpl length. lia. }
    specialize (Hsum reports). lia.
  - intros main_topic num_posts publish_immediately platforms w.
    destruct (generate_blog_series env main_topic num_posts w)
      as [[blog_series|e] w0] eqn:Hs.
    + destruct (series_run_cases env main_topic num_posts publish_immediately
                  platforms w) as [_ Hb].
      destruct (Hb blog_series w0 Hs)
        as (published & results & w1 & w' & _ & Hrun & _ & Hnums & Htg & Hfg & _).
      exists published, results, w'. split; [exact Hrun|].
      assert (length results = length blog_series) as Hlen.
      { rewrite <- (length_map post_number_of), Hnums, length_seqZ. lia. }
      split; [done|].
      pose proof (posts_ok_failed_length results). lia.
    + destruct (series_run_abandoned env main_topic num_posts publish_immediately
                  platforms w e w0 Hs) as (Hrun & Hreq & Hst).
      rewrite Hst. done.
Qed.

(** C7 as stated fails on a series run: when the generator fails on the
    second of three posts, the run has asked for the plan and for two
    posts, and neither counter has moved. *)
Lemma abandoned_series_counts_nothing :
  ~ series_counts_reached_generations env_second_post_fails "AI" 3 false None
      (world_with []).
Proof.
  unfold series_counts_reached_generations.
  assert (completions (snd (_generate_blog_series env_second_post_fails "AI" 3
                              false None (world_with []))) = 3%nat) as ->
    by (vm_compute; reflexivity).
  assert (stats (snd (_generate_blog_series env_second_post_fails "AI" 3
                        false None (world_with []))) = stats (world_with [])) as ->
    by (vm_compute; reflexivity).
  cbn. lia.
Qed.

(** ** Registration of a daily job *)

(** C8, as the code has it.  When the [schedule] package rejects the time
    string, the error is caught inside [schedule_daily_blog_generation]:
    the call returns [False] to its caller, nothing is raised, and the
    world, the list of registered jobs included, is what it was. *)
Theorem rejected_time_returns_false
    env topics max_words publish_immediately platforms time_str w :
  at_time_ok env time_str = false ->
  schedule_daily_blog_generation env topics max_words publish_immediately
    platforms time_str w = (Returned false, w).
Proof.
  intros H. unfold schedule_daily_blog_generation. unfold_monad. by rewrite H.
Qed.

Lemma rejected_time_witness :
  schedule_daily_blog_generation env_ok ["x"; "y"] 800 false None "9 am"
    (world_with []) = (Returned false, world_with []).
Proof.
  apply (rejected_time_returns_false env_ok ["x"; "y"] 800 false None "9 am"
           (world_with [])).
  reflexivity.
Defined.

(** C8 as stated fails: nothing is raised to the caller. *)
Lemma rejected_time_is_not_raised :
  ~ registration_raises env_ok ["x"; "y"] 800 false None "9 am" (world_with []).
Proof.
  intros (e & w' & H). vm_compute in H. discriminate H.
Qed.

(** An accepted time string registers the job and returns [True]. *)
Lemma accepted_time_registers
    env topics max_words publish_immediately platforms time_str w :
  at_time_ok env time_str = true ->
  schedule_daily_blog_generation env topics max_words publish_immediately
    platforms time_str w =
  (Returned true,
   set_jobs (jobs w ++ [DailyBlogJob time_str topics max_words
                          publish_immediately platforms]) w).
Proof.
  intros H. unfold schedule_daily_blog_generation. unfold_monad. by rewrite H.
Qed.

(** ** The word count of a record *)

Lemma process_blog_content_eq env blog_data topic w body title :
  blog_data !! "content" = Some (VStr body) ->
  blog_data !! "title" = Some (VStr title) ->
  _process_blog_content env (RawDict blog_data) topic w =
  (Returned
     (let text := _ensure_heading_structure (PyStr.strip body) in
      let n := Z.of_nat (length (PyStr.split text)) in
      <["status" := VStr "draft"]>
        (<["is_auto_generated" := VBool true]>
        (<["topic" := VStr topic]>
        (<["created_at" := VIso (clock w)]>
        (<["slug" := VStr (_generate_slug title)]>
        (<["word_count" :=
             VInt (if BLOG_MAX_LENGTH env <? n then BLOG_MAX_LENGTH env else n)]>
        (<["content" :=
             VStr (if BLOG_MAX_LENGTH env <? n
                   then _trim_content text (BLOG_MAX_LENGTH env) else text)]>
           blog_data))))))),
   tick w).
Proof.
  intros Hbody Htitle.
  unfold _process_blog_content, dict_item, as_str. unfold_monad.
  rewrite Hbody, Htitle. cbv zeta.
  by destruct (BLOG_MAX_LENGTH env <? _).
Qed.

(** C9.  The word count of a processed payload does not depend on the
    [word_count] the model reported: replacing the reported value by any
    other gives the same processed dictionary.  It is computed from the
    body: the number of whitespace-separated words of the stripped body
    with its headings marked, capped at [BLOG_MAX_LENGTH]; when the cap
    does not apply it is exactly the number of words of the stored
    content.  Every record [_save_blog_to_database] stores for the
    processed payload carries that count. *)
Theorem word_count_is_recomputed env blog_data reported topic w d w' :
  _process_blog_content env (RawDict blog_data) topic w = (Returned d, w') ->
  _process_blog_content env (RawDict (<["word_count" := reported]> blog_data)) topic w
    = (Returned d, w')
  /\ exists body,
       blog_data !! "content" = Some (VStr body)
       /\ d !! "word_count" = Some (VInt (recomputed_word_count env body))
       /\ (Z.of_nat (length (PyStr.split (_ensure_heading_structure (PyStr.strip body))))
             <= BLOG_MAX_LENGTH env ->
           exists content,
             d !! "content" = Some (VStr content)
             /\ recomputed_word_count env body
                = Z.of_nat (length (PyStr.split content)))
       /\ (forall w1 o w2 row,
             _save_blog_to_database env d w1 = (o, w2) ->
             row ∈ new_rows w1 w2 ->
             row_word_count row = VInt (recomputed_word_count env body)).
Proof.
  intros Hrun.
  destruct (process_blog_content_returned _ _ _ _ _ _ Hrun)
    as (body & title & Hbody & Htitle & -> & Hd).
  cbv zeta in Hd.
  assert (d !! "word_count" = Some (VInt (recomputed_word_count env body))) as Hwc.
  { rewrite Hd. repeat (rewrite lookup_insert_ne by done). by rewrite lookup_insert_eq. }
  assert (processed env d) as Hproc.
  { unfold processed. rewrite Hwc, Hd.
    split; [by rewrite lookup_insert_eq|].
    split; [exists title; by repeat (rewrite lookup_insert_ne by done)|].
    split; [|eauto].
    eexists; repeat (rewrite lookup_insert_ne by done); by rewrite lookup_insert_eq. }
  split.
  - rewrite (process_blog_content_eq env _ topic w body title);
      [|by rewrite lookup_insert_ne|by rewrite lookup_insert_ne].
    cbv zeta. rewrite Hd.
    rewrite (insert_insert_ne _ "content" "word_count") by done.
    by rewrite insert_insert_eq.
  - exists body. split; [done|]. split; [done|]. split.
    + intros Hle. eexists. split.
      * rewrite Hd. repeat (rewrite lookup_insert_ne by done). by rewrite lookup_insert_eq.
      * unfold recomputed_word_count.
        assert ((BLOG_MAX_LENGTH env <?
                 Z.of_nat (length (PyStr.split
                                     (_ensure_heading_structure (PyStr.strip body)))))
                = false) as -> by lia.
        reflexivity.
    + intros w1 o w2 row Hsave Hrow.
      apply save_blog_spec in Hsave as (_ & _ & _ & _ & Hcase).
      destruct o as [d'|e].
      * destruct Hcase as [_ Hrows]. rewrite (new_rows_app _ _ _ Hrows) in Hrow.
        destruct (saved_rows_processed env d w1 row Hproc Hrow) as [_ Hrw].
        rewrite Hwc in Hrw. by injection Hrw.
      * unfold new_rows in Hrow. rewrite Hcase, drop_all in Hrow.
        by apply not_elem_of_nil in Hrow.
Qed.

Lemma word_count_witness :
  (_process_blog_content env_ok
     (RawDict (<["word_count" := VInt 3]> raw_three_words)) "x" (world_with [])
   = (Returned (value_or ∅ process_run), snd process_run)
   /\ exists body,
        raw_three_words !! "content" = Some (VStr body)
        /\ value_or ∅ process_run !! "word_count"
           = Some (VInt (recomputed_word_count env_ok body))
        /\ (Z.of_nat (length (PyStr.split (_ensure_heading_structure (PyStr.strip body))))
              <= BLOG_MAX_LENGTH env_ok ->
            exists content,
              value_or ∅ process_run !! "content" = Some (VStr content)
              /\ recomputed_word_count env_ok body
                 = Z.of_nat (length (PyStr.split content)))
        /\ (forall w1 o w2 row,
              _save_blog_to_database env_ok (value_or ∅ process_run) w1 = (o, w2) ->
              row ∈ new_rows w1 w2 ->
              row_word_count row = VInt (recomputed_word_count env_ok body)))
  /\ value_or ∅ process_run !! "word_count" = Some (VInt 3).
Proof.
  split.
  - apply (word_count_is_recomputed env_ok raw_three_words (VInt 3) "x"
             (world_with []) (value_or ∅ process_run) (snd process_run)).
    apply (returns_eq ∅ process_run). vm_compute. reflexivity.
  - vm_compute. reflexivity.
Defined.

(** * Further properties of the modelled code *)

(** ** Strings as lists of characters *)

Lemma chars_str l : PyStr.chars (PyStr.str l) = l.
Proof. apply list_ascii_of_string_of_list_ascii. Qed.

Lemma str_chars s : PyStr.str (PyStr.chars s) = s.
Proof. apply string_of_list_ascii_of_string. Qed.

Lemma chars_app a b : PyStr.chars (a +:+ b) = PyStr.chars a ++ PyStr.chars b.
Proof.
  induction a as [|c a IH]; [done|].
  change (PyStr.chars (String c a +:+ b)) with (c :: PyStr.chars (a +:+ b)).
  by rewrite IH.
Qed.

Lemma str_app l1 l2 : PyStr.str (l1 ++ l2) = PyStr.str l1 +:+ PyStr.str l2.
Proof.
  induction l1 as [|c l1 IH]; [done|].
  change (PyStr.str ((c :: l1) ++ l2)) with (String c (PyStr.str (l1 ++ l2))).
  by rewrite IH.
Qed.

Lemma append_assoc (a b c : string) : (a +:+ b) +:+ c = a +:+ b +:+ c.
Proof.
  induction a as [|x a IH]; [done|].
  change ((String x a +:+ b) +:+ c) with (String x ((a +:+ b) +:+ c)).
  by rewrite IH.
Qed.

Lemma chars_nil s : PyStr.chars s = [] <-> s = "".
Proof. destruct s; cbn; split; congruence. Qed.

Lemma eqb_empty s : String.eqb s "" = false <-> PyStr.chars s <> [].
Proof. destruct s; cbn; split; congruence. Qed.

Lemma len_chars s : PyStr.len s = Z.of_nat (length (PyStr.chars s)).
Proof.
  unfold PyStr.len. f_equal. induction s as [|c s IH]; cbn; [done|by rewrite IH].
Qed.

(** ** [strip] *)

Lemma lstrip_by_split p l :
  exists d, l = d ++ PyStr.lstrip_by p l /\ forallb p d = true.
Proof.
  induction l as [|c l (d & IH & Hd)]; cbn.
  - by exists [].
  - destruct (p c) eqn:Hc.
    + exists (c :: d). cbn. rewrite Hc, Hd. split; [by f_equal|done].
    + by exists [].
Qed.

Lemma lstrip_by_no_lead p l : no_lead p (PyStr.lstrip_by p l).
Proof.
  induction l as [|c l IH]; cbn; [done|].
  destruct (p c) eqn:Hc; [done|]. exact Hc.
Qed.

Lemma lstrip_by_fixed p l : no_lead p l -> PyStr.lstrip_by p l = l.
Proof. destruct l as [|c l]; cbn; [done|]. by intros ->. Qed.

(** What [strip] returns has no character to strip at either end, and is
    a stretch of the text it was given. *)
Lemma strip_by_no_lead p l :
  no_lead p (PyStr.strip_by p l) /\ no_lead p (rev (PyStr.strip_by p l)).
Proof.
  unfold PyStr.strip_by. set (a := PyStr.lstrip_by p l).
  set (b := PyStr.lstrip_by p (rev a)). split.
  - destruct (lstrip_by_split p (rev a)) as (d & Hd & _). fold b in Hd.
    assert (a = rev b ++ rev d) as Ha.
    { rewrite <- (rev_involutive a), Hd, rev_app_distr. done. }
    pose proof (lstrip_by_no_lead p l) as Hl. fold a in Hl. rewrite Ha in Hl.
    destruct (rev b); [done|exact Hl].
  - rewrite rev_involutive. apply lstrip_by_no_lead.
Qed.

Lemma strip_by_fixed p l :
  no_lead p l -> no_lead p (rev l) -> PyStr.strip_by p l = l.
Proof.
  intros H1 H2. unfold PyStr.strip_by.
  rewrite (lstrip_by_fixed p l H1), (lstrip_by_fixed p (rev l) H2).
  apply rev_involutive.
Qed.

Lemma strip_by_idem p l :
  PyStr.strip_by p (PyStr.strip_by p l) = PyStr.strip_by p l.
Proof. apply strip_by_fixed; apply strip_by_no_lead. Qed.

Lemma strip_by_stretch p l :
  exists a b, l = a ++ PyStr.strip_by p l ++ b.
Proof.
  unfold PyStr.strip_by.
  destruct (lstrip_by_split p l) as (d1 & H1 & _).
  destruct (lstrip_by_split p (rev (PyStr.lstrip_by p l))) as (d2 & H2 & _).
  exists d1, (rev d2).
  rewrite <- rev_app_distr, <- H2, rev_involutive. exact H1.
Qed.

Lemma strip_idem s : PyStr.strip (PyStr.strip s) = PyStr.strip s.
Proof. unfold PyStr.strip. by rewrite chars_str, strip_by_idem. Qed.

Lemma forallb_stretch {A} (f : A -> bool) (a l b : list A) :
  forallb f (a ++ l ++ b) = true -> forallb f l = true.
Proof.
  rewrite !forallb_app. intros [_ [H _]%andb_prop]%andb_prop. exact H.
Qed.

(** ** [split] and [join] *)

Lemma wordy_spec s :
  wordy s = true <->
  PyStr.chars s <> [] /\ forallb (fun c => negb (PyStr.is_space c)) (PyStr.chars s) = true.
Proof.
  unfold wordy. rewrite andb_true_iff, negb_true_iff, eqb_empty. done.
Qed.

Lemma split_go_word cur word rest :
  forallb (fun c => negb (PyStr.is_space c)) word = true ->
  PyStr.split_ws_go cur (word ++ rest) = PyStr.split_ws_go (rev word ++ cur) rest.
Proof.
  revert cur. induction word as [|c word IH]; intros cur Hw; [done|].
  cbn in Hw. apply andb_prop in Hw as [Hc Hw]. apply negb_true_iff in Hc.
  cbn. rewrite Hc, (IH _ Hw), <- app_assoc. done.
Qed.

Lemma chars_join_cons sep x y l :
  PyStr.chars (PyStr.join sep (x :: y :: l)) =
  PyStr.chars x ++ PyStr.chars sep ++ PyStr.chars (PyStr.join sep (y :: l)).
Proof.
  change (PyStr.join sep (x :: y :: l)) with (x +:+ sep +:+ PyStr.join sep (y :: l)).
  by rewrite !chars_app.
Qed.

(** Joining words with a space and splitting gives the words back. *)
Lemma split_join_words ws :
  Forall (fun s => wordy s = true) ws -> PyStr.split (PyStr.join " " ws) = ws.
Proof.
  unfold PyStr.split. induction ws as [|x ws IH]; intros Hws; [done|].
  apply Forall_cons in Hws as [[Hne Hx]%wordy_spec Hws].
  destruct ws as [|y ws].
  - cbn [PyStr.join]. rewrite <- (app_nil_r (PyStr.chars x)), (split_go_word _ _ _ Hx).
    rewrite app_nil_r. cbn. destruct (rev (PyStr.chars x)) eqn:Hr.
    { apply (f_equal (@rev _)) in Hr. rewrite rev_involutive in Hr. done. }
    rewrite <- Hr, rev_involutive, str_chars. done.
  - rewrite chars_join_cons, (split_go_word _ _ _ Hx), app_nil_r.
    cbn [PyStr.chars list_ascii_of_string app PyStr.split_ws_go].
    change (PyStr.is_space " ") with true. cbv iota.
    destruct (rev (PyStr.chars x)) eqn:Hr.
    { apply (f_equal (@rev _)) in Hr. rewrite rev_involutive in Hr. done. }
    rewrite <- Hr, rev_involutive, str_chars. f_equal. by apply IH.
Qed.

(** The words [split] yields are not empty and hold no whitespace. *)
Lemma split_go_wordy cur l :
  forallb (fun c => negb (PyStr.is_space c)) cur = true ->
  Forall (fun s => wordy s = true) (PyStr.split_ws_go cur l).
Proof.
  revert cur. induction l as [|c l IH]; intros cur Hcur; cbn.
  - destruct cur as [|a cur]; [constructor|].
    constructor; [|constructor]. apply wordy_spec. rewrite chars_str. split.
    + cbn. by destruct (rev cur).
    + rewrite forallb_forall in *. intros x Hx. apply Hcur.
      by apply in_rev.
  - destruct (PyStr.is_space c) eqn:Hc.
    + destruct cur as [|a cur]; [by apply IH|].
      constructor; [|by apply IH]. apply wordy_spec. rewrite chars_str. split.
      * cbn. by destruct (rev cur).
      * rewrite forallb_forall in *. intros x Hx. apply Hcur. by apply in_rev.
    + apply IH. cbn. by rewrite Hc, Hcur.
Qed.

Lemma split_wordy s : Forall (fun w => wordy w = true) (PyStr.split s).
Proof. by apply split_go_wordy. Qed.

Lemma split_go_nonempty cur l :
  cur <> [] -> (1 <= length (PyStr.split_ws_go cur l))%nat.
Proof.
  revert cur. induction l as [|c l IH]; intros cur Hcur; cbn.
  - destruct cur; [done|]. cbn. lia.
  - destruct (PyStr.is_space c).
    + destruct cur; [done|]. cbn. lia.
    + by apply IH.
Qed.

(** The beginning of a text has no more words than the text. *)
Lemma split_go_firstn k cur l :
  (length (PyStr.split_ws_go cur (firstn k l)) <= length (PyStr.split_ws_go cur l))%nat.
Proof.
  revert k cur. induction l as [|c l IH]; intros k cur.
  - by rewrite firstn_nil.
  - destruct k as [|k].
    + cbn [firstn]. destruct cur as [|a cur]; cbn [PyStr.split_ws_go length]; [lia|].
      apply (split_go_nonempty (a :: cur) (c :: l)). done.
    + cbn [firstn PyStr.split_ws_go]. destruct (PyStr.is_space c).
      * destruct cur; cbn [length]; [apply IH|]. apply le_n_S, IH.
      * apply IH.
Qed.

Lemma join_snoc sep l x y :
  PyStr.join sep (l ++ [x]) +:+ y = PyStr.join sep (l ++ [x +:+ y]).
Proof.
  induction l as [|a l IH]; [done|].
  destruct l as [|b l].
  - change ((a +:+ sep +:+ x) +:+ y = a +:+ sep +:+ x +:+ y).
    by rewrite !append_assoc.
  - change (PyStr.join sep ((a :: b :: l) ++ [x]))
      with (a +:+ sep +:+ PyStr.join sep ((b :: l) ++ [x])).
    change (PyStr.join sep ((a :: b :: l) ++ [x +:+ y]))
      with (a +:+ sep +:+ PyStr.join sep ((b :: l) ++ [x +:+ y])).
    rewrite <- IH, !append_assoc. done.
Qed.

(** ** [_trim_content] *)

Lemma pystr_take_firstn {A} n (l : list A) : exists k, PyStr.take n l = firstn k l.
Proof. unfold PyStr.take. destruct (n <? 0); eauto. Qed.

Lemma wordy_append w sfx :
  wordy w = true ->
  forallb (fun c => negb (PyStr.is_space c)) (PyStr.chars sfx) = true ->
  wordy (w +:+ sfx) = true.
Proof.
  intros [Hne Hw]%wordy_spec Hs. apply wordy_spec. rewrite chars_app. split.
  - destruct (PyStr.chars w); done.
  - by rewrite forallb_app, Hw, Hs.
Qed.

(** What [_trim_content] returns has no more words than the limit. *)
Lemma trim_content_word_count content max_words :
  1 <= max_words ->
  word_count_of (_trim_content content max_words) <= max_words.
Proof.
  intros Hmax. unfold _trim_content, word_count_of.
  destruct (Z.of_nat (length (PyStr.split content)) <=? max_words) eqn:Hle.
  { apply Z.leb_le in Hle. done. }
  apply Z.leb_gt in Hle.
  set (words := PyStr.split content) in *.
  assert (PyStr.take max_words words = firstn (Z.to_nat max_words) words) as ->.
  { unfold PyStr.take. destruct (max_words <? 0) eqn:Hneg; [lia|done]. }
  set (tw := firstn (Z.to_nat max_words) words).
  assert (length tw = Z.to_nat max_words) as Hlen.
  { unfold tw. rewrite length_take. lia. }
  assert (Forall (fun s => wordy s = true) tw) as Hwordy.
  { apply Forall_take, split_wordy. }
  pose proof (split_join_words tw Hwordy) as Hsplit.
  destruct (4 * PyStr.len (PyStr.join " " tw) <? _).
  - unfold PyStr.take_str.
    destruct (pystr_take_firstn
                (Z.max (Z.max (PyStr.rfind (PyStr.join " " tw) ".")
                          (PyStr.rfind (PyStr.join " " tw) "!"))
                   (PyStr.rfind (PyStr.join " " tw) "?") + 1)
                (PyStr.chars (PyStr.join " " tw))) as (k & ->).
    unfold PyStr.split at 1. rewrite chars_str.
    pose proof (split_go_firstn k [] (PyStr.chars (PyStr.join " " tw))) as Hk.
    fold (PyStr.split (PyStr.join " " tw)) in Hk. rewrite Hsplit in Hk. lia.
  - destruct (exists_last (l := tw)) as (tw' & last & Htw).
    { intros Hnil. rewrite Hnil in Hlen. simpl in Hlen. lia. }
    rewrite Htw, join_snoc, split_join_words.
    + rewrite Htw, length_app in Hlen. rewrite length_app. simpl in *. lia.
    + rewrite Htw in Hwordy. apply Forall_app in Hwordy as [H1 H2].
      apply Forall_app. split; [done|].
      apply Forall_cons in H2 as [H2 _]. constructor; [|constructor].
      by apply wordy_append.
Qed.

(** X1.  [_trim_content] with a limit of at least one word returns a
    text of at most that many words, and returns the text unchanged when
    it is within the limit. *)
Theorem trim_content_keeps_the_limit content max_words :
  1 <= max_words ->
  word_count_of (_trim_content content max_words) <= max_words
  /\ (word_count_of content <= max_words ->
      _trim_content content max_words = content).
Proof.
  intros Hmax. split; [by apply trim_content_word_count|].
  unfold _trim_content, word_count_of. intros Hle.
  apply Z.leb_le in Hle. by rewrite Hle.
Qed.

Lemma trim_content_witness :
  1 <= 2
  /\ word_count_of (_trim_content "one two three" 2) <= 2
  /\ (word_count_of "one two three" <= 2 ->
      _trim_content "one two three" 2 = "one two three").
Proof.
  assert (1 <= 2) as H by lia.
  exact (conj H (trim_content_keeps_the_limit "one two three" 2 H)).
Defined.

(** ** [generate_blog] *)

(** A call of [generate_blog] that returns went through the request and
    the post-processing of its reply. *)
Lemma generate_blog_returned env topic max_words audience style w d w' :
  generate_blog env topic max_words audience style w = (Returned d, w') ->
  String.eqb (PyStr.strip topic) "" = false
  /\ exists raw,
       _generate_content env topic max_words audience
         (if bool_decide (style ∈ blog_templates) then style else "informative") w
       = (Returned (RawDict raw), count_completion w)
       /\ _process_blog_content env (RawDict raw) topic (count_completion w)
          = (Returned d, w').
Proof.
  unfold generate_blog. rewrite try_except_reraise.
  destruct (String.eqb (PyStr.strip topic) ""); [discriminate|].
  set (st := if bool_decide (style ∈ blog_templates) then style else "informative").
  destruct (_generate_content env topic max_words audience st w)
    as [[raw|e] w1] eqn:Hgen.
  2:{ rewrite (bind_raised _ _ _ _ _ Hgen). discriminate. }
  rewrite (bind_returned _ _ _ _ _ Hgen).
  assert (w1 = count_completion w) as ->.
  { revert Hgen. unfold _generate_content. unfold_monad.
    destruct (chat_blog env _ _ _ _ _); by intros [= _ <-]. }
  destruct (_process_blog_content env raw topic (count_completion w))
    as [[d1|e] w2] eqn:Hproc.
  2:{ rewrite (bind_raised _ _ _ _ _ Hproc). discriminate. }
  rewrite (bind_returned _ _ _ _ _ Hproc). unfold_monad. intros [= <- <-].
  destruct raw as [raw|err]; [|discriminate]. eauto.
Qed.

(** X2.  The dictionary [generate_blog] returns carries a
    [word_count] that is never below the number of words of its
    [content] and never above [BLOG_MAX_LENGTH], whatever [max_words] the
    caller asked for; below [BLOG_MAX_LENGTH] it is the exact number of
    words.  The setting has to allow one word at least. *)
Theorem generated_word_count_bounds_content
    env topic max_words audience style w d w' :
  1 <= BLOG_MAX_LENGTH env ->
  generate_blog env topic max_words audience style w = (Returned d, w') ->
  exists content n,
    d !! "content" = Some (VStr content)
    /\ d !! "word_count" = Some (VInt n)
    /\ word_count_of content <= n <= BLOG_MAX_LENGTH env
    /\ (n < BLOG_MAX_LENGTH env -> word_count_of content = n).
Proof.
  intros Hmax (_ & raw & _ & Hproc)%generate_blog_returned.
  apply process_blog_content_returned in Hproc
    as (body & title & _ & _ & _ & Hd).
  cbv zeta in Hd. subst d.
  set (text := _ensure_heading_structure (PyStr.strip body)).
  fold (word_count_of text).
  eexists _, _.
  split; [repeat (rewrite lookup_insert_ne by done); by rewrite lookup_insert_eq|].
  split; [repeat (rewrite lookup_insert_ne by done); by rewrite lookup_insert_eq|].
  destruct (BLOG_MAX_LENGTH env <? word_count_of text) eqn:Hlt.
  - apply Z.ltb_lt in Hlt.
    pose proof (trim_content_word_count text (BLOG_MAX_LENGTH env) Hmax) as Hb.
    split; [lia|lia].
  - apply Z.ltb_ge in Hlt. split; [lia|done].
Qed.

Lemma generated_word_count_witness :
  1 <= BLOG_MAX_LENGTH env_ok
  /\ exists content n,
       value_or ∅ generate_run !! "content" = Some (VStr content)
       /\ value_or ∅ generate_run !! "word_count" = Some (VInt n)
       /\ word_count_of content <= n <= BLOG_MAX_LENGTH env_ok
       /\ (n < BLOG_MAX_LENGTH env_ok -> word_count_of content = n).
Proof.
  assert (1 <= BLOG_MAX_LENGTH env_ok) as Hmax by (vm_compute; discriminate).
  split; [exact Hmax|].
  apply (generated_word_count_bounds_content env_ok "x" 800 "general" "informative"
           (world_with []) (value_or ∅ generate_run) (snd generate_run) Hmax).
  apply (returns_eq ∅ generate_run). vm_compute. reflexivity.
Defined.

(** ** [_generate_slug] *)

Lemma lower_char_not_upper c : PyStr.is_upper (PyStr.lower_char c) = false.
Proof. destruct c as [[] [] [] [] [] [] [] []]; reflexivity. Qed.

Lemma slug_char_cases c :
  slug_char c = true ->
  PyStr.lower_char c = c
  /\ (PyStr.is_alnum c || PyStr.is_space c || Ascii.eqb c "-") = true
  /\ PyStr.is_space c = false.
Proof.
  intros H. destruct c as [[] [] [] [] [] [] [] []];
    vm_compute in H; try discriminate H; repeat split.
Qed.

Lemma kept_char_cases c :
  (PyStr.is_alnum c || PyStr.is_space c || Ascii.eqb c "-") = true ->
  PyStr.is_upper c = false ->
  (Ascii.eqb c "-" || PyStr.is_space c) = false ->
  slug_char c = true.
Proof.
  intros H1 H2 H3. destruct c as [[] [] [] [] [] [] [] []];
    vm_compute in H1, H2, H3; try discriminate; reflexivity.
Qed.

Lemma hyphen_eqb_sym c : Ascii.eqb "-" c = Ascii.eqb c "-".
Proof. apply Ascii.eqb_sym. Qed.

(** Every character [collapse_separators] yields is a hyphen or a
    character of its input that is no separator; no two hyphens follow
    each other, and none comes first when a run is being read. *)
Lemma collapse_separators_chars (f : ascii -> bool) b l :
  (forall c, c ∈ l -> (Ascii.eqb c "-" || PyStr.is_space c) = false -> f c = true) ->
  f "-"%char = true ->
  forallb f (collapse_separators b l) = true.
Proof.
  intros Hl Hh. revert b. induction l as [|c l IH]; intros b; [done|].
  cbn [collapse_separators].
  assert (forall b, forallb f (collapse_separators b l) = true) as IH'.
  { apply IH. intros x Hx. apply Hl. by apply list_elem_of_further. }
  destruct (Ascii.eqb c "-" || PyStr.is_space c) eqn:Hc.
  - destruct b; [apply IH'|]. cbn. by rewrite Hh, IH'.
  - cbn. rewrite IH', (Hl c); [done|apply list_elem_of_here|done].
Qed.

Lemma double_hyphen_cons2 a b l :
  double_hyphen (a :: b :: l) =
  (Ascii.eqb a "-" && Ascii.eqb b "-") || double_hyphen (b :: l).
Proof. reflexivity. Qed.

Lemma collapse_separators_hyphens b l :
  double_hyphen (collapse_separators b l) = false
  /\ (b = true -> no_lead (Ascii.eqb "-") (collapse_separators b l)).
Proof.
  revert b. induction l as [|c l IH]; intros b; [done|].
  cbn [collapse_separators].
  destruct (Ascii.eqb c "-" || PyStr.is_space c) eqn:Hc.
  - destruct b; [apply IH|]. split; [|discriminate].
    destruct (IH true) as [Hd Hn]. specialize (Hn eq_refl).
    destruct (collapse_separators true l) as [|x r]; [done|].
    unfold no_lead in Hn. rewrite hyphen_eqb_sym in Hn.
    rewrite double_hyphen_cons2, Hn, andb_false_r. exact Hd.
  - apply orb_false_elim in Hc as [Hc _]. destruct (IH false) as [Hd _]. split.
    + destruct (collapse_separators false l); [done|].
      by rewrite double_hyphen_cons2, Hc.
    + intros _. unfold no_lead. by rewrite hyphen_eqb_sym.
Qed.

Lemma double_hyphen_cons c l : double_hyphen (c :: l) = false -> double_hyphen l = false.
Proof.
  destruct l as [|x l]; [done|]. rewrite double_hyphen_cons2.
  by intros [_ H]%orb_false_elim.
Qed.

Lemma double_hyphen_stretch a l b :
  double_hyphen (a ++ l ++ b) = false -> double_hyphen l = false.
Proof.
  induction a as [|c a IH]; cbn [app].
  - induction l as [|x l IHl]; [done|]. intros H.
    destruct l as [|y l]; [done|]. cbn [app] in *.
    rewrite double_hyphen_cons2 in *.
    apply orb_false_elim in H as [H1 H2]. by rewrite H1, (IHl H2).
  - intros H%double_hyphen_cons. by apply IH.
Qed.

(** The characters of the slug, before they are made a string again. *)
Lemma generate_slug_chars title :
  PyStr.chars (_generate_slug title) =
  PyStr.strip_by (Ascii.eqb "-")
    (collapse_separators false
       (filter (fun c => PyStr.is_alnum c || PyStr.is_space c || Ascii.eqb c "-")
          (map PyStr.lower_char (PyStr.chars title)))).
Proof.
  unfold _generate_slug, PyStr.strip_char, PyStr.lower. by rewrite !chars_str.
Qed.

Lemma prefix_one c s :
  String.prefix (String c "") s =
  match PyStr.chars s with x :: _ => Ascii.eqb c x | [] => false end.
Proof.
  destruct s as [|x s]; [done|]. cbn.
  destruct (ascii_dec c x) as [->|Hne].
  - rewrite Ascii.eqb_refl. by destruct s.
  - symmetry. by apply Ascii.eqb_neq.
Qed.

Lemma chars_rev s : PyStr.chars (String.rev s) = rev (PyStr.chars s).
Proof.
  unfold String.rev.
  assert (forall s1 s2, PyStr.chars (String.rev_app s1 s2)
                        = rev (PyStr.chars s1) ++ PyStr.chars s2) as H.
  { induction s1 as [|c s1 IH]; intros s2; [done|].
    cbn. rewrite IH, <- app_assoc. done. }
  by rewrite H, app_nil_r.
Qed.

Lemma startswith_one s c :
  no_lead (Ascii.eqb c) (PyStr.chars s) -> PyStr.startswith s (String c "") = false.
Proof.
  unfold PyStr.startswith. rewrite prefix_one.
  by destruct (PyStr.chars s).
Qed.

Lemma endswith_one s c :
  no_lead (Ascii.eqb c) (rev (PyStr.chars s)) -> PyStr.endswith s (String c "") = false.
Proof.
  unfold PyStr.endswith. change (String.rev (String c "")) with (String c "").
  rewrite prefix_one, chars_rev. by destruct (rev (PyStr.chars s)).
Qed.

Lemma generate_slug_shape title :
  let r := PyStr.chars (_generate_slug title) in
  forallb slug_char r = true
  /\ no_lead (Ascii.eqb "-") r
  /\ no_lead (Ascii.eqb "-") (rev r)
  /\ double_hyphen r = false.
Proof.
  pose proof (generate_slug_chars title) as Hchars.
  set (kept := filter _ _) in Hchars.
  destruct (strip_by_stretch (Ascii.eqb "-") (collapse_separators false kept))
    as (a & b & Hstretch).
  destruct (strip_by_no_lead (Ascii.eqb "-") (collapse_separators false kept))
    as [Hlead Htail].
  rewrite <- Hchars in Hstretch, Hlead, Htail.
  split; [|split; [done|split; [done|]]].
  - apply (forallb_stretch slug_char a _ b). rewrite <- Hstretch.
    apply collapse_separators_chars; [|done].
    intros c Hc Hsep. unfold kept in Hc.
    apply list_elem_of_filter in Hc as [Hkeep Hin].
    apply list_elem_of_fmap in Hin as (x & -> & _).
    apply kept_char_cases; [by destruct (_ || _)|apply lower_char_not_upper|done].
  - apply (double_hyphen_stretch a _ b). rewrite <- Hstretch.
    apply collapse_separators_hyphens.
Qed.

(** X3.  The slug [_generate_slug] makes of any title consists of
    lowercase letters, digits and hyphens, neither begins nor ends with a
    hyphen, and has no two hyphens in a row. *)
Theorem generate_slug_is_url_friendly title :
  forallb slug_char (PyStr.chars (_generate_slug title)) = true
  /\ PyStr.startswith (_generate_slug title) "-" = false
  /\ PyStr.endswith (_generate_slug title) "-" = false
  /\ double_hyphen (PyStr.chars (_generate_slug title)) = false.
Proof.
  destruct (generate_slug_shape title) as (Hall & Hlead & Htail & Hd).
  split; [done|]. split; [by apply startswith_one|].
  split; [by apply endswith_one|done].
Qed.

Lemma collapse_separators_fixed b l :
  forallb slug_char l = true ->
  double_hyphen l = false ->
  (b = true -> no_lead (Ascii.eqb "-") l) ->
  collapse_separators b l = l.
Proof.
  revert b. induction l as [|c l IH]; intros b Hl Hd Hb; [done|].
  cbn in Hl. apply andb_prop in Hl as [Hc Hl].
  destruct (slug_char_cases c Hc) as (_ & _ & Hsp).
  cbn [collapse_separators]. rewrite Hsp, orb_false_r.
  destruct (Ascii.eqb c "-") eqn:Hh.
  - destruct b.
    { specialize (Hb eq_refl). unfold no_lead in Hb.
      rewrite hyphen_eqb_sym in Hb. congruence. }
    apply Ascii.eqb_eq in Hh as ->. f_equal.
    apply IH; [done|by apply double_hyphen_cons in Hd|].
    intros _. destruct l as [|x l]; [done|]. rewrite double_hyphen_cons2 in Hd.
    apply orb_false_elim in Hd as [Hd _].
    rewrite Ascii.eqb_refl in Hd. unfold no_lead.
    by rewrite hyphen_eqb_sym.
  - f_equal. apply IH; [done|by apply double_hyphen_cons in Hd|discriminate].
Qed.

(** X4.  Making a slug of a slug changes nothing. *)
Theorem generate_slug_idempotent title :
  _generate_slug (_generate_slug title) = _generate_slug title.
Proof.
  destruct (generate_slug_shape title) as (Hall & Hlead & Htail & Hd).
  rewrite <- (str_chars (_generate_slug title)) at 2.
  rewrite <- (str_chars (_generate_slug (_generate_slug title))).
  f_equal. rewrite generate_slug_chars.
  set (r := PyStr.chars (_generate_slug title)) in *.
  assert (map PyStr.lower_char r = r) as ->.
  { clear -Hall. induction r as [|c r IH]; [done|]. cbn in *.
    apply andb_prop in Hall as [Hc Hr].
    destruct (slug_char_cases c Hc) as (-> & _). by rewrite IH. }
  assert (filter (fun c => PyStr.is_alnum c || PyStr.is_space c || Ascii.eqb c "-") r = r)
    as ->.
  { clear -Hall. induction r as [|c r IH]; [done|]. cbn in Hall.
    apply andb_prop in Hall as [Hc Hr].
    destruct (slug_char_cases c Hc) as (_ & Hk & _).
    rewrite filter_cons, decide_True by (by rewrite Hk). by rewrite IH. }
  rewrite collapse_separators_fixed by (done || discriminate).
  by apply strip_by_fixed.
Qed.

(** ** [_ensure_heading_structure] *)

Lemma one_line_spec s :
  one_line s = true <->
  forallb (fun c => negb (Ascii.eqb c "010")) (PyStr.chars s) = true.
Proof. done. Qed.

Lemma split_on_go_piece sep cur piece rest :
  forallb (fun c => negb (Ascii.eqb c sep)) piece = true ->
  PyStr.split_on_go sep cur (piece ++ rest) = PyStr.split_on_go sep (rev piece ++ cur) rest.
Proof.
  revert cur. induction piece as [|c piece IH]; intros cur Hp; [done|].
  cbn in Hp. apply andb_prop in Hp as [Hc Hp]. apply negb_true_iff in Hc.
  cbn. rewrite Hc, (IH _ Hp), <- app_assoc. done.
Qed.

(** Joining lines with a line feed and splitting at line feeds gives the
    lines back. *)
Lemma split_on_join_lines l :
  l <> [] -> Forall (fun s => one_line s = true) l ->
  PyStr.split_on "010" (PyStr.join (String "010" "") l) = l.
Proof.
  unfold PyStr.split_on. induction l as [|x l IH]; intros Hne Hl; [done|].
  apply Forall_cons in Hl as [Hx Hl].
  destruct l as [|y l].
  - cbn [PyStr.join]. rewrite <- (app_nil_r (PyStr.chars x)).
    rewrite (split_on_go_piece _ _ _ _ Hx), app_nil_r. cbn.
    by rewrite rev_involutive, str_chars.
  - rewrite chars_join_cons, (split_on_go_piece _ _ _ _ Hx), app_nil_r.
    cbn [PyStr.chars list_ascii_of_string app PyStr.split_on_go].
    rewrite Ascii.eqb_refl, rev_involutive, str_chars. f_equal. by apply IH.
Qed.

Lemma split_on_go_one_line cur l :
  forallb (fun c => negb (Ascii.eqb c "010")) cur = true ->
  Forall (fun s => one_line s = true) (PyStr.split_on_go "010" cur l).
Proof.
  assert (forall cur, forallb (fun c => negb (Ascii.eqb c "010")) cur = true ->
                      one_line (PyStr.str (rev cur)) = true) as Hrev.
  { intros cur' H. unfold one_line. rewrite chars_str.
    rewrite forallb_forall in *. intros x Hx. apply H. by apply in_rev. }
  revert cur. induction l as [|c l IH]; intros cur Hcur; cbn.
  - constructor; [by apply Hrev|constructor].
  - destruct (Ascii.eqb c "010") eqn:Hc.
    + constructor; [by apply Hrev|by apply IH].
    + apply IH. cbn. by rewrite Hc, Hcur.
Qed.

Lemma split_on_go_nonempty sep cur l : PyStr.split_on_go sep cur l <> [].
Proof.
  revert cur. induction l as [|c l IH]; intros cur; cbn; [done|].
  destruct (Ascii.eqb c sep); [done|apply IH].
Qed.

Lemma strip_chars s :
  PyStr.chars (PyStr.strip s) = PyStr.strip_by PyStr.is_space (PyStr.chars s).
Proof. unfold PyStr.strip. apply chars_str. Qed.

Lemma strip_one_line s : one_line s = true -> one_line (PyStr.strip s) = true.
Proof.
  unfold one_line. rewrite strip_chars.
  destruct (strip_by_stretch PyStr.is_space (PyStr.chars s)) as (a & b & H).
  intros Hs. rewrite H in Hs. by apply forallb_stretch in Hs.
Qed.

(** A stripped text that is not empty stays as it is when ["## "] is put
    before it and the whole is stripped. *)
Lemma strip_heading s :
  String.eqb (PyStr.strip s) "" = false ->
  PyStr.strip ("## " +:+ PyStr.strip s) = "## " +:+ PyStr.strip s.
Proof.
  intros Hne. apply eqb_empty in Hne.
  destruct (strip_by_no_lead PyStr.is_space (PyStr.chars s)) as [_ Htail].
  rewrite <- strip_chars in Htail.
  set (t := PyStr.strip s) in *.
  unfold PyStr.strip at 1. rewrite chars_app, strip_by_fixed.
  - by rewrite <- chars_app, str_chars.
  - done.
  - rewrite rev_app_distr. destruct (rev (PyStr.chars t)) as [|c r] eqn:Hr.
    { apply (f_equal (@rev _)) in Hr. rewrite rev_involutive in Hr. done. }
    exact Htail.
Qed.

Lemma heading_line_idempotent line :
  heading_line (heading_line line) = heading_line line.
Proof.
  assert (heading_line line =
          if negb (String.eqb (PyStr.strip line) "")
             && (10 <? PyStr.len (PyStr.strip line))
             && (PyStr.len (PyStr.strip line) <? 100)
             && negb (PyStr.startswith (PyStr.strip line) "#")
             && negb (PyStr.startswith (PyStr.strip line) "-")
             && negb (PyStr.startswith (PyStr.strip line) "*")
             && PyStr.endswith (PyStr.strip line) ":"
          then "## " +:+ PyStr.strip line else PyStr.strip line) as Hline
    by reflexivity.
  destruct (negb (String.eqb (PyStr.strip line) "")) eqn:Hne.
  2:{ cbn [andb] in Hline. rewrite Hline. unfold heading_line. cbv zeta.
      rewrite strip_idem, Hne. done. }
  destruct (_ && _) eqn:Hcond in Hline; rewrite Hline.
  - unfold heading_line. cbv zeta.
    rewrite strip_heading by (by apply negb_true_iff).
    change (PyStr.startswith ("## " +:+ PyStr.strip line) "#") with true.
    cbn [negb]. rewrite andb_false_r. reflexivity.
  - unfold heading_line. cbv zeta. rewrite strip_idem, Hne, Hcond. done.
Qed.

Lemma heading_line_one_line line :
  one_line line = true -> one_line (heading_line line) = true.
Proof.
  intros H%strip_one_line. unfold heading_line. cbv zeta.
  destruct (_ && _); [|done].
  unfold one_line in *. rewrite chars_app. by rewrite forallb_app, H.
Qed.

(** X5.  [_ensure_heading_structure] keeps the number of lines, and
    applying it to its own result changes nothing: a line it has turned
    into a heading is not given a second ["## "]. *)
Theorem ensure_heading_structure_idempotent content :
  _ensure_heading_structure (_ensure_heading_structure content)
    = _ensure_heading_structure content
  /\ line_count_of (_ensure_heading_structure content) = line_count_of content.
Proof.
  unfold _ensure_heading_structure, line_count_of. cbv zeta.
  set (lines := PyStr.split_on "010" content).
  assert (PyStr.split_on "010" (PyStr.join (String "010" "") (map heading_line lines))
          = map heading_line lines) as Hback.
  { apply split_on_join_lines.
    - unfold lines, PyStr.split_on.
      pose proof (split_on_go_nonempty "010" [] (PyStr.chars content)).
      by destruct (PyStr.split_on_go _ _ _).
    - apply Forall_fmap. unfold lines, PyStr.split_on.
      eapply Forall_impl; [by apply split_on_go_one_line|].
      intros x Hx. by apply heading_line_one_line. }
  rewrite Hback. split; [|by rewrite length_map].
  f_equal. rewrite <- list_fmap_compose. apply list_fmap_ext.
  intros i x _. apply heading_line_idempotent.
Qed.

(** ** [_extract_content_from_text] *)

Lemma tag_like_rev acc c :
  forallb PyStr.is_word (c :: acc) = true ->
  tag_like (PyStr.str (rev (c :: acc))) = true.
Proof.
  intros H. unfold tag_like. rewrite chars_str. apply andb_true_intro. split.
  - apply negb_true_iff, eqb_empty. rewrite chars_str. cbn. by destruct (rev acc).
  - rewrite forallb_forall in *. intros x Hx. apply H. by apply in_rev.
Qed.

(** What the pattern [#(\w+)] captures: runs of word characters that are
    not empty. *)
Lemma hashtags_go_tag_like cur l :
  (forall acc, cur = Some acc -> forallb PyStr.is_word acc = true) ->
  Forall (fun t => tag_like t = true) (hashtags_go cur l).
Proof.
  revert cur. induction l as [|c l IH]; intros cur Hcur.
  - cbn. destruct cur as [[|a acc]|]; try constructor; [|constructor].
    apply tag_like_rev. by apply Hcur.
  - cbn [hashtags_go]. destruct cur as [acc|].
    + destruct (PyStr.is_word c) eqn:Hc.
      * apply IH. intros acc' [= <-]. cbn. rewrite Hc. by apply Hcur.
      * assert (Forall (fun t => tag_like t = true)
                  (hashtags_go (if Ascii.eqb c "#" then Some [] else None) l)) as Hnext.
        { apply IH. destruct (Ascii.eqb c "#"); [|done]. by intros acc' [= <-]. }
        destruct acc as [|a acc]; [done|].
        constructor; [|done]. apply tag_like_rev. by apply Hcur.
    + apply IH. destruct (Ascii.eqb c "#"); [|done]. by intros acc' [= <-].
Qed.

(** X6.  For a reply that is not JSON, [_extract_content_from_text]
    always finds a first line and takes the title from it (the title
    built from the topic is never used); it keeps the text as the
    content and counts its words; and it gives between one and five
    tags: the first five hashtags of the text, each a run of word
    characters, or else up to three words of the topic followed by
    ["blog"] and ["article"]. *)
Theorem extract_content_from_text_fields content topic :
  exists first rest tags,
    PyStr.split_on "010" content = first :: rest
    /\ _extract_content_from_text content topic !! "title"
       = Some (VStr (PyStr.strip first))
    /\ _extract_content_from_text content topic !! "content" = Some (VStr content)
    /\ _extract_content_from_text content topic !! "word_count"
       = Some (VInt (word_count_of content))
    /\ _extract_content_from_text content topic !! "tags" = Some (VList tags)
    /\ (1 <= length tags <= 5)%nat
    /\ (hashtags content <> [] ->
        tags = firstn 5 (hashtags content)
        /\ Forall (fun t => tag_like t = true) tags)
    /\ (hashtags content = [] ->
        tags = firstn 3 (PyStr.split (PyStr.lower topic)) ++ ["blog"; "article"]).
Proof.
  unfold _extract_content_from_text. cbv zeta.
  destruct (PyStr.split_on "010" content) as [|first rest] eqn:Hlines.
  { by apply split_on_go_nonempty in Hlines. }
  exists first, rest.
  destruct (hashtags content) as [|t ts] eqn:Htags.
  - eexists. split; [done|].
    split; [rewrite lookup_insert_eq; reflexivity|].
    split; [rewrite lookup_insert_ne by done; rewrite lookup_insert_eq; reflexivity|].
    split; [rewrite !lookup_insert_ne by done; rewrite lookup_singleton_eq; reflexivity|].
    split; [rewrite !lookup_insert_ne by done; rewrite lookup_insert_eq; reflexivity|].
    split; [|split; [done|reflexivity]].
    rewrite length_app. change (PyStr.take 3 ?l) with (firstn 3 l).
    rewrite length_take. cbn [length]. lia.
  - eexists. split; [done|].
    split; [rewrite lookup_insert_eq; reflexivity|].
    split; [rewrite lookup_insert_ne by done; rewrite lookup_insert_eq; reflexivity|].
    split; [rewrite !lookup_insert_ne by done; rewrite lookup_singleton_eq; reflexivity|].
    split; [rewrite !lookup_insert_ne by done; rewrite lookup_insert_eq; reflexivity|].
    change (PyStr.take 5 ?l) with (firstn 5 l).
    split; [|split; [|done]].
    + rewrite length_take. cbn [length]. lia.
    + intros _. split; [done|]. apply Forall_take. rewrite <- Htags.
      by apply hashtags_go_tag_like.
Qed.

(** ** The series plan and [generate_blog_series] *)

Lemma simple_series_plan_length main_topic num_posts :
  0 <= num_posts ->
  Z.of_nat (length (_generate_simple_series_plan main_topic num_posts))
  = Z.min num_posts 10.
Proof.
  intros Hn. unfold _generate_simple_series_plan, PyStr.take.
  destruct (num_posts <? 0) eqn:Hneg; [lia|].
  rewrite length_map, length_take. cbn [length]. lia.
Qed.

(** X7.  [_generate_series_plan] never raises and makes one request.
    The plan it returns has [num_posts] subtopics when the reply was a
    list of that length; otherwise it is the built-in plan, which has
    [num_posts] subtopics only up to ten: a request for more than ten
    posts then gives a plan of ten. *)
Theorem series_plan_has_at_most_ten_fallback_topics env main_topic num_posts w :
  exists plan,
    _generate_series_plan env main_topic num_posts w
      = (Returned plan, count_completion w)
    /\ (0 <= num_posts ->
        Z.of_nat (length plan) = num_posts
        \/ (10 < num_posts /\ length plan = 10%nat))
    /\ (chat_plan env (completions w) main_topic num_posts = PlanUnusable ->
        0 <= num_posts ->
        Z.of_nat (length plan) = Z.min num_posts 10
        /\ Forall (fun v => exists s, v = VStr s) plan).
Proof.
  pose proof (simple_series_plan_length main_topic num_posts) as Hsimple.
  assert (Forall (fun v => exists s, v = VStr s)
            (_generate_simple_series_plan main_topic num_posts)) as Hstr.
  { unfold _generate_simple_series_plan. apply Forall_fmap, Forall_forall.
    intros s _. by exists s. }
  unfold _generate_series_plan. unfold_monad.
  destruct (chat_plan env (completions w) main_topic num_posts) as [l|].
  - destruct (Z.of_nat (length l) =? num_posts) eqn:Hlen; cbn [negb].
    + exists l. split; [done|]. split; [|done]. intros _. left. lia.
    + eexists. split; [reflexivity|]. split; [|done].
      intros Hn. specialize (Hsimple Hn). lia.
  - eexists. split; [reflexivity|]. split.
    + intros Hn. specialize (Hsimple Hn). lia.
    + intros _ Hn. split; [by apply Hsimple|done].
Qed.

Lemma series_plan_witness :
  exists plan,
    _generate_series_plan env_ok "AI" 12 (world_with [])
      = (Returned plan, count_completion (world_with []))
    /\ (0 <= 12 ->
        Z.of_nat (length plan) = 12 \/ (10 < 12 /\ length plan = 10%nat))
    /\ (chat_plan env_ok (completions (world_with [])) "AI" 12 = PlanUnusable ->
        0 <= 12 ->
        Z.of_nat (length plan) = Z.min 12 10
        /\ Forall (fun v => exists s, v = VStr s) plan).
Proof.
  exact (series_plan_has_at_most_ten_fallback_topics env_ok "AI" 12 (world_with [])).
Defined.

(** The posts [generate_series_posts] adds carry the series metadata,
    numbered from [i]; each took one request. *)
Lemma generate_series_posts_numbered env main_topic plan :
  forall i acc w l w',
  generate_series_posts env main_topic i plan acc w = (Returned l, w') ->
  exists new,
    l = acc ++ new
    /\ length new = length plan
    /\ completions w' = (completions w + length plan)%nat
    /\ forall k post, new !! k = Some post ->
         post !! "series_position" = Some (VInt (i + Z.of_nat k))
         /\ post !! "series_topic" = Some (VStr main_topic)
         /\ post !! "series_slug"
            = Some (VStr (PyStr.replace_char " " "-" (PyStr.lower main_topic)
                          +:+ "-part-" +:+ PyStr.of_int (i + Z.of_nat k)))
         /\ post !! "status" = Some (VStr "draft")
         /\ exists subtopic, plan !! k = Some (VStr subtopic)
                             /\ post !! "topic" = Some (VStr subtopic).
Proof.
  induction plan as [|subtopic plan IH]; intros i acc w l w'.
  - simpl. unfold_monad. intros [= <- <-]. exists []. rewrite app_nil_r.
    split; [done|]. split; [done|]. split; [lia|]. intros k post Hk.
    by rewrite lookup_nil in Hk.
  - cbn [generate_series_posts length].
    intros [(topic & w0 & Hstr & H)|(e & _ & [=])]%bind_inv.
    assert (subtopic = VStr topic /\ w0 = w) as [-> ->].
    { destruct subtopic; unfold as_str in Hstr; unfold_monad;
        inversion Hstr; done. }
    apply bind_inv in H as [(post & w1 & Hgen & H)|(e & _ & [=])].
    pose proof Hgen as Hspec. apply generate_blog_spec in Hspec as [_ Hproc].
    destruct (Hproc post eq_refl) as (Hstatus & _).
    apply generate_blog_returned in Hgen as (_ & raw & _ & Hpost).
    apply process_blog_content_returned in Hpost
      as (body & title & _ & _ & Hw1 & Hd).
    assert (post !! "topic" = Some (VStr topic)) as Htopic.
    { cbv zeta in Hd. rewrite Hd.
      rewrite !lookup_insert_ne by done. by rewrite lookup_insert_eq. }
    clear Hd.
    apply IH in H as (new & -> & Hlen & Hc & Hnew).
    eexists (_ :: new). split; [by rewrite <- app_assoc|].
    split; [by rewrite <- Hlen|]. split.
    { rewrite Hc, Hw1. simpl. lia. }
    intros [|k] p Hk.
    + injection Hk as <-. rewrite Z.add_0_r.
      split; [rewrite !lookup_insert_ne by done; by rewrite lookup_insert_eq|].
      split; [rewrite !lookup_insert_ne by done; by rewrite lookup_insert_eq|].
      split; [by rewrite lookup_insert_eq|].
      split; [by rewrite !lookup_insert_ne by done|].
      exists topic. split; [done|]. by rewrite !lookup_insert_ne by done.
    + cbn in Hk. destruct (Hnew k p Hk) as (H1 & H2 & H3 & H4 & H5).
      replace (i + Z.of_nat (S k)) with (i + 1 + Z.of_nat k) by lia. done.
Qed.

(** X8.  The posts [generate_blog_series] returns are numbered
    1, 2, ... in [series_position], carry the series topic and a
    [series_slug] ending in ["-part-<position>"], are drafts, and the
    [k]-th one was generated for the [k]-th subtopic of the plan; the
    call made one request for the plan and one for each post. *)
Theorem series_posts_are_numbered env main_topic num_posts w series w' :
  generate_blog_series env main_topic num_posts w = (Returned series, w') ->
  completions w' = (completions w + 1 + length series)%nat
  /\ exists plan,
       _generate_series_plan env main_topic num_posts w
         = (Returned plan, count_completion w)
       /\ length series = length plan
       /\ forall k post, series !! k = Some post ->
            post !! "series_position" = Some (VInt (Z.of_nat k + 1))
            /\ post !! "series_topic" = Some (VStr main_topic)
            /\ post !! "series_slug"
               = Some (VStr (PyStr.replace_char " " "-" (PyStr.lower main_topic)
                             +:+ "-part-" +:+ PyStr.of_int (Z.of_nat k + 1)))
            /\ post !! "status" = Some (VStr "draft")
            /\ exists subtopic, plan !! k = Some (VStr subtopic)
                                /\ post !! "topic" = Some (VStr subtopic).
Proof.
  unfold generate_blog_series. rewrite try_except_reraise.
  destruct (series_plan_spec env main_topic num_posts w) as (plan & Hplan & _).
  rewrite (bind_returned _ _ _ _ _ Hplan).
  intros (new & -> & Hlen & Hc & Hnew)%generate_series_posts_numbered.
  cbn [app]. split; [rewrite Hc, Hlen; simpl; lia|].
  exists plan. split; [done|]. split; [done|].
  intros k post Hk. destruct (Hnew k post Hk) as (H1 & H2 & H3 & H4 & H5).
  replace (Z.of_nat k + 1) with (1 + Z.of_nat k) by lia. done.
Qed.

Lemma series_posts_witness :
  generate_blog_series env_ok "AI" 3 (world_with [])
    = (Returned (value_or [] series_ok_run), snd series_ok_run)
  /\ completions (snd series_ok_run)
     = (completions (world_with []) + 1 + length (value_or [] series_ok_run))%nat
  /\ exists plan,
       _generate_series_plan env_ok "AI" 3 (world_with [])
         = (Returned plan, count_completion (world_with []))
       /\ length (value_or [] series_ok_run) = length plan
       /\ forall k post, value_or [] series_ok_run !! k = Some post ->
            post !! "series_position" = Some (VInt (Z.of_nat k + 1))
            /\ post !! "series_topic" = Some (VStr "AI")
            /\ post !! "series_slug"
               = Some (VStr (PyStr.replace_char " " "-" (PyStr.lower "AI")
                             +:+ "-part-" +:+ PyStr.of_int (Z.of_nat k + 1)))
            /\ post !! "status" = Some (VStr "draft")
            /\ exists subtopic, plan !! k = Some (VStr subtopic)
                                /\ post !! "topic" = Some (VStr subtopic).
Proof.
  assert (generate_blog_series env_ok "AI" 3 (world_with [])
          = (Returned (value_or [] series_ok_run), snd series_ok_run)) as Hrun.
  { apply (returns_eq [] series_ok_run). vm_compute. reflexivity. }
  exact (conj Hrun
           (series_posts_are_numbered env_ok "AI" 3 (world_with [])
              (value_or [] series_ok_run) (snd series_ok_run) Hrun)).
Defined.

(** ** The persisted statistics *)

(** X9.  Every run of the job body returns a report and ends with a
    write of the statistics: it attempts one write when it failed to
    generate and two when it generated.  When the last write worked, the
    persisted copy is the counters as the run left them. *)
Theorem statistics_are_persisted_after_each_run
    env topics max_words publish_immediately platforms w :
  exists report w',
    _generate_and_publish_blog env topics max_words publish_immediately platforms w
      = (Returned report, w')
    /\ stats_writes w' =
         (stats_writes w + (if generation_success report then 2 else 1))%nat
    /\ (stats_write_fails env (pred (stats_writes w')) = false ->
        stats_store w' = Some (stats w')).
Proof.
  rewrite job_body_eq.
  assert (forall e w1,
            stats_writes w1 = stats_writes w -> stats_store w1 = stats_store w ->
            exists report w',
              record_failure env e w1 = (Returned report, w')
              /\ stats_writes w' =
                   (stats_writes w + (if generation_success report then 2 else 1))%nat
              /\ (stats_write_fails env (pred (stats_writes w')) = false ->
                  stats_store w' = Some (stats w'))) as Hfail.
  { intros e w1 Hwrites Hstore. rewrite record_failure_eq.
    eexists _, _. split; [reflexivity|].
    pose proof (after_statistics_write_fields env
                  (set_stats incr_failed_generations w1))
      as (Hs & _ & _ & _ & _ & _ & _ & _ & Hw & Hst).
    cbv zeta in Hs, Hw, Hst. rewrite Hw, Hst, Hs. cbn.
    rewrite Hwrites. split; [lia|]. by intros ->. }
  destruct (generate_blog env (selected_topic env topics w) max_words
              "general" "informative" (count_draw w)) as [[d0|e] w1] eqn:Hgen;
    apply generate_blog_world in Hgen as (Hw1 & Hs1 & _); cbn in Hw1, Hs1.
  2:{ by apply Hfail. }
  destruct (_save_blog_to_database env d0 w1) as [[blog_data|e] w2] eqn:Hsave;
    apply save_blog_world in Hsave as (Hw2 & Hs2 & _).
  2:{ apply Hfail; congruence. }
  destruct (after_save_eq env publish_immediately platforms blog_data w2)
    as (pr & w0 & Hrun & Hw0 & Hs0 & _).
  eexists _, _. split; [exact Hrun|].
  pose proof (after_statistics_write_fields env w0)
    as (Hs & _ & _ & _ & _ & _ & _ & _ & Hw & Hst).
  cbv zeta in Hs, Hw, Hst. rewrite Hw, Hst, Hs, Hw0, Hw2, Hw1. cbn.
  split; [lia|]. by intros ->.
Qed.

Lemma setup_default_publishers_eq value r w :
  _setup_default_publishers value r w =
  (Returned tt,
   if truthy (value "WORDPRESS_URL")
   then match wordpress_site r (value "WORDPRESS_URL") (value "WORDPRESS_USERNAME")
                (value "WORDPRESS_PASSWORD") with
        | Returned site =>
            set_publishers
              (registry_set "default_wordpress" (mkPublisher WordPressPublisher site)) w
        | Raised _ => w
        end
   else w).
Proof.
  unfold _setup_default_publishers, settings_has, settings_getattr,
    add_wordpress_publisher.
  assert (bool_decide ("WORDPRESS_URL" ∈ settings_attributes) = true) as ->
    by (vm_compute; reflexivity).
  assert (bool_decide ("WORDPRESS_USERNAME" ∈ settings_attributes) = true) as ->
    by (vm_compute; reflexivity).
  assert (bool_decide ("WORDPRESS_PASSWORD" ∈ settings_attributes) = true) as ->
    by (vm_compute; reflexivity).
  assert (bool_decide ("MEDIUM_TOKEN" ∈ settings_attributes) = false) as ->
    by (vm_compute; reflexivity).
  unfold_monad. cbn.
  destruct (truthy (value "WORDPRESS_URL")); [|reflexivity].
  by destruct (wordpress_site r _ _ _).
Qed.

(** ** The registry *)

Lemma registry_lookup_set name p reg :
  registry_lookup name (registry_set name p reg) = Some p.
Proof.
  induction reg as [|[k q] reg IH]; cbn.
  - by rewrite String.eqb_refl.
  - destruct (String.eqb k name) eqn:Hk; cbn; by rewrite Hk.
Qed.

Lemma registry_lookup_set_ne name p reg n :
  n <> name -> registry_lookup n (registry_set name p reg) = registry_lookup n reg.
Proof.
  intros Hn. induction reg as [|[k q] reg IH]; cbn.
  - destruct (String.eqb name n) eqn:Hk; [|done].
    apply String.eqb_eq in Hk. congruence.
  - destruct (String.eqb k name) eqn:Hk; cbn.
    + destruct (String.eqb k n) eqn:Hkn; [|done].
      apply String.eqb_eq in Hk, Hkn. congruence.
    + by rewrite IH.
Qed.

Lemma registry_lookup_keys name reg :
  name ∈ registry_keys reg <-> is_Some (registry_lookup name reg).
Proof.
  induction reg as [|[k q] reg IH]; cbn.
  - split; [by intros ?%not_elem_of_nil|by intros [? ?]].
  - destruct (String.eqb k name) eqn:Hk.
    + apply String.eqb_eq in Hk as ->. split; [eauto|]. intros _. apply list_elem_of_here.
    + apply String.eqb_neq in Hk. rewrite <- IH. split.
      * intros [?|?]%elem_of_cons; [congruence|done].
      * by apply list_elem_of_further.
Qed.

Lemma registry_keys_set name p reg :
  registry_keys (registry_set name p reg) =
  if decide (name ∈ registry_keys reg) then registry_keys reg
  else registry_keys reg ++ [name].
Proof.
  induction reg as [|[k q] reg IH]; cbn.
  - rewrite decide_False; [done|]. apply not_elem_of_nil.
  - destruct (String.eqb k name) eqn:Hk; cbn.
    + apply String.eqb_eq in Hk as ->. rewrite decide_True; [done|].
      apply list_elem_of_here.
    + apply String.eqb_neq in Hk. fold (registry_keys reg).
      fold (registry_keys (registry_set name p reg)). rewrite IH.
      destruct (decide (name ∈ registry_keys reg)) as [Hin|Hin].
      * rewrite decide_True; [done|]. by apply list_elem_of_further.
      * rewrite decide_False; [done|].
        intros [?|?]%elem_of_cons; [congruence|done].
Qed.

(** X11.  [_setup_default_publishers] never raises.  It registers
    ["default_wordpress"] when [WORDPRESS_URL] is set and the site
    answers, and nothing else: the class [Settings] has no attribute
    [MEDIUM_TOKEN] (the token is read into [MEDIUM_ACCESS_TOKEN]), so the
    Medium publisher is never set up, whatever the token and whatever
    Medium would answer. *)
Theorem default_medium_publisher_is_never_set_up value r w :
  exists w',
    _setup_default_publishers value r w = (Returned tt, w')
    /\ (forall name, name <> "default_wordpress" ->
        registry_lookup name (publishers w') = registry_lookup name (publishers w))
    /\ (forall site,
          truthy (value "WORDPRESS_URL") = true ->
          wordpress_site r (value "WORDPRESS_URL") (value "WORDPRESS_USERNAME")
            (value "WORDPRESS_PASSWORD") = Returned site ->
          registry_lookup "default_wordpress" (publishers w')
          = Some (mkPublisher WordPressPublisher site))
    /\ (forall value' r',
          value' "WORDPRESS_URL" = value "WORDPRESS_URL" ->
          value' "WORDPRESS_USERNAME" = value "WORDPRESS_USERNAME" ->
          value' "WORDPRESS_PASSWORD" = value "WORDPRESS_PASSWORD" ->
          wordpress_site r' = wordpress_site r ->
          _setup_default_publishers value' r' w = (Returned tt, w')).
Proof.
  rewrite setup_default_publishers_eq. eexists. split; [reflexivity|].
  split; [|split].
  - intros name Hname. destruct (truthy (value "WORDPRESS_URL")); [|done].
    destruct (wordpress_site r _ _ _); [|done]. cbn.
    by apply registry_lookup_set_ne.
  - intros site -> ->. cbn. apply registry_lookup_set.
  - intros value' r' H1 H2 H3 H4. rewrite setup_default_publishers_eq.
    by rewrite H1, H2, H3, H4.
Qed.



(** ** Curation and the manual trigger *)

Lemma selected_topic_single env topic w : selected_topic env [topic] w = topic.
Proof. unfold selected_topic. cbn [length]. by rewrite Nat.mod_1_r. Qed.

(** A run that generated was given, by the generator, a dictionary for
    the topic that was selected. *)
Lemma job_body_generated env topics max_words publish_immediately platforms w
    publish_result blog_data w' :
  _generate_and_publish_blog env topics max_words publish_immediately platforms w
    = (Returned (Generated publish_result blog_data), w') ->
  exists d0 w1,
    generate_blog env (selected_topic env topics w) max_words "general" "informative"
      (count_draw w) = (Returned d0, w1)
    /\ blog_data = saved_blog_data env d0 w1
    /\ blog_data !! "topic" = Some (VStr (selected_topic env topics w)).
Proof.
  rewrite job_body_eq.
  destruct (generate_blog env (selected_topic env topics w) max_words
              "general" "informative" (count_draw w)) as [[d0|e] w1] eqn:Hgen.
  2:{ rewrite record_failure_eq. discriminate. }
  destruct (_save_blog_to_database env d0 w1) as [[bd|e] w2] eqn:Hsave.
  2:{ rewrite record_failure_eq. discriminate. }
  destruct (after_save_eq env publish_immediately platforms bd w2)
    as (pr & w0 & -> & _).
  intros [= _ <- _].
  apply save_blog_spec in Hsave as (_ & _ & _ & _ & -> & _).
  exists d0, w1. split; [done|]. split; [done|].
  rewrite saved_blog_data_lookup by done.
  apply generate_blog_returned in Hgen as (_ & raw & _ & Hproc).
  apply process_blog_content_returned in Hproc as (body & title & _ & _ & _ & Hd).
  cbv zeta in Hd. rewrite Hd.
  rewrite !lookup_insert_ne by done. by rewrite lookup_insert_eq.
Qed.

Lemma curate_topic_spec env topic results w :
  exists report w',
    curate_topic env topic results w
      = (Returned (results ++ [Curated topic report]), w')
    /\ publishers w' = publishers w
    /\ publish_calls w' = publish_calls w
    /\ total_published (stats w') = total_published (stats w)
    /\ total_generated (stats w') =
         total_generated (stats w) + (if generation_success report then 1 else 0)
    /\ failed_generations (stats w') =
         failed_generations (stats w) + (if generation_success report then 0 else 1)
    /\ failed_publications (stats w') =
         failed_publications (stats w) + (if generation_success report then 1 else 0)
    /\ match report with
       | Generated publish_result blog_data =>
           publish_result = NotAttempted
           /\ blog_data !! "topic" = Some (VStr topic)
       | GenerationFailed _ => True
       end.
Proof.
  destruct (job_body_spec env [topic] 600 false None w)
    as (report & w' & Hrun & Hp & Hspec).
  exists report, w'. unfold curate_topic, try_except.
  rewrite (bind_returned _ _ _ _ _ Hrun). split; [reflexivity|].
  split; [done|].
  destruct report as [pr bd|e].
  - destruct Hspec as (d0 & w1 & cs & _ & _ & _ & Hc & Htg & Hfg & Htp & Hfp & Hnot & _).
    destruct (Hnot eq_refl) as [-> ->]. rewrite app_nil_r in Hc. cbn in *.
    apply job_body_generated in Hrun as (_ & _ & _ & _ & Htopic).
    rewrite selected_topic_single in Htopic.
    repeat split; (done || lia).
  - destruct Hspec as (-> & _ & Hc). cbn. repeat split; (done || lia).
Qed.

Lemma curation_loop_spec env topics :
  forall acc w,
  exists results w',
    for_each topics (curate_topic env) acc w = (Returned (acc ++ results), w')
    /\ map curated_topic results = topics
    /\ (forall r, r ∈ results ->
        exists report,
          r = Curated (curated_topic r) report
          /\ match report with
             | Generated publish_result blog_data =>
                 publish_result = NotAttempted
                 /\ blog_data !! "topic" = Some (VStr (curated_topic r))
             | GenerationFailed _ => True
             end)
    /\ publishers w' = publishers w
    /\ publish_calls w' = publish_calls w
    /\ total_published (stats w') = total_published (stats w)
    /\ total_generated (stats w') + failed_generations (stats w')
       = total_generated (stats w) + failed_generations (stats w)
         + Z.of_nat (length topics)
    /\ failed_publications (stats w') - failed_publications (stats w)
       = total_generated (stats w') - total_generated (stats w).
Proof.
  induction topics as [|topic topics IH]; intros acc w.
  - exists [], w. rewrite app_nil_r. cbn. repeat split; try lia.
    by intros r ?%not_elem_of_nil.
  - destruct (curate_topic_spec env topic acc w)
      as (report & w1 & Hrun & Hp & Hc & Htp & Htg & Hfg & Hfp & Hrep).
    destruct (IH (acc ++ [Curated topic report]) w1)
      as (results & w' & Hloop & Hmap & Hall & Hp' & Hc' & Htp' & Hsum & Hdiff).
    exists (Curated topic report :: results), w'.
    cbn [for_each]. rewrite (bind_returned _ _ _ _ _ Hrun), Hloop.
    rewrite <- app_assoc. split; [reflexivity|].
    split; [cbn; by rewrite Hmap|]. split.
    { intros r [->|Hr]%elem_of_cons; [by exists report|by apply Hall]. }
    split; [congruence|]. split; [congruence|]. split; [congruence|].
    cbn [length]. destruct (generation_success report); split; lia.
Qed.

(** X12.  [_curate_and_generate_content] never raises and always
    reports success.  It makes one run of the job body for each of the
    first [max_articles] built-in topics, in their order, whatever the
    sources are; each run that generates produces a post on its topic
    and is not published: no publisher is invoked and [total_published]
    stays.  The runs add up to the number of topics in [total_generated]
    and [failed_generations] together, and every generated post is also
    counted in [failed_publications]. *)
Theorem curation_generates_unpublished_posts env sources max_articles w :
  exists results w',
    _curate_and_generate_content env sources max_articles w
      = (Returned (CurationOk (Z.of_nat (length results)) results), w')
    /\ map curated_topic results = PyStr.take max_articles trending_topics
    /\ (0 <= max_articles -> Z.of_nat (length results) = Z.min max_articles 8)
    /\ (forall r, r ∈ results ->
        exists report,
          r = Curated (curated_topic r) report
          /\ match report with
             | Generated publish_result blog_data =>
                 publish_result = NotAttempted
                 /\ blog_data !! "topic" = Some (VStr (curated_topic r))
             | GenerationFailed _ => True
             end)
    /\ publish_calls w' = publish_calls w
    /\ total_published (stats w') = total_published (stats w)
    /\ total_generated (stats w') + failed_generations (stats w')
       = total_generated (stats w) + failed_generations (stats w)
         + Z.of_nat (length results)
    /\ failed_publications (stats w') - failed_publications (stats w)
       = total_generated (stats w') - total_generated (stats w).
Proof.
  unfold _curate_and_generate_content, _extract_topics_from_sources, try_except.
  cbv zeta.
  destruct (curation_loop_spec env (PyStr.take max_articles trending_topics) [] w)
    as (results & w' & Hloop & Hmap & Hall & _ & Hc & Htp & Hsum & Hdiff).
  exists results, w'. rewrite (bind_returned _ _ _ _ _ Hloop). cbn [app].
  assert (length results = length (PyStr.take max_articles trending_topics)) as Hlen.
  { by rewrite <- Hmap, length_map. }
  split; [unfold mret, M_ret; by rewrite Hlen|]. split; [done|].
  split.
  { intros Hn. rewrite Hlen. unfold PyStr.take.
    destruct (max_articles <? 0) eqn:Hneg; [lia|].
    rewrite length_take. cbn [length trending_topics]. lia. }
  split; [done|]. split; [done|]. split; [done|].
  rewrite Hlen. done.
Qed.

(** X13.  [manual_blog_generation] always returns a report.  The post
    it generates is on the topic it was given, never on another one; and
    for a topic that is blank it reports the failure
    ['Topic cannot be empty'] (the built-in topics are not used), counts
    one failed generation, makes no request and stores nothing. *)
Theorem manual_generation_uses_the_given_topic
    env topic max_words publish_immediately platforms w :
  exists report w',
    manual_blog_generation env topic max_words publish_immediately platforms w
      = (Returned report, w')
    /\ match report with
       | Generated _ blog_data =>
           blog_data !! "topic" = Some (VStr topic)
           /\ String.eqb (PyStr.strip topic) "" = false
       | GenerationFailed _ => True
       end
    /\ (String.eqb (PyStr.strip topic) "" = true ->
        report = GenerationFailed "Topic cannot be empty"
        /\ completions w' = completions w
        /\ blog_posts w' = blog_posts w
        /\ publish_calls w' = publish_calls w
        /\ stats w' = incr_failed_generations (stats w)).
Proof.
  unfold manual_blog_generation.
  destruct (job_body_spec env [topic] max_words publish_immediately platforms w)
    as (report & w' & Hrun & _ & _).
  exists report, w'. split; [exact Hrun|]. split.
  - destruct report as [pr bd|e]; [|done].
    apply job_body_generated in Hrun as (d0 & w1 & Hgen & _ & Htopic).
    rewrite selected_topic_single in Htopic, Hgen.
    by apply generate_blog_returned in Hgen as (Hne & _).
  - intros Hblank. rewrite job_body_eq, selected_topic_single in Hrun.
    unfold generate_blog in Hrun. rewrite try_except_reraise, Hblank in Hrun.
    unfold raise in Hrun. rewrite record_failure_eq in Hrun.
    injection Hrun as <- <-.
    pose proof (after_statistics_write_fields env
                  (set_stats incr_failed_generations (count_draw w)))
      as (Hs & _ & Hb & _ & Hc & Hcomp & _).
    cbv zeta in Hs, Hb, Hc, Hcomp. rewrite Hs, Hb, Hc, Hcomp. done.
Qed.

(** ** Storing and publishing *)

(** X14.  With a [DATABASE_TYPE] that is neither ["mongodb"] nor
    ["mysql"] (in any letter case), a run of the job body that generates
    stores no record, and still reports the generation as a success and
    counts it in [total_generated]. *)
Theorem unsupported_database_counts_without_storing
    env topics max_words publish_immediately platforms w
    publish_result blog_data w' :
  database_type env <> "mongodb" ->
  database_type env <> "mysql" ->
  _generate_and_publish_blog env topics max_words publish_immediately platforms w
    = (Returned (Generated publish_result blog_data), w') ->
  blog_posts w' = blog_posts w
  /\ total_generated (stats w') = total_generated (stats w) + 1
  /\ failed_generations (stats w') = failed_generations (stats w).
Proof.
  intros Hmongo%String.eqb_neq Hmysql%String.eqb_neq Hrun.
  destruct (job_body_spec env topics max_words publish_immediately platforms w)
    as (report & w0 & Hrun0 & _ & Hspec).
  rewrite Hrun in Hrun0. injection Hrun0 as <- <-.
  destruct Hspec as (d0 & w1 & cs & _ & _ & Hrows & _ & Htg & Hfg & _).
  unfold saved_rows in Hrows. rewrite Hmongo, app_nil_r in Hrows.
  done.
Qed.

Lemma unsupported_database_witness :
  match sqlite_run with
  | (Returned (Generated publish_result blog_data), w') =>
      blog_posts w' = blog_posts (world_with [])
      /\ total_generated (stats w') = total_generated (stats (world_with [])) + 1
      /\ failed_generations (stats w') = failed_generations (stats (world_with []))
  | _ => False
  end.
Proof.
  assert (database_type env_sqlite <> "mongodb") as H1 by (vm_compute; discriminate).
  assert (database_type env_sqlite <> "mysql") as H2 by (vm_compute; discriminate).
  apply generated_run_cases.
  - vm_compute. reflexivity.
  - intros publish_result blog_data w' Hrun.
    exact (unsupported_database_counts_without_storing env_sqlite ["x"] 800 false
             None (world_with []) publish_result blog_data w' H1 H2 Hrun).
Defined.

(** The names that have an entry after the fan-out, and their number. *)
Lemma fan_out_dom title content tags l :
  forall res w R w',
  for_each l (publish_one title content tags) res w = (Returned R, w') ->
  (forall n, is_Some (R !! n) <-> n ∈ l \/ is_Some (res !! n))
  /\ (size R <= size res + length l)%nat.
Proof.
  induction l as [|x l IH]; intros res w R w'; cbn [for_each].
  - unfold_monad. intros [= <- <-]. split; [|cbn; lia].
    intros n. split; [auto|]. intros [?%not_elem_of_nil|?]; done.
  - rewrite (bind_returned _ _ _ _ _ (publish_one_eq title content tags x res w)).
    intros [Hdom Hsize]%IH. split.
    + intros n. rewrite Hdom, lookup_insert_is_Some, elem_of_cons.
      destruct (decide (x = n)) as [->|Hne]; [tauto|]. split.
      * intros [?|[?|[_ ?]]]; auto; congruence.
      * intros [[?|?]|?]; auto; congruence.
    + rewrite map_size_insert in Hsize. cbn [length].
      destruct (res !! x); cbn in Hsize; lia.
Qed.

(** X15.  [publish_to_all] gives every target name exactly one
    entry and no other name any, and it invokes the registered adapters
    in the order of the target list, once for each time a name is
    listed: a name listed twice is published twice and reported once.
    An empty list of platforms means all of them. *)
Theorem publish_to_all_reports_each_target_once title content tags platforms w :
  exists results w',
    publish_to_all title content tags platforms w = (Returned results, w')
    /\ (forall n, is_Some (results !! n) <-> n ∈ targets platforms w)
    /\ (size results <= length (targets platforms w))%nat
    /\ map call_name (new_calls w w')
       = filter (fun n => invoked (publishers w) n = true) (targets platforms w)
    /\ publish_to_all title content tags (Some []) w
       = publish_to_all title content tags None w.
Proof.
  rewrite publish_to_all_eq.
  destruct (fan_out_returns title content tags (targets platforms w) ∅ w)
    as (results & Hrun).
  eexists results, _. split; [exact Hrun|].
  destruct (fan_out_dom _ _ _ _ _ _ _ _ Hrun) as [Hdom Hsize].
  split; [|split; [|split]].
  - intros n. rewrite Hdom, lookup_empty. split; [|auto].
    intros [?|[? ?]]; done.
  - rewrite map_size_empty in Hsize. lia.
  - rewrite (fan_out_new_calls _ _ _ _ _ _ _ _ Hrun).
    rewrite <- list_fmap_compose. apply list_fmap_id.
  - reflexivity.
Qed.

Lemma successes_le_size results :
  0 <= successes results <= Z.of_nat (size results).
Proof.
  unfold successes. split; [lia|].
  rewrite <- (length_map_to_list results), <- (length_fmap snd (map_to_list results)).
  apply inj_le, length_filter.
Qed.

(** X16.  [_publish_blog] never raises and never returns the job
    body's initial value.  When it reports an outcome, [total_platforms]
    is the length of the target list, [successful_platforms] lies
    between zero and [total_platforms], [success] says that it is at
    least one, and the results have one entry for each target name.
    With an empty registry it reports ['No publishers configured'], and
    for a dictionary without a title or without a content it reports the
    missing key; in these cases no publisher is invoked. *)
Theorem publish_blog_report_is_consistent blog_data platforms w :
  exists report cs,
    _publish_blog blog_data platforms w = (Returned report, log_calls cs w)
    /\ report <> NotAttempted
    /\ (forall success k n results,
          report = PublishOutcome success k n results ->
          n = Z.of_nat (length (targets platforms w))
          /\ 0 <= k <= n
          /\ (success = true <-> 1 <= k)
          /\ (forall name, is_Some (results !! name) <-> name ∈ targets platforms w))
    /\ (publishers w = [] ->
        report = PublishError "No publishers configured" /\ cs = [])
    /\ (publishers w <> [] -> blog_data !! "title" = None ->
        report = PublishError "'title'" /\ cs = [])
    /\ (publishers w <> [] -> is_Some (blog_data !! "title") ->
        blog_data !! "content" = None ->
        report = PublishError "'content'" /\ cs = []).
Proof.
  unfold _publish_blog, try_except.
  unfold mbind at 1. unfold M_bind, get_world.
  destruct (publishers w) as [|reg0 reg] eqn:Hreg.
  { exists (PublishError "No publishers configured"), [].
    split; [done|]. split; [done|]. split; [discriminate|].
    split; [done|]. split; done. }
  unfold dict_item.
  destruct (blog_data !! "title") as [title|].
  2:{ exists (PublishError (key_error "title")), [].
      split; [done|]. split; [done|]. split; [discriminate|].
      split; [discriminate|]. split; [done|]. by intros _ [? ?]. }
  destruct (blog_data !! "content") as [content|].
  2:{ exists (PublishError (key_error "content")), [].
      split; [done|]. split; [done|]. split; [discriminate|].
      split; [discriminate|]. split; [discriminate|]. done. }
  unfold mbind at 1. unfold M_bind. unfold mret at 1. unfold M_ret.
  unfold mbind at 1. unfold M_bind. unfold mret at 1. unfold M_ret.
  rewrite <- Hreg.
  set (tags := dict_get_default blog_data "tags" (VList [])).
  set (l := or_list platforms (registry_keys (publishers w))).
  destruct (fan_out_returns title content tags l ∅ w) as (results & Hres).
  match type of Hres with _ = (_, ?x) => set (w1 := x) in * end.
  assert (publish_to_all title content tags (Some l) w = (Returned results, w1)) as Hall.
  { rewrite publish_to_all_eq. unfold targets, l. rewrite or_list_idem. exact Hres. }
  rewrite (bind_returned _ _ _ _ _ Hall).
  destruct (fan_out_dom _ _ _ _ _ _ _ _ Hres) as [Hdom Hsize].
  rewrite map_size_empty in Hsize.
  destruct (count_successes results w1) as [[k|e] w2] eqn:Hcount.
  - apply count_successes_returned in Hcount as Hc. destruct Hc as (-> & -> & Hnone).
    rewrite (bind_returned _ _ _ _ _ Hcount). unfold mret, M_ret.
    eexists _, _. split; [reflexivity|]. split; [done|]. split.
    + intros s k n res [= <- <- <- <-].
      pose proof (successes_le_size results) as Hle.
      split; [done|]. split; [fold l; lia|]. split.
      * rewrite Z.ltb_lt. split; lia.
      * intros name. rewrite Hdom, lookup_empty. split; [|auto].
        intros [?|[? ?]]; done.
    + split; [intros; congruence|]. split; intros; congruence.
  - apply count_successes_raised in Hcount as Hc. destruct Hc as (-> & _).
    rewrite (bind_raised _ _ _ _ _ Hcount). unfold mret, M_ret.
    eexists _, _. split; [reflexivity|]. split; [done|]. split; [discriminate|].
    split; [intros; congruence|]. split; intros; congruence.
Qed.

(** ** The registry and the adapters *)

Lemma fan_out_single title content tags name w :
  publish_to_all title content tags (Some [name]) w =
  (Returned (<[name := entry title content tags w name]> ∅),
   if invoked (publishers w) name
   then log_call (mkCall name title content tags) w else w).
Proof.
  rewrite publish_to_all_eq. cbn [targets or_list for_each].
  by rewrite (bind_returned _ _ _ _ _ (publish_one_eq title content tags name ∅ w)).
Qed.

(** X17.  [add_custom_publisher] always registers the adapter: the
    name then stands for it, the other names stand for what they stood
    for, a name that was registered keeps its place among the keys and a
    new one goes last; and publishing to that name invokes the new
    adapter once and records what it does. *)
Theorem add_custom_publisher_registers r name base_url api_key w :
  exists w',
    add_custom_publisher r name base_url api_key w = (Returned tt, w')
    /\ registry_lookup name (publishers w')
       = Some (mkPublisher CustomWebsitePublisher (custom_site r base_url api_key))
    /\ (forall n, n <> name ->
        registry_lookup n (publishers w') = registry_lookup n (publishers w))
    /\ registry_keys (publishers w')
       = (if decide (name ∈ registry_keys (publishers w))
          then registry_keys (publishers w)
          else registry_keys (publishers w) ++ [name])
    /\ (forall title content tags,
        exists results w'',
          publish_to_all title content tags (Some [name]) w' = (Returned results, w'')
          /\ results !! name
             = Some (recorded (custom_site r base_url api_key (publish_calls w')
                                 title content tags))
          /\ new_calls w' w'' = [mkCall name title content tags]).
Proof.
  eexists. split; [reflexivity|]. cbn [publishers set_publishers].
  split; [apply registry_lookup_set|].
  split; [intros n Hn; by apply registry_lookup_set_ne|].
  split; [apply registry_keys_set|].
  intros title content tags. rewrite fan_out_single.
  set (w' := set_publishers _ w).
  assert (registry_lookup name (publishers w')
          = Some (mkPublisher CustomWebsitePublisher (custom_site r base_url api_key)))
    as Hreg by apply registry_lookup_set.
  assert (invoked (publishers w') name = true) as Hinv.
  { unfold invoked. by rewrite Hreg. }
  rewrite Hinv. eexists _, _. split; [reflexivity|]. split.
  - rewrite lookup_insert_eq. unfold entry. by rewrite Hreg, Hinv.
  - apply (new_calls_log_calls [mkCall name title content tags] w').
Qed.

(** X18.  When the WordPress site cannot be reached,
    [add_wordpress_publisher] returns as if nothing had happened: no
    exception, the registry as before.  Publishing to a name that was to
    be registered that way then reports ['Publisher not configured'] and
    invokes nothing. *)
Theorem failed_publisher_setup_is_silent r name url username password e w :
  wordpress_site r url username password = Raised e ->
  add_wordpress_publisher r name url username password w = (Returned tt, w)
  /\ (registry_lookup name (publishers w) = None ->
      forall title content tags,
      exists results w',
        publish_to_all title content tags (Some [name]) w = (Returned results, w')
        /\ results !! name
           = Some (ODict {[ "success" := VBool false;
                            "error" := VStr "Publisher not configured" ]})
        /\ new_calls w w' = []).
Proof.
  intros Hsite. split.
  - unfold add_wordpress_publisher. unfold_monad. by rewrite Hsite.
  - intros Hreg title content tags. rewrite fan_out_single.
    assert (invoked (publishers w) name = false) as Hinv.
    { unfold invoked. by rewrite Hreg. }
    rewrite Hinv. eexists _, _. split; [reflexivity|]. split.
    + rewrite lookup_insert_eq. unfold entry. by rewrite Hreg.
    + apply (new_calls_log_calls [] w).
Qed.

Lemma failed_publisher_setup_witness :
  add_wordpress_publisher remotes_down "blog" (VStr "https://blog.example")
    (VStr "admin") (VStr "secret") (world_with []) = (Returned tt, world_with [])
  /\ (registry_lookup "blog" (publishers (world_with [])) = None ->
      forall title content tags,
      exists results w',
        publish_to_all title content tags (Some ["blog"]) (world_with [])
          = (Returned results, w')
        /\ results !! "blog"
           = Some (ODict {[ "success" := VBool false;
                            "error" := VStr "Publisher not configured" ]})
        /\ new_calls (world_with []) w' = []).
Proof.
  apply (failed_publisher_setup_is_silent remotes_down "blog"
           (VStr "https://blog.example") (VStr "admin") (VStr "secret")
           "WordPress connection failed: timed out" (world_with [])).
  reflexivity.
Defined.

Lemma failure_with_post_id_fails e :
  result_success (failure_with_post_id e) = false
  /\ failure_with_post_id e <> ONone.
Proof.
  split; [|done]. unfold result_success, failure_with_post_id, dict_get_default.
  by rewrite lookup_insert_eq.
Qed.

Lemma outcome_neither (r : PyObj) (P1 P2 : Prop) :
  result_success r = false -> r <> ONone -> ~ P1 -> ~ P2 ->
  (result_success r = true <-> P1) /\ (r = ONone <-> P2).
Proof. intros -> ? ? ?. split; split; (done || discriminate). Qed.

(** X19.  [NextJSAPIPublisher.publish_post] never raises.  It reports
    success exactly for a reply with status 201 and a JSON object as
    body, and it returns [None] instead of a dictionary exactly for a
    reply whose status is none of 201, 400, 401, 429 and no error status
    (400 to 599) either: 200, for one. *)
Theorem nextjs_publish_post_outcomes x :
  exists r,
    NextJSAPIPublisher_publish_post x = Returned r
    /\ (result_success r = true <->
        exists result_data http_error,
          reply x = HttpResponse 201 (BodyObject result_data) http_error)
    /\ (r = ONone <->
        exists status_code body http_error,
          reply x = HttpResponse status_code body http_error
          /\ status_code <> 201 /\ status_code <> 400
          /\ status_code <> 401 /\ status_code <> 429
          /\ ~ (400 <= status_code < 600)).
Proof.
  unfold NextJSAPIPublisher_publish_post.
  destruct (reply x) as [| |e|status body err].
  1-3: eexists; split; [reflexivity|];
       apply outcome_neither; try apply failure_with_post_id_fails;
       [intros (?&?&[=])|intros (?&?&?&[=]&_)].
  destruct (status =? 201) eqn:H201.
  { apply Z.eqb_eq in H201 as ->. destruct body as [d|text].
    - eexists. split; [reflexivity|]. split.
      + unfold result_success, dict_get_default. rewrite lookup_insert_eq.
        split; [eauto|done].
      + split; [discriminate|]. intros (s & b & e' & [= <- _ _] & Hne & _). done.
    - eexists. split; [reflexivity|].
      apply outcome_neither; try apply failure_with_post_id_fails.
      + intros (d & e' & [=]).
      + intros (s & b & e' & [= <- _ _] & Hne & _). done. }
  apply Z.eqb_neq in H201.
  destruct (status =? 400) eqn:H400.
  { apply Z.eqb_eq in H400 as ->.
    destruct body as [d|text]; (eexists; split; [reflexivity|]).
    - apply outcome_neither; [|done| |].
      + unfold result_success, dict_get_default. by rewrite lookup_insert_eq.
      + intros (d' & e' & [=]).
      + intros (s & b & e' & [= <- _ _] & _ & Hne & _). done.
    - apply outcome_neither; try apply failure_with_post_id_fails.
      + intros (d' & e' & [=]).
      + intros (s & b & e' & [= <- _ _] & _ & Hne & _). done. }
  apply Z.eqb_neq in H400.
  destruct (status =? 401) eqn:H401.
  { apply Z.eqb_eq in H401 as ->. eexists. split; [reflexivity|].
    apply outcome_neither; [|done| |].
    - unfold result_success, dict_get_default. by rewrite lookup_insert_eq.
    - intros (d' & e' & [=]).
    - intros (s & b & e' & [= <- _ _] & _ & _ & Hne & _). done. }
  apply Z.eqb_neq in H401.
  destruct (status =? 429) eqn:H429.
  { apply Z.eqb_eq in H429 as ->. eexists. split; [reflexivity|].
    apply outcome_neither; try apply failure_with_post_id_fails.
    - intros (d' & e' & [=]).
    - intros (s & b & e' & [= <- _ _] & _ & _ & _ & Hne & _). done. }
  apply Z.eqb_neq in H429.
  destruct ((400 <=? status) && (status <? 600)) eqn:Herr.
  - apply andb_prop in Herr as [H1%Z.leb_le H2%Z.ltb_lt].
    eexists. split; [reflexivity|].
    apply outcome_neither; try apply failure_with_post_id_fails.
    + intros (d & e' & [= -> _ _]). done.
    + intros (s & b & e' & [= <- _ _] & _ & _ & _ & _ & Hne). lia.
  - exists ONone. split; [reflexivity|]. split.
    + split; [discriminate|]. intros (d & e' & [= -> _ _]). done.
    + split; [|done]. intros _. exists status, body, err.
      repeat split; try done.
      apply andb_false_iff in Herr as [H%Z.leb_gt|H%Z.ltb_ge]; lia.
Qed.

(** X26.  [get_statistics] changes nothing, and its
    [publishers_configured] counts the names of the registry: adding an
    adapter under a new name raises it by one, adding one under a name
    that is taken leaves it as it is; the counters and the number of
    scheduled jobs it reports are not affected by the registration. *)
Theorem publishers_configured_counts_names r name base_url api_key is_running w :
  exists before after w',
    get_statistics is_running w = (Returned before, w)
    /\ add_custom_publisher r name base_url api_key w = (Returned tt, w')
    /\ get_statistics is_running w' = (Returned after, w')
    /\ st_publishers_configured before = Z.of_nat (length (publishers w))
    /\ st_publishers_configured after
       = st_publishers_configured before
         + (if decide (name ∈ registry_keys (publishers w)) then 0 else 1)
    /\ st_stats after = st_stats before
    /\ st_scheduled_jobs after = st_scheduled_jobs before.
Proof.
  eexists _, _, _. split; [reflexivity|]. split; [reflexivity|].
  split; [reflexivity|]. cbn.
  split; [done|]. split; [|done].
  pose proof (registry_keys_set name
                (mkPublisher CustomWebsitePublisher (custom_site r base_url api_key))
                (publishers w)) as Hkeys.
  apply (f_equal length) in Hkeys. unfold registry_keys in Hkeys at 1 3.
  rewrite !length_map in Hkeys. rewrite Hkeys.
  destruct (decide (name ∈ registry_keys (publishers w))).
  - unfold registry_keys. rewrite length_map. lia.
  - unfold registry_keys. rewrite length_app, length_map. cbn. lia.
Qed.

(** ** [WordPressPublisher.publish_post] *)

Lemma failure_with_post_id_error e :
  match failure_with_post_id e with
  | ODict d => d !! "error" = Some (VStr e)
  | ONone => False
  end.
Proof.
  unfold failure_with_post_id. rewrite lookup_insert_ne by done.
  by rewrite lookup_insert_eq.
Qed.

Lemma prepare_post_data_eq title content tags category status featured_image w :
  _prepare_post_data title content tags category status featured_image w =
  if category_without_tags tags category
  then (Raised (key_error "terms_names"), w)
  else (Returned (prepared_post_data title content tags category status (clock w)),
        tick w).
Proof.
  unfold _prepare_post_data, category_without_tags, prepared_post_data.
  unfold_monad.
  destruct category as [c|]; cbn [opt_value default].
  - destruct (truthy (VStr c)); destruct (truthy tags); reflexivity.
  - cbn [truthy andb]. destruct (truthy tags); reflexivity.
Qed.

(** X20.  [WordPressPublisher.publish_post] never raises: it always
    returns a dictionary.  The dictionary reports success exactly when
    the connection check works, the call is not one with a category and
    without tags, and the site accepts the post.  With a category and
    without tags it reports the error ['terms_names'], the key
    [_prepare_post_data] looks up before it is there, and the post is
    not sent.  When the connection check fails nothing else is done. *)
Theorem wordpress_publish_post_outcomes
    site title content tags category status featured_image w :
  exists d w',
    WordPressPublisher_publish_post site title content tags category status
      featured_image w = (Returned (ODict d), w')
    /\ (result_success (ODict d) = true <->
        (exists u, wp_getUsers site = Returned u)
        /\ category_without_tags tags category = false
        /\ exists post_id,
             wp_newPost site
               (prepared_post_data title content tags category status (clock w))
             = Returned post_id)
    /\ (forall e, wp_getUsers site = Raised e ->
        d !! "error" = Some (VStr ("Failed to get blog info: " +:+ e)) /\ w' = w)
    /\ ((exists u, wp_getUsers site = Returned u) ->
        category_without_tags tags category = true ->
        d !! "error" = Some (VStr "'terms_names'") /\ w' = w).
Proof.
  assert (forall e, failure_with_post_id e
                    = ODict {[ "success" := VBool false; "error" := VStr e;
                               "post_id" := VNone ]}) as Hdict by done.
  assert (forall e, result_success
                      (ODict {[ "success" := VBool false; "error" := VStr e;
                                "post_id" := VNone ]}) = false) as Hf.
  { intros e. apply (failure_with_post_id_fails e). }
  assert (forall e, ({[ "success" := VBool false; "error" := VStr e;
                        "post_id" := VNone ]} : gmap string Value) !! "error"
                    = Some (VStr e)) as He.
  { intros e. apply (failure_with_post_id_error e). }
  unfold WordPressPublisher_publish_post, _get_blog_info, try_except.
  destruct (wp_getUsers site) as [u|e] eqn:Husers.
  2:{ unfold_monad. rewrite Hdict. eexists _, _. split; [reflexivity|].
      split; [|split].
      - rewrite Hf. split; [discriminate|]. by intros [[? [=]] _].
      - intros e' [= <-]. split; [apply He|done].
      - by intros [? [=]]. }
  unfold mbind at 1. unfold M_bind. unfold mret at 1. unfold M_ret.
  unfold mbind at 1. unfold M_bind.
  rewrite prepare_post_data_eq.
  destruct (category_without_tags tags category).
  { rewrite Hdict. eexists _, _. split; [reflexivity|].
    split; [|split].
    - rewrite Hf. split; [discriminate|]. by intros (_ & [=] & _).
    - discriminate.
    - intros _ _. split; [apply He|done]. }
  destruct (wp_newPost site
              (prepared_post_data title content tags category status (clock w)))
    as [post_id|e] eqn:Hpost.
  - unfold_monad. eexists _, _. split; [reflexivity|]. split; [|split].
    + unfold result_success, dict_get_default. rewrite lookup_insert_eq.
      split; [eauto|done].
    + discriminate.
    + discriminate.
  - unfold_monad. rewrite Hdict. eexists _, _. split; [reflexivity|].
    split; [|split].
    + rewrite Hf. split; [discriminate|]. by intros (_ & _ & ? & [=]).
    + discriminate.
    + discriminate.
Qed.

(** ** The excerpt of [NextJSAPIPublisher.publish_post] *)

Lemma str_length l : PyStr.len (PyStr.str l) = Z.of_nat (length l).
Proof. by rewrite len_chars, chars_str. Qed.

Lemma len_app a b : PyStr.len (a +:+ b) = PyStr.len a + PyStr.len b.
Proof. rewrite !len_chars, chars_app, length_app. lia. Qed.

Lemma strip_len s : PyStr.len (PyStr.strip s) <= PyStr.len s.
Proof.
  rewrite !len_chars, strip_chars.
  destruct (strip_by_stretch PyStr.is_space (PyStr.chars s)) as (a & b & H).
  rewrite H at 2. rewrite !length_app. lia.
Qed.

Lemma prefix_app p x : String.prefix p (p +:+ x) = true.
Proof.
  induction p as [|c p IH]; [by destruct x|].
  change (String c p +:+ x) with (String c (p +:+ x)). cbn.
  destruct (ascii_dec c c); [exact IH|done].
Qed.

Lemma endswith_app s sfx : PyStr.endswith (s +:+ sfx) sfx = true.
Proof.
  unfold PyStr.endswith.
  rewrite <- (str_chars (String.rev (s +:+ sfx))), chars_rev, chars_app.
  rewrite rev_app_distr, str_app, <- chars_rev, str_chars.
  apply prefix_app.
Qed.

(** X21.  When no excerpt is given, the excerpt
    [NextJSAPIPublisher.publish_post] sends is the content itself for a
    content of at most 150 characters, and otherwise a text of at most
    153 characters that ends in ["..."]. *)
Theorem nextjs_excerpt_is_short excerpt content :
  truthy (opt_value excerpt) = false ->
  (PyStr.len content <= 150 ->
   NextJSAPIPublisher_excerpt excerpt content = content)
  /\ (150 < PyStr.len content ->
      PyStr.len (NextJSAPIPublisher_excerpt excerpt content) <= 153
      /\ PyStr.endswith (NextJSAPIPublisher_excerpt excerpt content) "..." = true).
Proof.
  intros Hex. unfold NextJSAPIPublisher_excerpt. rewrite Hex.
  destruct (150 <? PyStr.len content) eqn:Hlen.
  - apply Z.ltb_lt in Hlen. split; [lia|]. intros _. split.
    + rewrite len_app. change (PyStr.len "...") with 3.
      pose proof (strip_len (PyStr.take_str 150 content)) as Hs.
      unfold PyStr.take_str in Hs at 2. rewrite str_length in Hs.
      change (PyStr.take 150 ?l) with (firstn 150 l) in Hs.
      rewrite length_take in Hs. lia.
    + apply endswith_app.
  - apply Z.ltb_ge in Hlen. split; [done|lia].
Qed.

Lemma nextjs_excerpt_witness :
  truthy (opt_value None) = false
  /\ (PyStr.len "short" <= 150 -> NextJSAPIPublisher_excerpt None "short" = "short")
  /\ (150 < PyStr.len "short" ->
      PyStr.len (NextJSAPIPublisher_excerpt None "short") <= 153
      /\ PyStr.endswith (NextJSAPIPublisher_excerpt None "short") "..." = true).
Proof.
  assert (truthy (opt_value None) = false) as H by reflexivity.
  exact (conj H (nextjs_excerpt_is_short None "short" H)).
Defined.

(** ** The database name of [connect_mongodb] *)

Lemma split_on_go_pieces sep cur l :
  forallb (fun c => negb (Ascii.eqb c sep)) cur = true ->
  Forall (fun s => free_of sep s = true) (PyStr.split_on_go sep cur l).
Proof.
  assert (forall cur, forallb (fun c => negb (Ascii.eqb c sep)) cur = true ->
                      free_of sep (PyStr.str (rev cur)) = true) as Hrev.
  { intros cur' H. unfold free_of. rewrite chars_str.
    rewrite forallb_forall in *. intros x Hx. apply H. by apply in_rev. }
  revert cur. induction l as [|c l IH]; intros cur Hcur; cbn.
  - constructor; [by apply Hrev|constructor].
  - destruct (Ascii.eqb c sep) eqn:Hc.
    + constructor; [by apply Hrev|by apply IH].
    + apply IH. cbn. by rewrite Hc, Hcur.
Qed.

Lemma last_cons_nonempty {A} (x : A) l d : l <> [] -> List.last (x :: l) d = List.last l d.
Proof. by destruct l. Qed.

(** The last piece of a text that ends with a separator and a stretch
    free of separators is that stretch. *)
Lemma split_on_go_last sep cur l tail d :
  forallb (fun c => negb (Ascii.eqb c sep)) tail = true ->
  List.last (PyStr.split_on_go sep cur (l ++ sep :: tail)) d = PyStr.str tail.
Proof.
  intros Htail. revert cur. induction l as [|c l IH]; intros cur.
  - cbn [app PyStr.split_on_go]. rewrite Ascii.eqb_refl.
    assert (PyStr.split_on_go sep [] tail = [PyStr.str tail]) as ->; [|done].
    rewrite <- (app_nil_r tail) at 1. rewrite (split_on_go_piece _ _ _ _ Htail).
    cbn. by rewrite app_nil_r, rev_involutive.
  - cbn [app PyStr.split_on_go]. destruct (Ascii.eqb c sep).
    + rewrite last_cons_nonempty by apply split_on_go_nonempty. apply IH.
    + apply IH.
Qed.

Lemma has_slash_free s : has_slash s = negb (free_of "/" s).
Proof.
  unfold has_slash, free_of. induction (PyStr.chars s) as [|c l IH]; [done|].
  cbn. rewrite IH. by destruct (Ascii.eqb c "/").
Qed.

(** X22.  The database name [connect_mongodb] takes from
    [MONGODB_URI] is never empty and holds no slash.  It is whatever
    follows the last slash of the URI, so for a URI without a path, such
    as the default ["mongodb://localhost:27017"], it is the host and
    port; ["ai_automation"] is used only for a URI without any slash or
    with nothing after its last one. *)
Theorem mongodb_db_name_is_the_last_segment uri :
  mongodb_db_name uri <> ""
  /\ has_slash (mongodb_db_name uri) = false
  /\ (has_slash uri = false -> mongodb_db_name uri = "ai_automation")
  /\ (forall before after,
        uri = before +:+ "/" +:+ after -> has_slash after = false ->
        mongodb_db_name uri = if String.eqb after "" then "ai_automation" else after).
Proof.
  unfold mongodb_db_name. cbv zeta.
  assert (forall before after,
            uri = before +:+ "/" +:+ after -> has_slash after = false ->
            has_slash uri = true
            /\ List.last (PyStr.split_on "/" uri) "" = after) as Hlast.
  { intros before after -> Hafter. split.
    - unfold has_slash. rewrite !chars_app, existsb_app. cbn.
      by rewrite orb_true_r.
    - unfold PyStr.split_on. rewrite !chars_app. cbn [PyStr.chars list_ascii_of_string app].
      rewrite split_on_go_last; [apply str_chars|].
      rewrite has_slash_free in Hafter. by apply negb_false_iff in Hafter. }
  assert (has_slash (List.last (PyStr.split_on "/" uri) "") = false) as Hfree.
  { rewrite has_slash_free. apply negb_false_iff.
    pose proof (split_on_go_pieces "/" [] (PyStr.chars uri) eq_refl) as Hall.
    fold (PyStr.split_on "/" uri) in Hall.
    destruct (exists_last (l := PyStr.split_on "/" uri)) as (ps & p & Hsplit).
    { apply split_on_go_nonempty. }
    rewrite Hsplit in *. rewrite List.last_last.
    apply Forall_app in Hall as [_ Hp]. by apply Forall_cons in Hp as [Hp _]. }
  split; [|split; [|split]].
  - destruct (has_slash uri); [|done].
    destruct (List.last (PyStr.split_on "/" uri) "") as [|c s]; done.
  - destruct (has_slash uri); [|done].
    destruct (List.last (PyStr.split_on "/" uri) "") as [|c s] eqn:Hl; [done|].
    exact Hfree.
  - by intros ->.
  - intros before after Huri Hafter.
    destruct (Hlast before after Huri Hafter) as [-> ->].
    by destruct after.
Qed.

(** ** The SEO helpers *)

Example py_count_ex :
  py_count "aaa" "aa" = 1 /\ py_count "abcabc" "" = 7 /\ py_count "a#b##c" "#" = 3
  /\ py_count "abab" "ab" = 2 /\ py_count "" "x" = 0 /\ py_count "" "" = 1.
Proof. repeat split; reflexivity. Qed.

Example py_contains_ex :
  py_contains "abc" "" = true /\ py_contains "abc" "bc" = true
  /\ py_contains "abc" "cb" = false /\ py_contains "abc" "abcd" = false.
Proof. repeat split; reflexivity. Qed.

Example add_seo_enhancements_ex :
  _add_seo_enhancements
    ("# Title" +:+ nl +:+ nl +:+ "  Intro text here." +:+ nl +:+ "- item" +:+ nl +:+ "More")
    ["AI"; "Cloud"]
  = "# Title" +:+ nl +:+ nl +:+ "  Intro text here. Understanding AI is crucial."
    +:+ nl +:+ "- item" +:+ nl +:+ "More"
  /\ _add_seo_enhancements
       ("# Title" +:+ nl +:+ nl +:+ "About cloud things." +:+ nl +:+ "More")
       ["AI"; "Cloud"; "x"]
     = "# Title" +:+ nl +:+ nl +:+ "About cloud things." +:+ nl +:+ "More"
  /\ _add_seo_enhancements
       ("# Title" +:+ nl +:+ nl +:+ "About x things." +:+ nl +:+ "More")
       ["AI"; "Cloud"; "x"]
     = "# Title" +:+ nl +:+ nl +:+ "About x things. Understanding AI is crucial."
       +:+ nl +:+ "More"
  /\ _add_seo_enhancements ("# Title" +:+ nl +:+ "- a" +:+ nl +:+ "  " +:+ nl +:+ "#b") ["AI"]
     = "# Title" +:+ nl +:+ "- a" +:+ nl +:+ "  " +:+ nl +:+ "#b"
  /\ _add_seo_enhancements "text" [] = "text".
Proof. repeat split; reflexivity. Qed.

Lemma seo_score_is_between_30_and_100_aux float_sum content keyword_analysis :
  keyword_analysis <> [] ->
  exists score,
    _calculate_seo_score float_sum content keyword_analysis = Returned score
    /\ 30 <= score <= 100 /\ score mod 5 = 0.
Proof.
  intros Hne. destruct keyword_analysis as [|data rest]; [done|].
  unfold _calculate_seo_score. cbv zeta. eexists. split; [reflexivity|].
  destruct ((300 <=? _) && (_ <=? 1500)); [|destruct (_ <? 300)];
    (destruct (3 <=? heading_count content);
       [|destruct (2 <=? heading_count content)]);
    (destruct (PrimFloat.leb _ _ && PrimFloat.leb _ _);
       [|destruct (PrimFloat.ltb _ _)]);
    split; try lia; reflexivity.
Qed.

(** X23.  [_calculate_seo_score] raises the division by zero for an
    analysis of no keyword; for any other it returns a score between 30
    and 100 that is a multiple of 5, so the clamping to the range 0 to
    100 never changes it. *)
Theorem seo_score_is_between_30_and_100 float_sum content keyword_analysis :
  (keyword_analysis = [] ->
   _calculate_seo_score float_sum content keyword_analysis
   = Raised "division by zero")
  /\ (keyword_analysis <> [] ->
      exists score,
        _calculate_seo_score float_sum content keyword_analysis = Returned score
        /\ 30 <= score <= 100
        /\ score mod 5 = 0).
Proof.
  split; [by intros ->|]. apply seo_score_is_between_30_and_100_aux.
Qed.

Lemma assoc_set_keys {A} k (v : A) d :
  (forall x, x ∈ map fst (assoc_set k v d) <-> x = k \/ x ∈ map fst d)
  /\ (length d <= length (assoc_set k v d) <= S (length d))%nat.
Proof.
  induction d as [|[k' v'] d [IH1 IH2]]; cbn.
  - split; [|lia]. intros x. rewrite list_elem_of_singleton. split; [auto|].
    intros [?|?%not_elem_of_nil]; done.
  - destruct (String.eqb k' k) eqn:Hk; cbn.
    + apply String.eqb_eq in Hk as ->. split; [|lia].
      intros x. rewrite elem_of_cons. tauto.
    + split; [|lia]. intros x. rewrite !elem_of_cons, IH1. tauto.
Qed.

Lemma analyse_keywords_spec round2 content keywords :
  Z.of_nat (length (PyStr.split content)) <> 0 ->
  forall analysis,
  exists analysis',
    analyse_keywords round2 content (PyStr.lower content) keywords analysis
      = Returned analysis'
    /\ (forall k, k ∈ map fst analysis' <-> k ∈ keywords \/ k ∈ map fst analysis)
    /\ (length analysis <= length analysis'
        <= length analysis + length keywords)%nat
    /\ (keywords <> [] -> analysis' <> []).
Proof.
  intros Hwords. induction keywords as [|k ks IH]; intros analysis.
  - exists analysis. split; [done|]. split.
    + intros k. split; [auto|]. intros [?%not_elem_of_nil|?]; done.
    + split; [cbn; lia|done].
  - cbn [analyse_keywords]. unfold analyse_keyword, true_div.
    destruct (Z.of_nat (length (PyStr.split content)) =? 0) eqn:Hz.
    { apply Z.eqb_eq in Hz. done. }
    set (analysis1 := assoc_set k _ analysis).
    destruct (IH analysis1) as (analysis' & Hrun & Hkeys & Hlen & _).
    exists analysis'. split; [exact Hrun|].
    destruct (assoc_set_keys k
                (mkKeywordData (py_count (PyStr.lower content) (PyStr.lower k))
                   (round2 (PrimFloat.mul
                              (PrimFloat.div
                                 (float_of_int
                                    (py_count (PyStr.lower content) (PyStr.lower k)))
                                 (float_of_int
                                    (Z.of_nat (length (PyStr.split content)))))
                              (float_of_int 100))))
                analysis) as [Hk1 Hk2].
    fold analysis1 in Hk1, Hk2. split; [|split].
    + intros x. rewrite Hkeys, Hk1, elem_of_cons. tauto.
    + cbn [length]. lia.
    + intros _ ->. cbn in Hlen.
      assert (k ∈ map fst analysis1) as Hin by (apply Hk1; by left).
      destruct analysis1; [by apply not_elem_of_nil in Hin|cbn in Hlen; lia].
Qed.

(** X24.  [optimize_for_seo] never raises.  For an empty list of
    keywords, and for a content without a word, all it returns is the
    error ['division by zero']; in every other case it returns an
    analysis with one entry for each distinct keyword, at most three
    recommendations, a score between 30 and 100 and the enhanced
    content. *)
Theorem optimize_for_seo_needs_words_and_keywords
    round2 float_sum blog_content keywords :
  (keywords = [] \/ word_count_of blog_content = 0 ->
   optimize_for_seo round2 float_sum blog_content keywords
   = SeoError "division by zero")
  /\ (keywords <> [] -> word_count_of blog_content <> 0 ->
      exists keyword_analysis recommendations seo_score,
        optimize_for_seo round2 float_sum blog_content keywords
        = SeoOk keyword_analysis recommendations seo_score
            (_add_seo_enhancements blog_content keywords)
        /\ (forall k, k ∈ map fst keyword_analysis <-> k ∈ keywords)
        /\ (1 <= length keyword_analysis <= length keywords)%nat
        /\ (length recommendations <= 3)%nat
        /\ 30 <= seo_score <= 100).
Proof.
  unfold word_count_of. split.
  - intros [->|Hwords].
    + reflexivity.
    + unfold optimize_for_seo. cbv zeta. destruct keywords as [|k ks].
      * reflexivity.
      * cbn [analyse_keywords]. unfold analyse_keyword, true_div.
        by rewrite Hwords.
  - intros Hkeys Hwords. unfold optimize_for_seo. cbv zeta.
    destruct (analyse_keywords_spec round2 blog_content keywords Hwords [])
      as (analysis & -> & Hk & Hlen & Hne).
    specialize (Hne Hkeys).
    destruct (seo_score_is_between_30_and_100_aux float_sum blog_content analysis Hne)
      as (score & -> & Hscore & _).
    eexists _, _, _. split; [reflexivity|]. split; [|split; [|split]].
    + intros k. rewrite Hk. split; [|auto]. intros [?|?%not_elem_of_nil]; done.
    + cbn in Hlen. destruct analysis; [done|]. cbn [length] in *. lia.
    + rewrite !length_app.
      destruct (existsb _ _); destruct (existsb _ _);
        destruct (heading_count blog_content <? 3); cbn; lia.
    + exact Hscore.
Qed.

Lemma lstrip_by_nil p l : PyStr.lstrip_by p l = [] <-> forallb p l = true.
Proof.
  induction l as [|c l IH]; cbn; [done|].
  destruct (p c); cbn; [exact IH|]. split; discriminate.
Qed.

Lemma strip_by_nil p l : PyStr.strip_by p l = [] <-> forallb p l = true.
Proof.
  unfold PyStr.strip_by. split.
  - intros H. apply (f_equal (@rev _)) in H. rewrite rev_involutive in H. cbn in H.
    apply lstrip_by_nil in H.
    destruct (lstrip_by_split p l) as (d & Hl & Hd).
    rewrite Hl, forallb_app, Hd. cbn.
    rewrite forallb_forall in *. intros x Hx. apply H. by apply -> in_rev.
  - intros H. apply lstrip_by_nil in H. by rewrite H.
Qed.

Lemma strip_nonempty_app s sfx :
  String.eqb (PyStr.strip s) "" = false ->
  String.eqb (PyStr.strip (s +:+ sfx)) "" = false.
Proof.
  rewrite !eqb_empty, !strip_chars, chars_app. intros Hs Hnil. apply Hs.
  apply strip_by_nil in Hnil. apply strip_by_nil.
  rewrite forallb_app in Hnil. by apply andb_prop in Hnil as [? _].
Qed.

Lemma startswith_app s sfx c :
  s <> "" ->
  PyStr.startswith (s +:+ sfx) (String c "") = PyStr.startswith s (String c "").
Proof.
  intros Hs. unfold PyStr.startswith. rewrite !prefix_one, chars_app.
  destruct s as [|x s]; [done|]. reflexivity.
Qed.

Lemma is_paragraph_app line sfx :
  is_paragraph line = true -> is_paragraph (line +:+ sfx) = true.
Proof.
  unfold is_paragraph. intros [[H1 H2]%andb_prop H3]%andb_prop.
  apply negb_true_iff in H1.
  assert (line <> "") as Hne.
  { intros ->. discriminate. }
  rewrite !(startswith_app _ _ _ Hne), H2, H3.
  by rewrite (strip_nonempty_app _ _ H1).
Qed.

Lemma prefixb_app p l : prefixb p (p ++ l) = true.
Proof. induction p as [|c p IH]; [done|]. cbn. by rewrite Ascii.eqb_refl. Qed.

Lemma contains_go_app a sub b : contains_go sub (a ++ sub ++ b) = true.
Proof.
  induction a as [|c a IH]; cbn [app].
  - destruct (sub ++ b) eqn:Hl; cbn [contains_go];
      rewrite <- Hl, prefixb_app; done.
  - cbn [contains_go]. rewrite IH. apply orb_true_r.
Qed.

Lemma lower_app a b : PyStr.lower (a +:+ b) = PyStr.lower a +:+ PyStr.lower b.
Proof. unfold PyStr.lower. by rewrite chars_app, map_app, str_app. Qed.

Lemma py_contains_inner a sub b : py_contains (a +:+ sub +:+ b) sub = true.
Proof. unfold py_contains. rewrite !chars_app. apply contains_go_app. Qed.

Lemma one_line_app a b : one_line (a +:+ b) = one_line a && one_line b.
Proof. unfold one_line. by rewrite chars_app, forallb_app. Qed.

(** X25.  [_add_seo_enhancements] keeps the number of lines, and
    enhancing an enhanced content changes nothing: the sentence with the
    first keyword is not added twice.  The first keyword has to be free
    of line feeds. *)
Theorem add_seo_enhancements_idempotent content keywords :
  (forall keyword, head keywords = Some keyword -> one_line keyword = true) ->
  _add_seo_enhancements (_add_seo_enhancements content keywords) keywords
  = _add_seo_enhancements content keywords
  /\ line_count_of (_add_seo_enhancements content keywords) = line_count_of content.
Proof.
  intros Hkw.
  set (lines := PyStr.split_on "010" content).
  assert (_add_seo_enhancements content keywords =
          match list_find (fun line => is_paragraph line = true) lines with
          | Some (first_paragraph_idx, first_line) =>
              match keywords with
              | keyword0 :: _ =>
                  if negb (existsb
                             (fun keyword =>
                                py_contains (PyStr.lower first_line)
                                  (PyStr.lower keyword))
                             (PyStr.take 2 keywords))
                  then PyStr.join (String "010" "")
                         (<[first_paragraph_idx :=
                              first_line +:+ " Understanding " +:+ keyword0
                              +:+ " is crucial."]> lines)
                  else content
              | [] => content
              end
          | None => content
          end) as Hval by reflexivity.
  destruct (list_find (fun line => is_paragraph line = true) lines)
    as [[i first_line]|] eqn:Hfind; [|by rewrite !Hval].
  destruct keywords as [|keyword0 keywords']; [by rewrite !Hval|].
  destruct (negb (existsb _ _)) eqn:Hany; [|by rewrite !Hval].
  specialize (Hkw keyword0 eq_refl).
  set (sentence := " Understanding " +:+ keyword0 +:+ " is crucial.") in *.
  change (first_line +:+ " Understanding " +:+ keyword0 +:+ " is crucial.")
    with (first_line +:+ sentence) in Hval.
  set (enhanced_lines := <[i := first_line +:+ sentence]> lines) in *.
  rewrite Hval. clear Hval.
  apply list_find_Some in Hfind as (Hi & Hpar & Hbefore).
  assert (Forall (fun s => one_line s = true) lines) as Hlines.
  { by apply split_on_go_one_line. }
  assert (one_line first_line = true) as Hfl.
  { rewrite Forall_forall in Hlines. apply Hlines.
    by eapply list_elem_of_lookup_2. }
  assert (PyStr.split_on "010" (PyStr.join (String "010" "") enhanced_lines)
          = enhanced_lines) as Hback.
  { apply split_on_join_lines.
    - intros Hnil. apply (f_equal length) in Hnil. unfold enhanced_lines in Hnil.
      rewrite length_insert in Hnil. apply lookup_lt_Some in Hi. cbn in Hnil. lia.
    - apply Forall_insert; [done|]. unfold sentence.
      rewrite !one_line_app, Hfl, Hkw. reflexivity. }
  split.
  2:{ unfold line_count_of. rewrite Hback. unfold enhanced_lines.
      by rewrite length_insert. }
  unfold _add_seo_enhancements. cbv zeta. rewrite Hback.
  assert (list_find (fun line => is_paragraph line = true) enhanced_lines
          = Some (i, first_line +:+ sentence)) as ->.
  { apply list_find_Some. split; [|split].
    - apply list_lookup_insert_eq. by apply lookup_lt_Some in Hi.
    - by apply is_paragraph_app.
    - intros j y Hj Hlt. apply (Hbefore j y); [|done].
      unfold enhanced_lines in Hj. rewrite list_lookup_insert_ne in Hj by lia. done. }
  assert (existsb
            (fun keyword =>
               py_contains (PyStr.lower (first_line +:+ sentence)) (PyStr.lower keyword))
            (PyStr.take 2 (keyword0 :: keywords')) = true) as ->; [|done].
  change (PyStr.take 2 (keyword0 :: keywords'))
    with (keyword0 :: firstn 1 keywords').
  cbn [existsb]. unfold sentence.
  rewrite !lower_app.
  rewrite <- (append_assoc (PyStr.lower first_line)).
  by rewrite py_contains_inner.
Qed.

Lemma add_seo_enhancements_witness :
  (forall keyword, head ["AI"; "Cloud"] = Some keyword -> one_line keyword = true)
  /\ _add_seo_enhancements (_add_seo_enhancements "Some text" ["AI"; "Cloud"])
       ["AI"; "Cloud"]
     = _add_seo_enhancements "Some text" ["AI"; "Cloud"]
  /\ line_count_of (_add_seo_enhancements "Some text" ["AI"; "Cloud"])
     = line_count_of "Some text".
Proof.
  assert (forall keyword, head ["AI"; "Cloud"] = Some keyword ->
                          one_line keyword = true) as H.
  { intros keyword [= <-]. reflexivity. }
  exact (conj H (add_seo_enhancements_idempotent "Some text" ["AI"; "Cloud"] H)).
Defined.

(** ** The statistics store does not bear on a run *)

Lemma without_store_fields w w' :
  without_store w = without_store w' ->
  stats w = stats w' /\ publishers w = publishers w'
  /\ blog_posts w = blog_posts w' /\ db_inserts w = db_inserts w'
  /\ publish_calls w = publish_calls w' /\ completions w = completions w'
  /\ draws w = draws w' /\ clock w = clock w' /\ jobs w = jobs w'.
Proof. unfold without_store. intros [= ? ? ? ? ? ? ? ? ?]. repeat split; done. Qed.

Lemma without_store_intro w w' :
  stats w = stats w' -> publishers w = publishers w' ->
  blog_posts w = blog_posts w' -> db_inserts w = db_inserts w' ->
  publish_calls w = publish_calls w' -> completions w = completions w' ->
  draws w = draws w' -> clock w = clock w' -> jobs w = jobs w' ->
  without_store w = without_store w'.
Proof. unfold without_store. by intros -> -> -> -> -> -> -> -> ->. Qed.

Ltac same_fields H :=
  apply without_store_fields in H;
  destruct H as (?&?&?&?&?&?&?&?&?).

Lemma blind_ret {A} (a : A) : store_blind (mret a) (mret a).
Proof. intros w w' H. by split. Qed.

Lemma blind_raise {A} e : store_blind (raise e : M A) (raise e).
Proof. intros w w' H. by split. Qed.

Lemma blind_bind {A B} (m m' : M A) (k k' : A -> M B) :
  store_blind m m' -> (forall a, store_blind (k a) (k' a)) ->
  store_blind (m ≫= k) (m' ≫= k').
Proof.
  intros Hm Hk w w' H. destruct (Hm w w' H) as [Ho Hw]. unfold_monad.
  destruct (m w) as [[a|e] w1], (m' w') as [[a'|e'] w1']; cbn in Ho, Hw;
    try discriminate.
  - injection Ho as <-. by apply Hk.
  - injection Ho as <-. by split.
Qed.

Lemma blind_try {A} (m m' : M A) (h h' : string -> M A) :
  store_blind m m' -> (forall e, store_blind (h e) (h' e)) ->
  store_blind (try_except m h) (try_except m' h').
Proof.
  intros Hm Hh w w' H. destruct (Hm w w' H) as [Ho Hw]. unfold try_except.
  destruct (m w) as [[a|e] w1], (m' w') as [[a'|e'] w1']; cbn in Ho, Hw;
    try discriminate.
  - injection Ho as <-. by split.
  - injection Ho as <-. by apply Hh.
Qed.

(** A computation that begins by looking at the world. *)
Lemma blind_get {A} (k k' : World -> M A) :
  (forall w w', without_store w = without_store w' -> store_blind (k w) (k' w')) ->
  store_blind (get_world ≫= k) (get_world ≫= k').
Proof. intros Hk w w' H. unfold_monad. by apply Hk. Qed.

Lemma blind_modify (f : World -> World) :
  (forall w w', without_store w = without_store w' ->
                without_store (f w) = without_store (f w')) ->
  store_blind (modify f) (modify f).
Proof. intros Hf w w' H. split; [done|]. by apply Hf. Qed.

Lemma blind_set_stats f : store_blind (modify (set_stats f)) (modify (set_stats f)).
Proof.
  apply blind_modify. intros w w' Hsame. same_fields Hsame.
  apply without_store_intro; cbn; congruence.
Qed.

Lemma blind_now : store_blind now now.
Proof.
  intros w w' Hsame. same_fields Hsame. unfold now. cbn. split; [congruence|].
  apply without_store_intro; cbn; congruence.
Qed.

Lemma blind_for_each {A B} (body body' : A -> B -> M B) l :
  (forall x acc, store_blind (body x acc) (body' x acc)) ->
  forall acc, store_blind (for_each l body acc) (for_each l body' acc).
Proof.
  intros Hbody. induction l as [|x l IH]; intros acc; cbn [for_each].
  - apply blind_ret.
  - apply blind_bind; [apply Hbody|apply IH].
Qed.

Lemma blind_dict_item d k : store_blind (dict_item d k) (dict_item d k).
Proof. unfold dict_item. destruct (d !! k); [apply blind_ret|apply blind_raise]. Qed.

Lemma blind_as_str v method : store_blind (as_str v method) (as_str v method).
Proof. destruct v; cbn; (apply blind_ret || apply blind_raise). Qed.

Lemma blind_save_statistics env fails :
  store_blind (_save_statistics (set_stats_write_fails fails env))
              (_save_statistics env).
Proof.
  intros w w' H. rewrite !save_statistics_eq. split; [done|].
  same_fields H. unfold after_statistics_write.
  change (database_type (set_stats_write_fails fails env)) with (database_type env).
  destruct (String.eqb (database_type env) "mongodb");
    apply without_store_intro; cbn; congruence.
Qed.

Lemma blind_generate_blog env fails topic max_words audience style :
  store_blind
    (generate_blog (set_stats_write_fails fails env) topic max_words audience style)
    (generate_blog env topic max_words audience style).
Proof.
  unfold generate_blog. apply blind_try; [|intros; apply blind_raise].
  destruct (String.eqb (PyStr.strip topic) ""); [apply blind_raise|].
  apply blind_bind.
  - unfold _generate_content. apply blind_get. intros w w' H.
    apply blind_bind.
    { apply blind_modify. intros w1 w1' Hsame1. same_fields Hsame1.
      apply without_store_intro; cbn; congruence. }
    intros _. same_fields H.
    change (chat_blog (set_stats_write_fails fails env)) with (chat_blog env).
    replace (completions w') with (completions w) by done.
    destruct (chat_blog env _ _ _ _ _); (apply blind_ret || apply blind_raise).
  - intros raw. apply blind_bind; [|intros; apply blind_ret].
    unfold _process_blog_content. destruct raw as [d|err]; [|apply blind_raise].
    apply blind_bind; [apply blind_dict_item|]. intros v.
    apply blind_bind; [apply blind_as_str|]. intros content.
    change (BLOG_MAX_LENGTH (set_stats_write_fails fails env))
      with (BLOG_MAX_LENGTH env).
    destruct (BLOG_MAX_LENGTH env <? _);
      (apply blind_bind; [apply blind_dict_item|]; intros t;
       apply blind_bind; [apply blind_as_str|]; intros title;
       apply blind_bind; [apply blind_now|]; intros created_at;
       apply blind_ret).
Qed.

Lemma blind_insert_row env fails row :
  store_blind (insert_row (set_stats_write_fails fails env) row) (insert_row env row).
Proof.
  unfold insert_row. apply blind_get. intros w w' Hsame. same_fields Hsame.
  change (insert_error (set_stats_write_fails fails env)) with (insert_error env).
  replace (db_inserts w') with (db_inserts w) by done.
  replace (blog_posts w') with (blog_posts w) by done.
  destruct (insert_error env (db_inserts w) row).
  - apply blind_bind; [|intros; apply blind_raise].
    apply blind_modify. intros w1 w1' Hsame1. same_fields Hsame1.
    apply without_store_intro; cbn; congruence.
  - apply blind_modify. intros w1 w1' Hsame1. same_fields Hsame1.
    apply without_store_intro; cbn; congruence.
Qed.

Lemma blind_save_blog env fails blog_data :
  store_blind (_save_blog_to_database (set_stats_write_fails fails env) blog_data)
              (_save_blog_to_database env blog_data).
Proof.
  unfold _save_blog_to_database. apply blind_try; [|intros; apply blind_raise].
  change (database_type (set_stats_write_fails fails env)) with (database_type env).
  destruct (String.eqb (database_type env) "mongodb").
  { apply blind_bind; [apply blind_now|]. intros t.
    apply blind_bind; [apply blind_insert_row|]. intros; apply blind_ret. }
  destruct (String.eqb (database_type env) "mysql" && _ && _); [|apply blind_ret].
  apply blind_bind; [apply blind_dict_item|]. intros title.
  apply blind_bind; [apply blind_dict_item|]. intros content.
  apply blind_bind; [apply blind_insert_row|]. intros; apply blind_ret.
Qed.

Lemma blind_publish_one title content tags name results :
  store_blind (publish_one title content tags name results)
              (publish_one title content tags name results).
Proof.
  unfold publish_one. apply blind_get. intros w w' Hsame. same_fields Hsame.
  replace (publishers w') with (publishers w) by done.
  destruct (registry_lookup name (publishers w)) as [p|]; [|apply blind_ret].
  apply blind_try; [|intros; apply blind_ret].
  apply blind_bind; [|intros; apply blind_ret].
  assert (store_blind (invoke_publish_post name p title content tags)
                      (invoke_publish_post name p title content tags)) as Hinv.
  { intros w1 w1' Hsame1. same_fields Hsame1. unfold invoke_publish_post. cbn.
    split; [congruence|]. apply without_store_intro; cbn; congruence. }
  unfold dispatch. destruct (pub_class p); (exact Hinv || apply blind_ret).
Qed.

Lemma blind_publish_blog blog_data platforms :
  store_blind (_publish_blog blog_data platforms) (_publish_blog blog_data platforms).
Proof.
  unfold _publish_blog. apply blind_try; [|intros; apply blind_ret].
  apply blind_get. intros w w' Hsame. same_fields Hsame.
  replace (publishers w') with (publishers w) by done.
  destruct (publishers w) eqn:Hreg; [apply blind_ret|]. rewrite <- Hreg.
  apply blind_bind; [apply blind_dict_item|]. intros title.
  apply blind_bind; [apply blind_dict_item|]. intros content.
  apply blind_bind.
  - unfold publish_to_all. apply blind_get. intros w1 w1' Hsame1. same_fields Hsame1.
    replace (publishers w1') with (publishers w1) by done.
    apply blind_for_each. intros; apply blind_publish_one.
  - intros results. apply blind_bind; [|intros; apply blind_ret].
    unfold count_successes. destruct (existsb _ _); (apply blind_ret || apply blind_raise).
Qed.

(** X27.  Which writes of the statistics fail, and what the persisted
    copy holds, has no bearing on a run of the job body: the report it
    returns, the records it stores, the invocations it makes and the
    counters it leaves are the same. *)
Theorem statistics_store_does_not_bear_on_a_run
    env fails topics max_words publish_immediately platforms w w' :
  without_store w = without_store w' ->
  fst (_generate_and_publish_blog (set_stats_write_fails fails env) topics max_words
         publish_immediately platforms w)
  = fst (_generate_and_publish_blog env topics max_words publish_immediately
           platforms w')
  /\ without_store
       (snd (_generate_and_publish_blog (set_stats_write_fails fails env) topics
               max_words publish_immediately platforms w))
     = without_store
         (snd (_generate_and_publish_blog env topics max_words publish_immediately
                 platforms w')).
Proof.
  revert w w'.
  change (store_blind
            (_generate_and_publish_blog (set_stats_write_fails fails env) topics
               max_words publish_immediately platforms)
            (_generate_and_publish_blog env topics max_words publish_immediately
               platforms)).
  unfold _generate_and_publish_blog. apply blind_try.
  2:{ intros e. apply blind_bind; [apply blind_set_stats|]. intros _.
      apply blind_bind; [apply blind_save_statistics|]. intros; apply blind_ret. }
  apply blind_bind.
  { unfold _select_topic. apply blind_get. intros w w' Hsame. same_fields Hsame.
    apply blind_bind.
    - apply blind_modify. intros w1 w1' Hsame1. same_fields Hsame1.
      apply without_store_intro; cbn; congruence.
    - intros _. change (random_draw (set_stats_write_fails fails env))
        with (random_draw env).
      replace (draws w') with (draws w) by done. apply blind_ret. }
  intros topic. apply blind_bind; [apply blind_generate_blog|]. intros d0.
  apply blind_bind; [apply blind_save_blog|]. intros blog_data.
  apply blind_bind; [apply blind_set_stats|]. intros _.
  apply blind_bind; [apply blind_now|]. intros t.
  apply blind_bind; [apply blind_set_stats|]. intros _.
  apply blind_bind; [apply blind_save_statistics|]. intros _.
  apply blind_bind.
  { destruct publish_immediately; [apply blind_publish_blog|apply blind_ret]. }
  intros publish_result. apply blind_bind.
  { destruct (report_success publish_result).
    - apply blind_bind; [apply blind_set_stats|]. intros _.
      apply blind_bind; [apply blind_now|]. intros t'. apply blind_set_stats.
    - apply blind_set_stats. }
  intros _. apply blind_bind; [apply blind_save_statistics|].
  intros; apply blind_ret.
Qed.

Lemma statistics_store_witness :
  without_store (world_with []) = without_store (world_with [])
  /\ fst (_generate_and_publish_blog (set_stats_write_fails (fun _ => true) env_ok)
            ["x"] 800 false None (world_with []))
     = fst (_generate_and_publish_blog env_ok ["x"] 800 false None (world_with []))
  /\ without_store
       (snd (_generate_and_publish_blog (set_stats_write_fails (fun _ => true) env_ok)
               ["x"] 800 false None (world_with [])))
     = without_store
         (snd (_generate_and_publish_blog env_ok ["x"] 800 false None (world_with []))).
Proof.
  exact (conj eq_refl
           (statistics_store_does_not_bear_on_a_run env_ok (fun _ => true) ["x"] 800
              false None (world_with []) (world_with []) eq_refl)).
Defined.
